(** * plot_learning_curves.py: synthetic trajectories and their renderers

    A shallow embedding of [plot_learning_curves.py].

    Modelling conventions.
    - numpy [int64] values are integers of [Z]; numpy/Python floats are real
      numbers of [R], so rounding, infinities and NaN are outside the model,
      with one exception: the length of [np.arange(start, stop, step)] is the
      ceiling of the binary64 quotient [(stop - start) / step], and that
      rounding is modelled exactly ([np.true_divide]).
    - [np.arange] on Python ints gives an [int64] array when its three
      arguments fit in [int64].  Beyond that range numpy changes the element
      type: an argument outside [-2^63, 2^64) makes an array of Python
      objects, on which [np.exp] raises [TypeError]; with uint64 or float64
      elements the arithmetic on the array changes.  Calls of these last
      kinds are not described here and end in [OutsideModel].
    - A call of [np.random.normal] or [np.random.rand] consumes outcomes of the
      global random state.  A [RandomState] is one realization: the sequence
      of standard-normal outcomes and the sequence of uniform outcomes still
      to be drawn.  [np.random.normal(loc, scale, n)] returns
      [loc + scale * z] for the next [n] standard-normal outcomes [z].
    - Python exceptions are the [Raise] branch of [result].
    - A data frame is its row count with its columns in insertion order.
    - A renderer is a state transformer on a [World]: the files saved so far,
      the directories made, the console lines and the number of open figures.
      The operating system may refuse a request ([os_allows]); a refusal is an
      [OSError].
    - matplotlib lays a text out in math mode when it holds an even, positive
      number of unescaped dollar signs, and raises [ValueError] when its
      mathtext parser rejects the text.  The parser is not modelled: whether
      it accepts a string is part of the world ([mathtext_parses]).  The texts of
      the axes are laid out by [plt.tight_layout], the whole figure by
      [plt.savefig] before the file is written. *)

From Stdlib Require Import ZArith List String Ascii Bool Lia Reals Lra.
Import ListNotations.

Set Implicit Arguments.

(* ------------------------------------------------------------------ *)
(** ** Exceptions *)

Inductive exn : Type :=
| ValueError
| IndexError
| KeyError
| ZeroDivisionError
| OSError
| TypeError
| OutsideModel.   (* no Python exception: a call this embedding does not describe *)

Inductive result (A : Type) : Type :=
| Ok (a : A)
| Raise (e : exn).

Arguments Ok {A} a.
Arguments Raise {A} e.

(* ------------------------------------------------------------------ *)
(** ** The global random state *)

Record RandomState : Type := mkRandomState {
  gauss : nat -> R;      (* outcomes of the standard normal draws to come *)
  uniform : nat -> R     (* outcomes of the uniform [0,1) draws to come *)
}.

Definition take_stream (s : nat -> R) (n : nat) : list R := map s (seq 0 n).
Definition drop_stream (s : nat -> R) (n : nat) : nat -> R := fun i => s (n + i)%nat.

(** A computation that may draw random numbers and may raise. *)
Definition Gen (A : Type) : Type := RandomState -> result (A * RandomState).

Definition gret {A} (a : A) : Gen A := fun rs => Ok (a, rs).

Definition gbind {A B} (m : Gen A) (k : A -> Gen B) : Gen B :=
  fun rs => match m rs with
            | Ok (a, rs') => k a rs'
            | Raise e => Raise e
            end.

Definition glift {A} (r : result A) : Gen A :=
  fun rs => match r with Ok a => Ok (a, rs) | Raise e => Raise e end.

Declare Scope gen_scope.
Delimit Scope gen_scope with gen.
Notation "x <- m ;; k" := (gbind m (fun x => k))
  (at level 100, m at next level, right associativity) : gen_scope.

(* ------------------------------------------------------------------ *)
(** ** numpy *)

Module np.

(** [start, start+step, ...], [n] elements. *)
Fixpoint linear (start step : Z) (n : nat) : list Z :=
  match n with
  | O => []
  | S k => start :: linear (start + step) step k
  end.

(** [ceil((stop - start) / step)] on the integers, or 0 when that is
    negative: the number of elements of [np.arange(start, stop, step)] when
    the quotient is exact in binary64, as it is for step 1 below 2^53
    elements. *)
Definition arange_len (start stop step : Z) : Z :=
  if (0 <? step)%Z
  then Z.max 0 ((stop - start + step - 1) / step)
  else Z.max 0 ((start - stop + (- step) - 1) / (- step)).

(** The range of [int64], the element type of an array of Python ints. *)
Definition int64_min : Z := (-9223372036854775808)%Z.
Definition int64_max : Z := 9223372036854775807%Z.

Definition in_int64 (z : Z) : bool := ((int64_min <=? z)%Z && (z <=? int64_max)%Z)%bool.

(** [num / den] rounded to the nearest integer, ties to the even one. *)
Definition round_half_even (num den : Z) : Z :=
  (let q := num / den in
   let r := num mod den in
   if 2 * r <? den then q
   else if den <? 2 * r then q + 1
   else if Z.even q then q else q + 1)%Z.

(** The fraction [a / (b * 2^e)] with integer numerator and denominator. *)
Definition scale_fraction (a b e : Z) : Z * Z :=
  (if 0 <=? e then (a, b * 2 ^ e) else (a * 2 ^ (- e), b))%Z.

(** [a / b] on positive Python ints: the binary64 number nearest to the
    quotient, ties to even, as mantissa [m] and exponent [e] of the value
    [m * 2^e] with [2^52 <= m <= 2^53]. *)
Definition true_divide (a b : Z) : Z * Z :=
  (let e0 := Z.log2 a - Z.log2 b - 53 in
   let (n0, d0) := scale_fraction a b e0 in
   let e := if n0 / d0 <? 2 ^ 53 then e0 else e0 + 1 in
   let (n, d) := scale_fraction a b e in
   (round_half_even n d, e))%Z.

(** [ceil(m * 2^e)] *)
Definition ceil_double (m e : Z) : Z :=
  (if 0 <=? e then m * 2 ^ e else (m + 2 ^ (- e) - 1) / 2 ^ (- e))%Z.

(** Number of elements of [np.arange(start, stop, step)] as numpy computes
    it for a step other than 0: the ceiling of the binary64 quotient
    [(stop - start) / step], or 0 when the quotient is not positive. *)
Definition arange_len_double (start stop step : Z) : Z :=
  (let delta := stop - start in
   if ((0 <? delta) && (0 <? step) || (delta <? 0) && (step <? 0))%bool then
     let (m, e) := true_divide (Z.abs delta) (Z.abs step) in ceil_double m e
   else 0)%Z.

(** Element types.  A Python int is found to be [int64] when it fits,
    [uint64] when it fits there, and a Python object otherwise; two element
    types are promoted to one that holds both. *)
Inductive dtype : Type :=
| int64
| uint64
| float64
| object.

Definition uint64_max : Z := 18446744073709551615%Z.

Definition discover (z : Z) : dtype :=
  if in_int64 z then int64
  else if ((0 <=? z)%Z && (z <=? uint64_max)%Z)%bool then uint64
  else object.

Definition promote (a b : dtype) : dtype :=
  match a, b with
  | object, _ | _, object => object
  | int64, int64 => int64
  | uint64, uint64 => uint64
  | _, _ => float64
  end.

(** The element type of [np.arange(start, stop, step)]: at least [int64]. *)
Definition arange_dtype (start stop step : Z) : dtype :=
  promote (promote (promote int64 (discover start)) (discover stop)) (discover step).

(** [np.arange(start, stop, step)] on Python ints: the element type and the
    elements.  The length is computed on the Python ints; an array of
    objects is filled only up to two elements. *)
Definition arange3 (start stop step : Z) : result (dtype * list Z) :=
  if (step =? 0)%Z then Raise ZeroDivisionError
  else
    let len := arange_len_double start stop step in
    match arange_dtype start stop step with
    | int64 => Ok (int64, linear start step (Z.to_nat len))
    | object =>
        if ((1 <=? len)%Z && (len <=? 2)%Z)%bool
        then Ok (object, linear start step (Z.to_nat len))
        else Raise OutsideModel
    | _ => Raise OutsideModel
    end.

(** The operand of [np.exp(-steps / (epochs * c))]: real numbers for an
    [int64] array; [np.exp] has no loop for Python objects.  (Beyond 2^1023
    the product [epochs * c] overflows first.) *)
Definition exp_operand (steps : dtype * list Z) (epochs : Z) : result (list Z) :=
  match steps with
  | (int64, a) => Ok a
  | (object, _ :: _) => if (Z.abs epochs <? 2 ^ 1023)%Z then Raise TypeError
                        else Raise OutsideModel
  | _ => Raise OutsideModel
  end.

(** [np.arange(stop)] and [np.arange(start, stop)]: step 1, where the
    quotient is the integer [stop - start]; an array of 2^53 elements or more
    is beyond any memory, so the rounding of its length is not modelled. *)
Definition arange2 (start stop : Z) : list Z :=
  linear start 1 (Z.to_nat (arange_len start stop 1)).

Definition arange (stop : Z) : list Z := arange2 0 stop.

(** [np.random.normal(loc, scale, size)]. *)
Definition random_normal (loc scale : R) (size : Z) : Gen (list R) :=
  fun rs =>
    if (size <? 0)%Z then Raise ValueError
    else if Rlt_dec scale 0 then Raise ValueError
    else
      let n := Z.to_nat size in
      Ok (map (fun z => (loc + scale * z)%R) (take_stream (gauss rs) n),
          {| gauss := drop_stream (gauss rs) n; uniform := uniform rs |}).

(** [np.random.rand(size)]. *)
Definition random_rand (size : Z) : Gen (list R) :=
  fun rs =>
    if (size <? 0)%Z then Raise ValueError
    else
      let n := Z.to_nat size in
      Ok (take_stream (uniform rs) n,
          {| gauss := gauss rs; uniform := drop_stream (uniform rs) n |}).

(** Element-wise binary operation on two arrays of one shape. *)
Fixpoint zip_with {A B C} (f : A -> B -> C) (xs : list A) (ys : list B) : list C :=
  match xs, ys with
  | x :: xs', y :: ys' => f x y :: zip_with f xs' ys'
  | _, _ => []
  end.

Definition add (xs ys : list R) : list R := zip_with Rplus xs ys.

Definition abs (xs : list R) : list R := map Rabs xs.

(** [a[-1]]. *)
Definition last_item (a : list Z) : result Z :=
  match rev a with
  | [] => Raise IndexError
  | x :: _ => Ok x
  end.

End np.

(* ------------------------------------------------------------------ *)
(** ** pandas *)

Inductive cell : Type :=
| Int (z : Z)
| Float (r : R).

Module pd.

Record DataFrame : Type := mkDataFrame {
  nrows : nat;
  columns : list (string * list cell)
}.

(** [pd.DataFrame()] *)
Definition empty_frame : DataFrame := {| nrows := 0; columns := [] |}.

(** [pd.DataFrame(dict)]: all arrays must have one length. *)
Definition of_dict (d : list (string * list cell)) : result DataFrame :=
  match d with
  | [] => Ok empty_frame
  | (_, c) :: rest =>
      if forallb (fun kc => Nat.eqb (List.length (snd kc)) (List.length c)) rest
      then Ok {| nrows := List.length c; columns := d |}
      else Raise ValueError
  end.

Definition column_names (df : DataFrame) : list string := map fst (columns df).

(** [name in df.columns] *)
Definition has_column (name : string) (df : DataFrame) : bool :=
  existsb (String.eqb name) (column_names df).

(** [df.empty]: an axis of length 0. *)
Definition empty (df : DataFrame) : bool :=
  match columns df with
  | [] => true
  | _ :: _ => Nat.eqb (nrows df) 0
  end.

Fixpoint lookup (name : string) (cols : list (string * list cell)) : option (list cell) :=
  match cols with
  | [] => None
  | (k, c) :: rest => if String.eqb name k then Some c else lookup name rest
  end.

(** [df[name]] *)
Definition getitem (df : DataFrame) (name : string) : result (list cell) :=
  match lookup name (columns df) with
  | Some c => Ok c
  | None => Raise KeyError
  end.

Fixpoint replace (name : string) (c : list cell) (cols : list (string * list cell))
  : list (string * list cell) :=
  match cols with
  | [] => [(name, c)]
  | (k, c0) :: rest =>
      if String.eqb name k then (k, c) :: rest else (k, c0) :: replace name c rest
  end.

(** [df[name] = c], for a series [c] on the index of [df]. *)
Definition setitem (df : DataFrame) (name : string) (c : list cell) : DataFrame :=
  {| nrows := nrows df; columns := replace name c (columns df) |}.

Definition clip_cell (lower upper : Z) (c : cell) : cell :=
  match c with
  | Int z => Int (Z.min (Z.max z lower) upper)
  | Float r => Float (Rmin (Rmax r (IZR lower)) (IZR upper))
  end.

(** [series.clip(lower, upper)] *)
Definition clip (lower upper : Z) (s : list cell) : list cell :=
  map (clip_cell lower upper) s.

End pd.

Definition ints (a : list Z) : list cell := map Int a.
Definition floats (a : list R) : list cell := map Float a.

(* ------------------------------------------------------------------ *)
(** ** Placeholder data generation *)

Open Scope string_scope.
Open Scope gen_scope.

Definition generate_dummy_maml_trajectory (epochs log_interval : Z) : Gen pd.DataFrame :=
  steps <- glift (np.arange3 log_interval (epochs + 1) log_interval) ;;
  steps <- glift (np.exp_operand steps epochs) ;;
  n1 <- np.random_normal 0 0.02 (Z.of_nat (List.length steps)) ;;
  n2 <- np.random_normal 0 0.02 (Z.of_nat (List.length steps)) ;;
  n3 <- np.random_normal 0 0.05 (Z.of_nat (List.length steps)) ;;
  df <- glift (pd.of_dict
    [ ("log_step", ints steps);
      ("val_loss", floats (np.add
         (map (fun s => 0.7 - 0.3 * (1 - exp (- IZR s / (IZR epochs * 0.3))))%R steps) n1));
      ("val_accuracy", floats (np.add
         (map (fun s => 0.5 + 0.4 * (1 - exp (- IZR s / (IZR epochs * 0.4))))%R steps) n2));
      ("grad_alignment", floats (np.add
         (map (fun s => 0.1 + 0.6 * (1 - exp (- IZR s / (IZR epochs * 0.5))))%R steps) n3)) ]) ;;
  acc <- glift (pd.getitem df "val_accuracy") ;;
  gret (pd.setitem df "val_accuracy" (pd.clip 0 1 acc)).

Definition generate_dummy_sgd_trajectory (num_tasks : Z) : Gen pd.DataFrame :=
  let tasks := np.arange num_tasks in
  n1 <- np.random_normal 0 0.03 num_tasks ;;
  n2 <- np.random_normal 0 0.03 num_tasks ;;
  u <- np.random_rand num_tasks ;;
  df <- glift (pd.of_dict
    [ ("task_idx", ints tasks);
      ("query_loss", floats (np.add
         (map (fun t => 0.6 - 0.2 * (1 - exp (- IZR t / (IZR num_tasks * 0.5))))%R tasks) n1));
      ("query_accuracy", floats (np.add
         (map (fun t => 0.55 + 0.3 * (1 - exp (- IZR t / (IZR num_tasks * 0.6))))%R tasks) n2));
      ("final_support_loss", floats (map (fun x => x * 0.1)%R u));
      ("num_sgd_steps", ints (repeat 100%Z (Z.to_nat num_tasks)));
      ("lr", floats (repeat 0.001%R (Z.to_nat num_tasks))) ]) ;;
  acc <- glift (pd.getitem df "query_accuracy") ;;
  gret (pd.setitem df "query_accuracy" (pd.clip 0 1 acc)).

Definition generate_dummy_drift_data
    (num_points : Z) (type : string) (final_drift_mean final_drift_std : R)
  : Gen pd.DataFrame :=
  if String.eqb type "maml" then
    let epochs := map (fun e => e * 100)%Z (np.arange2 1 (num_points + 1)) in
    n1 <- np.random_normal 0 0.1 num_points ;;
    let drift_from_init := np.add
      (map (fun e => final_drift_mean
                     * (1 - exp (- IZR e / (IZR (num_points * 100) * 0.4))))%R epochs) n1 in
    n2 <- np.random_normal 0.1 0.05 num_points ;;
    last <- glift (np.last_item epochs) ;;
    let drift_from_prev := np.abs
      (np.zip_with
         (fun z e => z * (final_drift_mean / IZR last)
                     * (IZR last - IZR e / 2) / (IZR last / 2))%R n2 epochs) in
    glift (pd.of_dict
      [ ("epoch", ints epochs);
        ("l2_drift_from_init", floats drift_from_init);
        ("l2_drift_from_previous", floats drift_from_prev) ])
  else if String.eqb type "sgd" then
    drifts <- np.random_normal (final_drift_mean * 0.8) final_drift_std num_points ;;
    glift (pd.of_dict [ ("final_l2_drift_from_init", floats (np.abs drifts)) ])
  else gret pd.empty_frame.

Close Scope gen_scope.

(* ------------------------------------------------------------------ *)
(** ** The world of a renderer: file system, console, open figures *)

(** What is drawn on one axes, in drawing order. *)
Inductive artist : Type :=
| Line (x y label color : string) (dashed : bool)
| Hist (x : string) (kde : bool) (color : string) (bins : option Z)
| Text (s : string)
| Title (s : string)
| XLabel (s : string)
| YLabel (s : string)
| Legend
| XLim (lo hi : R)
| YLim (lo hi : R).

Record Figure : Type := mkFigure {
  figsize : Z * Z;
  sharex : bool;
  axs : list (list artist);
  suptitle : option string;
  tight : bool
}.

Inductive request : Type :=
| MakeDirs (d : string)
| WriteFile (p : string).

Record World : Type := mkWorld {
  os_allows : request -> bool;          (* does the operating system grant it *)
  mathtext_parses : string -> bool;     (* does the mathtext parser accept it *)
  files : list (string * Figure);       (* images saved, oldest first *)
  dirs : list string;                   (* directories made *)
  console : list string;                (* lines printed, oldest first *)
  open_figures : nat
}.

(** A renderer step: it changes the world and returns or raises. *)
Definition Plot (A : Type) : Type := World -> result A * World.

Definition pret {A} (a : A) : Plot A := fun w => (Ok a, w).

Definition pbind {A B} (m : Plot A) (k : A -> Plot B) : Plot B :=
  fun w => match m w with
           | (Ok a, w') => k a w'
           | (Raise e, w') => (Raise e, w')
           end.

Definition plift {A} (r : result A) : Plot A := fun w => (r, w).

Declare Scope plot_scope.
Delimit Scope plot_scope with plot.
Notation "x <- m ;; k" := (pbind m (fun x => k))
  (at level 100, m at next level, right associativity) : plot_scope.
Notation "m ;;; k" := (pbind m (fun _ => k))
  (at level 100, right associativity) : plot_scope.

(** [print(s)] *)
Definition print (s : string) : Plot unit :=
  fun w => (Ok tt, {| os_allows := os_allows w; mathtext_parses := mathtext_parses w;
                      files := files w; dirs := dirs w;
                      console := (console w ++ [s])%list;
                      open_figures := open_figures w |}).

(** [str.replace(old, new)] for one-character [old] and [new]. *)
Fixpoint str_replace (old new : ascii) (s : string) : string :=
  match s with
  | EmptyString => EmptyString
  | String c rest =>
      String (if Ascii.eqb c old then new else c) (str_replace old new rest)
  end.

(** [str(n)] for a length. *)
Fixpoint digits (fuel n : nat) (acc : string) : string :=
  match fuel with
  | O => acc
  | S fuel' =>
      let acc' := String (ascii_of_nat (48 + n mod 10)) acc in
      if Nat.eqb (n / 10) 0 then acc' else digits fuel' (n / 10) acc'
  end.

Definition str_of_nat (n : nat) : string := digits (S n) n EmptyString.

Module os.

Definition starts_with_sep (s : string) : bool :=
  match s with
  | String c _ => Ascii.eqb c "/"
  | EmptyString => false
  end.

Fixpoint ends_with_sep (s : string) : bool :=
  match s with
  | EmptyString => false
  | String c EmptyString => Ascii.eqb c "/"
  | String _ rest => ends_with_sep rest
  end.

(** [os.path.join(a, b)] (posix). *)
Definition path_join (a b : string) : string :=
  if starts_with_sep b then b
  else if (String.eqb a "" || ends_with_sep a)%bool then a ++ b
  else a ++ "/" ++ b.

(** [os.makedirs(d, exist_ok=True)] *)
Definition makedirs (d : string) : Plot unit :=
  fun w =>
    if os_allows w (MakeDirs d)
    then (Ok tt, {| os_allows := os_allows w; mathtext_parses := mathtext_parses w;
                    files := files w;
                    dirs := if existsb (String.eqb d) (dirs w) then dirs w
                            else (dirs w ++ [d])%list;
                    console := console w; open_figures := open_figures w |})
    else (Raise OSError, w).

End os.

Module plt.

(** [plt.subplots(nrows, ncols, figsize=..., sharex=...)] *)
Definition subplots (nrows ncols : nat) (size : Z * Z) (share : bool) : Plot Figure :=
  fun w =>
    (Ok {| figsize := size; sharex := share; axs := repeat [] (nrows * ncols);
           suptitle := None; tight := false |},
     {| os_allows := os_allows w; mathtext_parses := mathtext_parses w;
        files := files w; dirs := dirs w;
        console := console w; open_figures := S (open_figures w) |}).

Definition set_suptitle (s : string) (fig : Figure) : Figure :=
  {| figsize := figsize fig; sharex := sharex fig; axs := axs fig;
     suptitle := Some s; tight := tight fig |}.

(** [s.count(c)] for a character [c]. *)
Fixpoint count_char (c : ascii) (s : string) : nat :=
  match s with
  | EmptyString => 0
  | String d rest => ((if Ascii.eqb d c then 1 else 0) + count_char c rest)%nat
  end.

Definition backslash : ascii := ascii_of_nat 92.

Definition head_is (c : ascii) (s : string) : bool :=
  match s with
  | String d _ => Ascii.eqb d c
  | EmptyString => false
  end.

(** [s.count(r'\$')]: the dollar signs that follow a backslash. *)
Fixpoint count_escaped_dollar (s : string) : nat :=
  match s with
  | EmptyString => 0
  | String c rest =>
      ((if (Ascii.eqb c backslash && head_is "$" rest)%bool then 1 else 0)
       + count_escaped_dollar rest)%nat
  end.

(** [matplotlib.cbook.is_math_text(s)]: an even, positive number of dollar
    signs that are not escaped. *)
Definition is_math_text (s : string) : bool :=
  let dollar_count := (Z.of_nat (count_char "$" s)
                       - Z.of_nat (count_escaped_dollar s))%Z in
  ((0 <? dollar_count)%Z && Z.even dollar_count)%bool.

(** Laying out a text: a text that is not in math mode is drawn as it is; one
    in math mode goes through the mathtext parser. *)
Definition text_ok (parses : string -> bool) (s : string) : bool :=
  (negb (is_math_text s) || parses s)%bool.

(** The texts an artist brings: its own, or the legend label of a line. *)
Definition artist_ok (parses : string -> bool) (a : artist) : bool :=
  match a with
  | Text s | Title s | XLabel s | YLabel s => text_ok parses s
  | Line _ _ label _ _ => text_ok parses label
  | _ => true
  end.

Definition axes_texts_ok (parses : string -> bool) (fig : Figure) : bool :=
  forallb (forallb (artist_ok parses)) (axs fig).

Definition figure_texts_ok (parses : string -> bool) (fig : Figure) : bool :=
  (axes_texts_ok parses fig
   && match suptitle fig with
      | Some s => text_ok parses s
      | None => true
      end)%bool.

(** [plt.tight_layout()]: the texts of the axes are laid out to be measured;
    a text the mathtext parser rejects is a [ValueError]. *)
Definition tight_layout (fig : Figure) : Plot Figure :=
  fun w =>
    if axes_texts_ok (mathtext_parses w) fig
    then (Ok {| figsize := figsize fig; sharex := sharex fig; axs := axs fig;
                suptitle := suptitle fig; tight := true |}, w)
    else (Raise ValueError, w).

(** [plt.savefig(path)]: the figure is drawn, then the file at [path] is
    created or overwritten. *)
Definition savefig (path : string) (fig : Figure) : Plot unit :=
  fun w =>
    if figure_texts_ok (mathtext_parses w) fig then
      if os_allows w (WriteFile path)
      then (Ok tt, {| os_allows := os_allows w; mathtext_parses := mathtext_parses w;
                      files := (files w ++ [(path, fig)])%list;
                      dirs := dirs w; console := console w;
                      open_figures := open_figures w |})
      else (Raise OSError, w)
    else (Raise ValueError, w).

(** [plt.close(fig)] *)
Definition close (fig : Figure) : Plot unit :=
  fun w => (Ok tt, {| os_allows := os_allows w; mathtext_parses := mathtext_parses w;
                      files := files w; dirs := dirs w;
                      console := console w; open_figures := pred (open_figures w) |}).

End plt.

(** [axs[i].<method>(...)]: one more artist on axes [i].  The renderers only
    use indices of axes that [plt.subplots] made. *)
Fixpoint draw_at (i : nat) (a : artist) (panels : list (list artist)) : list (list artist) :=
  match panels, i with
  | [], _ => []
  | p :: rest, O => (p ++ [a])%list :: rest
  | p :: rest, S j => p :: draw_at j a rest
  end.

Definition ax (i : nat) (a : artist) (fig : Figure) : Figure :=
  {| figsize := figsize fig; sharex := sharex fig; axs := draw_at i a (axs fig);
     suptitle := suptitle fig; tight := tight fig |}.

Module sns.

(** [sns.lineplot(ax=axs[i], x=, y=, data=, label=, color=)]: a name that is
    not a column of [data] is a [ValueError]. *)
Definition lineplot (i : nat) (x y : string) (data : pd.DataFrame)
    (label color : string) (dashed : bool) (fig : Figure) : Plot Figure :=
  plift (if (pd.has_column x data && pd.has_column y data)%bool
         then Ok (ax i (Line x y label color dashed) fig)
         else Raise ValueError).

(** [sns.histplot(ax=axs[i], data=, x=, kde=, color=, bins=)] *)
Definition histplot (i : nat) (data : pd.DataFrame) (x : string)
    (kde : bool) (color : string) (bins : option Z) (fig : Figure) : Plot Figure :=
  plift (if pd.has_column x data
         then Ok (ax i (Hist x kde color bins) fig)
         else Raise ValueError).

End sns.

(* ------------------------------------------------------------------ *)
(** ** Plotting functions *)

Open Scope plot_scope.

Definition plot_maml_learning_curves
    (df_maml : pd.DataFrame) (title_suffix output_dir : string) : Plot unit :=
  if pd.empty df_maml then
    print ("MAML dataframe is empty for " ++ title_suffix ++ ". Skipping plot.")
  else
    fig <- plt.subplots 3 1 (10, 12)%Z true ;;
    let epochs_col := "log_step" in
    fig <- sns.lineplot 0 epochs_col "val_loss" df_maml
             "Meta-Validation Loss" "royalblue" false fig ;;
    let fig := ax 0 (YLabel "Loss") fig in
    let fig := ax 0 (Title ("MAML Meta-Validation Loss " ++ title_suffix)) fig in
    let fig := ax 0 Legend fig in
    fig <- sns.lineplot 1 epochs_col "val_accuracy" df_maml
             "Meta-Validation Accuracy" "forestgreen" false fig ;;
    let fig := ax 1 (YLabel "Accuracy") fig in
    let fig := ax 1 (Title ("MAML Meta-Validation Accuracy " ++ title_suffix)) fig in
    let fig := ax 1 Legend fig in
    let fig := ax 1 (YLim 0 1.05) fig in
    fig <- (if pd.has_column "grad_alignment" df_maml then
              fig <- sns.lineplot 2 epochs_col "grad_alignment" df_maml
                       "Gradient Alignment" "purple" false fig ;;
              let fig := ax 2 (YLabel "Cosine Similarity") fig in
              let fig := ax 2 (Title ("MAML Gradient Alignment " ++ title_suffix)) fig in
              pret (ax 2 Legend fig)
            else pret fig) ;;
    let fig := ax 2 (XLabel "Training Steps / Epochs") fig in
    fig <- plt.tight_layout fig ;;
    os.makedirs output_dir ;;;
    plt.savefig (os.path_join output_dir
                   ("maml_learning_curves" ++ str_replace " " "_" title_suffix ++ ".png")) fig ;;;
    print ("Saved MAML learning curves plot to " ++ output_dir ++ "/") ;;;
    plt.close fig.

Definition plot_sgd_performance_distribution
    (df_sgd : pd.DataFrame) (title_suffix output_dir : string) : Plot unit :=
  if pd.empty df_sgd then
    print ("SGD dataframe is empty for " ++ title_suffix ++ ". Skipping plot.")
  else
    fig <- plt.subplots 1 2 (12, 5)%Z false ;;
    fig <- sns.histplot 0 df_sgd "query_accuracy" true "coral" None fig ;;
    let fig := ax 0 (Title ("SGD Query Accuracy Distribution " ++ title_suffix)) fig in
    let fig := ax 0 (XLabel "Query Accuracy") fig in
    let fig := ax 0 (XLim 0 1.05) fig in
    fig <- sns.histplot 1 df_sgd "query_loss" true "skyblue" None fig ;;
    let fig := ax 1 (Title ("SGD Query Loss Distribution " ++ title_suffix)) fig in
    let fig := ax 1 (XLabel "Query Loss") fig in
    let fig := plt.set_suptitle
                 ("SGD Baseline Performance Over " ++ str_of_nat (pd.nrows df_sgd)
                  ++ " Tasks " ++ title_suffix) fig in
    fig <- plt.tight_layout fig ;;
    os.makedirs output_dir ;;;
    plt.savefig (os.path_join output_dir
                   ("sgd_performance_distribution" ++ str_replace " " "_" title_suffix
                    ++ ".png")) fig ;;;
    print ("Saved SGD performance distribution plot to " ++ output_dir ++ "/") ;;;
    plt.close fig.

Definition plot_gradient_alignment_maml
    (df_maml : pd.DataFrame) (title_suffix output_dir : string) : Plot unit :=
  if (pd.empty df_maml || negb (pd.has_column "grad_alignment" df_maml))%bool then
    print ("MAML dataframe for grad alignment is empty or missing column for "
           ++ title_suffix ++ ". Skipping plot.")
  else
    fig <- plt.subplots 1 1 (10, 4)%Z false ;;
    let epochs_col := "log_step" in
    fig <- sns.lineplot 0 epochs_col "grad_alignment" df_maml
             "Gradient Alignment" "purple" false fig ;;
    let fig := ax 0 (YLabel "Cosine Similarity") fig in
    let fig := ax 0 (Title ("MAML Gradient Alignment Over Training " ++ title_suffix)) fig in
    let fig := ax 0 (XLabel "Training Steps / Epochs") fig in
    let fig := ax 0 Legend fig in
    fig <- plt.tight_layout fig ;;
    os.makedirs output_dir ;;;
    plt.savefig (os.path_join output_dir
                   ("maml_gradient_alignment" ++ str_replace " " "_" title_suffix
                    ++ ".png")) fig ;;;
    print ("Saved MAML gradient alignment plot to " ++ output_dir ++ "/") ;;;
    plt.close fig.

Definition plot_weight_drift_comparison
    (df_maml_drift df_sgd_final_drifts : pd.DataFrame) (title_suffix output_dir : string)
  : Plot unit :=
  fig <- plt.subplots 1 2 (15, 6)%Z false ;;
  fig <- (if (negb (pd.empty df_maml_drift)
              && pd.has_column "l2_drift_from_init" df_maml_drift)%bool then
            fig <- sns.lineplot 0 "epoch" "l2_drift_from_init" df_maml_drift
                     "MAML: Drift from Init" "darkorange" false fig ;;
            fig <- (if pd.has_column "l2_drift_from_previous" df_maml_drift then
                      sns.lineplot 0 "epoch" "l2_drift_from_previous" df_maml_drift
                        "MAML: Drift from Prev Checkpoint" "gold" true fig
                    else pret fig) ;;
            let fig := ax 0 (XLabel "MAML Training Epochs") fig in
            let fig := ax 0 (YLabel "L2 Distance (Parameters)") fig in
            let fig := ax 0 (Title ("MAML Weight Drift " ++ title_suffix)) fig in
            pret (ax 0 Legend fig)
          else
            let fig := ax 0 (Text "MAML drift data missing or incomplete") fig in
            pret (ax 0 (Title ("MAML Weight Drift " ++ title_suffix)) fig)) ;;
  fig <- (if (negb (pd.empty df_sgd_final_drifts)
              && pd.has_column "final_l2_drift_from_init" df_sgd_final_drifts)%bool then
            fig <- sns.histplot 1 df_sgd_final_drifts "final_l2_drift_from_init"
                     true "teal" (Some 20%Z) fig ;;
            let fig := ax 1 (XLabel "L2 Distance (Final SGD Model from its Init)") fig in
            let fig := ax 1 (YLabel "Number of SGD Tasks") fig in
            pret (ax 1 (Title ("Distribution of Final SGD Model Drifts " ++ title_suffix)) fig)
          else
            let fig := ax 1 (Text "SGD drift data missing or incomplete") fig in
            pret (ax 1 (Title ("Distribution of Final SGD Model Drifts " ++ title_suffix)) fig)) ;;
  fig <- plt.tight_layout fig ;;
  os.makedirs output_dir ;;;
  plt.savefig (os.path_join output_dir
                 ("weight_drift_comparison" ++ str_replace " " "_" title_suffix ++ ".png")) fig ;;;
  print ("Saved weight drift comparison plot to " ++ output_dir ++ "/") ;;;
  plt.close fig.

Close Scope plot_scope.

(* ------------------------------------------------------------------ *)
(** ** Notions used in the statements *)

(** The random state after [n] standard-normal draws, after [n] uniform draws. *)
Definition skip_gauss (n : nat) (rs : RandomState) : RandomState :=
  {| gauss := drop_stream (gauss rs) n; uniform := uniform rs |}.

Definition skip_uniform (n : nat) (rs : RandomState) : RandomState :=
  {| gauss := gauss rs; uniform := drop_stream (uniform rs) n |}.

(** The noise of one [np.random.normal(loc, scale, n)] call at realization [rs]. *)
Definition normal_draw (loc scale : R) (n : nat) (rs : RandomState) : list R :=
  map (fun z => (loc + scale * z)%R) (take_stream (gauss rs) n).

(** The log steps of a MAML trajectory. *)
Definition log_steps (epochs log_interval : Z) : list Z :=
  np.linear log_interval log_interval
    (Z.to_nat (np.arange_len_double log_interval (epochs + 1) log_interval)).

(** The epochs of a MAML drift series. *)
Definition drift_epochs (num_points : Z) : list Z :=
  map (fun e => e * 100)%Z (np.linear 1 1 (Z.to_nat num_points)).

(** The column [name] of a table, if it has one. *)
Definition column (name : string) (df : pd.DataFrame) : option (list cell) :=
  pd.lookup name (pd.columns df).

Definition cell_value (c : cell) : R :=
  match c with
  | Int z => IZR z
  | Float r => r
  end.

(** Every column has one entry per row. *)
Definition well_shaped (df : pd.DataFrame) : Prop :=
  Forall (fun kc => List.length (snd kc) = pd.nrows df) (pd.columns df).

(** The saturating-exponential approach from [start] to [target]. *)
Definition trend (target start decay x_max x : R) : R :=
  (target - (target - start) * exp (- x / (x_max * decay)))%R.

(** [needle in s] *)
Fixpoint contains (needle s : string) : bool :=
  if String.prefix needle s then true
  else match s with
       | EmptyString => false
       | String _ rest => contains needle rest
       end.


(** The file name of a renderer with base name [base]. *)
Definition image_path (output_dir base title_suffix : string) : string :=
  os.path_join output_dir (base ++ str_replace " " "_" title_suffix ++ ".png").

(** A world whose operating system grants every request. *)
Definition fresh_world : World :=
  {| os_allows := fun _ => true; mathtext_parses := fun _ => true;
     files := []; dirs := []; console := []; open_figures := 0 |}.

(** A realization whose outcomes are all [z] (normal) and [u] (uniform). *)
Definition constant_outcomes (z u : R) : RandomState :=
  {| gauss := fun _ => z; uniform := fun _ => u |}.

(** Integer sequences: [first, first+step, first+2*step, ...]. *)
Definition arithmetic (first step : Z) (l : list Z) : Prop :=
  forall i : nat, (i < List.length l)%nat -> nth i l 0%Z = (first + step * Z.of_nat i)%Z.

Definition strictly_increasing (l : list Z) : Prop :=
  forall i : nat, (S i < List.length l)%nat -> (nth i l 0 < nth (S i) l 0)%Z.

Definition constant_step (step : Z) (l : list Z) : Prop :=
  forall i : nat, (S i < List.length l)%nat -> (nth (S i) l 0 - nth i l 0 = step)%Z.

(** The column [name] of the table that [g] returns at realization [rs]. *)
Definition generated_column (g : Gen pd.DataFrame) (name : string) (rs : RandomState)
  : option (list cell) :=
  match g rs with
  | Ok (df, _) => column name df
  | Raise _ => None
  end.

(** A column over the abscissae [xs] that is, at every realization, a
    saturating-exponential trend plus Gaussian noise of a fixed standard
    mean and standard deviation: consecutive standard-normal outcomes, scaled
    and shifted. *)
Definition noisy_trend_column (xs : list Z) (x_max : Z)
    (col : RandomState -> option (list cell)) : Prop :=
  exists (target start decay mu sigma : R) (skip : nat),
    forall rs : RandomState,
      col rs = Some (floats (np.add
                 (map (fun x => trend target start decay (IZR x_max) (IZR x)) xs)
                 (normal_draw mu sigma (List.length xs) (skip_gauss skip rs)))).

(** A MAML drift table that can be drawn: it is empty, or has no
    l2_drift_from_init, or has the epoch column the lines are drawn against. *)
Definition maml_drift_plottable (dm : pd.DataFrame) : bool :=
  (pd.empty dm || negb (pd.has_column "l2_drift_from_init" dm)
   || pd.has_column "epoch" dm)%bool.

(** A trajectory table with the columns the learning-curve panels need. *)
Definition maml_curves_plottable (df : pd.DataFrame) : bool :=
  (pd.has_column "log_step" df && pd.has_column "val_loss" df
   && pd.has_column "val_accuracy" df)%bool.

(** A renderer step that saves no file. *)
Definition keeps_files {A} (m : Plot A) : Prop :=
  forall w : World, files (snd (m w)) = files w.

(** A renderer step that saves nothing, or one file and then at [path]. *)
Definition saves_only {A} (path : string) (m : Plot A) : Prop :=
  forall w : World,
    files (snd (m w)) = files w
    \/ exists fig : Figure, files (snd (m w)) = (files w ++ [(path, fig)])%list.



(** A table of one row, as the renderers accept it. *)
Definition one_row_trajectory : pd.DataFrame :=
  {| pd.nrows := 1;
     pd.columns := [("log_step", [Int 10]); ("val_loss", [Int 1]);
                    ("val_accuracy", [Int 1])] |}.

(* ------------------------------------------------------------------ *)
(** ** The driver *)

(** [series * k] and [series - k] on a numeric column: the result is float. *)
Definition scale_cell (k : R) (c : cell) : cell := Float (cell_value c * k).
Definition shift_cell (k : R) (c : cell) : cell := Float (cell_value c - k).

(** [df[name] *= k] *)
Definition imul (df : pd.DataFrame) (name : string) (k : R) : result pd.DataFrame :=
  match pd.getitem df name with
  | Ok c => Ok (pd.setitem df name (map (scale_cell k) c))
  | Raise e => Raise e
  end.

(** [df[name] -= k] *)
Definition isub (df : pd.DataFrame) (name : string) (k : R) : result pd.DataFrame :=
  match pd.getitem df name with
  | Ok c => Ok (pd.setitem df name (map (shift_cell k) c))
  | Raise e => Raise e
  end.

(** [df[name] = df[name].clip(lower, upper)] *)
Definition iclip (df : pd.DataFrame) (name : string) (lower upper : Z)
  : result pd.DataFrame :=
  match pd.getitem df name with
  | Ok c => Ok (pd.setitem df name (pd.clip lower upper c))
  | Raise e => Raise e
  end.

(** The eight tables of the main section. *)
Record Tables : Type := mkTables {
  dummy_maml_df_simple : pd.DataFrame;
  dummy_maml_df_complex : pd.DataFrame;
  dummy_sgd_df_simple : pd.DataFrame;
  dummy_sgd_df_complex : pd.DataFrame;
  dummy_maml_drift_simple : pd.DataFrame;
  dummy_sgd_final_drifts_simple : pd.DataFrame;
  dummy_maml_drift_complex : pd.DataFrame;
  dummy_sgd_final_drifts_complex : pd.DataFrame
}.

Open Scope gen_scope.

(** The main section up to the first plot: the dummy data frames. *)
Definition dummy_tables : Gen Tables :=
  maml_simple <- generate_dummy_maml_trajectory 10000 100 ;;
  maml_complex <- generate_dummy_maml_trajectory 10000 100 ;;
  maml_complex <- glift (imul maml_complex "val_accuracy" 0.9) ;;
  maml_complex <- glift (isub maml_complex "val_accuracy" 0.05) ;;
  maml_complex <- glift (iclip maml_complex "val_accuracy" 0 1) ;;
  maml_complex <- glift (imul maml_complex "grad_alignment" 0.85) ;;
  sgd_simple <- generate_dummy_sgd_trajectory 200 ;;
  sgd_complex <- generate_dummy_sgd_trajectory 200 ;;
  sgd_complex <- glift (imul sgd_complex "query_accuracy" 0.88) ;;
  sgd_complex <- glift (isub sgd_complex "query_accuracy" 0.08) ;;
  sgd_complex <- glift (iclip sgd_complex "query_accuracy" 0 1) ;;
  maml_drift_simple <- generate_dummy_drift_data 100 "maml" 10 1.0 ;;
  sgd_drifts_simple <- generate_dummy_drift_data 200 "sgd" 8 2.0 ;;
  maml_drift_complex <- generate_dummy_drift_data 100 "maml" 15 1.0 ;;
  sgd_drifts_complex <- generate_dummy_drift_data 200 "sgd" 12 2.5 ;;
  gret {| dummy_maml_df_simple := maml_simple;
          dummy_maml_df_complex := maml_complex;
          dummy_sgd_df_simple := sgd_simple;
          dummy_sgd_df_complex := sgd_complex;
          dummy_maml_drift_simple := maml_drift_simple;
          dummy_sgd_final_drifts_simple := sgd_drifts_simple;
          dummy_maml_drift_complex := maml_drift_complex;
          dummy_sgd_final_drifts_complex := sgd_drifts_complex |}.

Close Scope gen_scope.
Open Scope plot_scope.

(** The data frames are made from the realization [rs]; the world is not
    touched while they are made. *)
Definition make_tables (rs : RandomState) : Plot Tables :=
  plift (match dummy_tables rs with
         | Ok (t, _) => Ok t
         | Raise e => Raise e
         end).

(** The main section: [if __name__ == "__main__"]. *)
Definition main (rs : RandomState) : Plot unit :=
  print "Generating plots with dummy data..." ;;;
  t <- make_tables rs ;;
  plot_maml_learning_curves (dummy_maml_df_simple t) " (Concept: Simple)" "figures" ;;;
  plot_sgd_performance_distribution (dummy_sgd_df_simple t)
    " (Concept: Simple)" "figures" ;;;
  plot_gradient_alignment_maml (dummy_maml_df_simple t) " (Concept: Simple)" "figures" ;;;
  plot_weight_drift_comparison (dummy_maml_drift_simple t)
    (dummy_sgd_final_drifts_simple t) " (Concept: Simple)" "figures" ;;;
  plot_maml_learning_curves (dummy_maml_df_complex t) " (Concept: Complex)" "figures" ;;;
  plot_sgd_performance_distribution (dummy_sgd_df_complex t)
    " (Concept: Complex)" "figures" ;;;
  plot_gradient_alignment_maml (dummy_maml_df_complex t)
    " (Concept: Complex)" "figures" ;;;
  plot_weight_drift_comparison (dummy_maml_drift_complex t)
    (dummy_sgd_final_drifts_complex t) " (Concept: Complex)" "figures" ;;;
  print "Finished generating dummy plots. Check the 'figures' directory.".

Close Scope plot_scope.

(* ------------------------------------------------------------------ *)
(** ** Further notions used in the statements *)

(** Uniform outcomes as [np.random.rand] gives them: in [0, 1). *)
Definition uniform_ok (rs : RandomState) : Prop :=
  forall i : nat, (0 <= uniform rs i < 1)%R.

(** Standard-normal outcomes within five standard deviations. *)
Definition within_five_sigma (rs : RandomState) : Prop :=
  forall i : nat, (-5 <= gauss rs i <= 5)%R.

(** The directories after [os.makedirs(d, exist_ok=True)]. *)
Definition add_dir (d : string) (ds : list string) : list string :=
  if existsb (String.eqb d) ds then ds else (ds ++ [d])%list.

(** The world after a renderer has saved [fig] at [path] under [output_dir]
    and printed [line]. *)
Definition after_save (w : World) (output_dir path : string) (fig : Figure)
    (line : string) : World :=
  {| os_allows := os_allows w;
     mathtext_parses := mathtext_parses w;
     files := (files w ++ [(path, fig)])%list;
     dirs := add_dir output_dir (dirs w);
     console := (console w ++ [line])%list;
     open_figures := open_figures w |}.

(** The world after a renderer has printed [line] and done nothing else. *)
Definition after_print (w : World) (line : string) : World :=
  {| os_allows := os_allows w; mathtext_parses := mathtext_parses w;
     files := files w; dirs := dirs w;
     console := (console w ++ [line])%list; open_figures := open_figures w |}.

(** The world after a renderer has opened a figure and raised. *)
Definition after_leak (w : World) (made : list string) : World :=
  {| os_allows := os_allows w; mathtext_parses := mathtext_parses w;
     files := files w; dirs := made;
     console := console w; open_figures := S (open_figures w) |}.

(** What the file at [path] holds: the figure saved there last. *)
Fixpoint file_at (path : string) (fs : list (string * Figure)) : option Figure :=
  match fs with
  | [] => None
  | (p, f) :: rest =>
      match file_at path rest with
      | Some g => Some g
      | None => if String.eqb path p then Some f else None
      end
  end.

(** A table with the two columns of the performance histograms. *)
Definition sgd_plottable (df : pd.DataFrame) : bool :=
  (pd.has_column "query_accuracy" df && pd.has_column "query_loss" df)%bool.

(** A column whose values fall, resp. rise, strictly from row to row. *)
Definition falling (col : list cell) : Prop :=
  forall i : nat, (S i < List.length col)%nat ->
    (cell_value (nth (S i) col (Float 0)) < cell_value (nth i col (Float 0)))%R.

Definition rising (col : list cell) : Prop :=
  forall i : nat, (S i < List.length col)%nat ->
    (cell_value (nth i col (Float 0)) < cell_value (nth (S i) col (Float 0)))%R.

(** A realization without noise: every standard-normal outcome is 0. *)
Definition noise_free (rs : RandomState) : Prop :=
  forall i : nat, gauss rs i = 0%R.

(** A property of the world a renderer returns in, resp. of the exception
    and the world it raises in. *)
Definition on_return (P : World -> Prop) (out : result unit * World) : Prop :=
  match fst out with
  | Ok _ => P (snd out)
  | Raise _ => True
  end.

Definition on_raise (P : exn -> World -> Prop) (out : result unit * World) : Prop :=
  match fst out with
  | Ok _ => True
  | Raise e => P e (snd out)
  end.

(** Every way a renderer can end. *)
Definition renderer_outcome (w : World) (out : result unit * World) : Prop :=
  os_allows (snd out) = os_allows w
  /\ match fst out with
     | Ok _ =>
         open_figures (snd out) = open_figures w
         /\ exists line : string, console (snd out) = (console w ++ [line])%list
     | Raise e =>
         (e = ValueError \/ e = OSError)
         /\ files (snd out) = files w
         /\ console (snd out) = console w
         /\ open_figures (snd out) = S (open_figures w)
     end.

(** A table of one row with the single column [name]. *)
Definition only_column (name : string) : pd.DataFrame :=
  {| pd.nrows := 1; pd.columns := [(name, [Int 1])] |}.



(** One-row tables with every column their renderers draw. *)
Definition one_row_full_trajectory : pd.DataFrame :=
  {| pd.nrows := 1;
     pd.columns := [("log_step", [Int 10]); ("val_loss", [Int 1]);
                    ("val_accuracy", [Int 1]); ("grad_alignment", [Int 0])] |}.

Definition one_row_sgd : pd.DataFrame :=
  {| pd.nrows := 1;
     pd.columns := [("query_accuracy", [Int 1]); ("query_loss", [Int 0])] |}.

(** Tables every renderer of the main section can draw. *)
Definition trajectory_ready (df : pd.DataFrame) : Prop :=
  pd.empty df = false
  /\ maml_curves_plottable df = true
  /\ pd.has_column "grad_alignment" df = true
  /\ pd.has_column "log_step" df = true.

Definition sgd_ready (df : pd.DataFrame) : Prop :=
  pd.empty df = false /\ sgd_plottable df = true.

Definition tables_ready (t : Tables) : Prop :=
  trajectory_ready (dummy_maml_df_simple t)
  /\ trajectory_ready (dummy_maml_df_complex t)
  /\ sgd_ready (dummy_sgd_df_simple t)
  /\ sgd_ready (dummy_sgd_df_complex t)
  /\ maml_drift_plottable (dummy_maml_drift_simple t) = true
  /\ maml_drift_plottable (dummy_maml_drift_complex t) = true.

(** Every value of the column [name] of [df] lies in [lo, hi]. *)
Definition column_within (lo hi : R) (name : string) (df : pd.DataFrame) : Prop :=
  exists col : list cell,
    column name df = Some col
    /\ List.length col = pd.nrows df
    /\ Forall (fun c => (lo <= cell_value c <= hi)%R) col.

(** A world whose operating system refuses to write the one file [path]. *)
Definition world_refusing (path : string) : World :=
  {| os_allows := fun r => match r with
                           | MakeDirs _ => true
                           | WriteFile p => negb (String.eqb p path)
                           end;
     mathtext_parses := fun _ => true;
     files := []; dirs := []; console := []; open_figures := 0 |}.

(** A string without dollar sign and without backslash. *)
Fixpoint plain (s : string) : bool :=
  match s with
  | EmptyString => true
  | String c rest =>
      (negb (Ascii.eqb c "$") && negb (Ascii.eqb c plt.backslash) && plain rest)%bool
  end.


(* ------------------------------------------------------------------ *)
(** ** Facts on the numpy and pandas operations *)

Lemma take_stream_length (s : nat -> R) (n : nat) : List.length (take_stream s n) = n.
Proof. unfold take_stream. now rewrite length_map, length_seq. Qed.

Lemma linear_length (start step : Z) (n : nat) : List.length (np.linear start step n) = n.
Proof. revert start. induction n as [|n IH]; intros start; simpl; [reflexivity|]. now rewrite IH. Qed.

Lemma linear_nth (n : nat) : forall (start step : Z) (i : nat) (d : Z),
  (i < n)%nat -> nth i (np.linear start step n) d = (start + step * Z.of_nat i)%Z.
Proof.
  induction n as [|n IH]; intros start step i d Hi; [lia|].
  destruct i as [|i]; simpl.
  - lia.
  - rewrite IH by lia. lia.
Qed.

Lemma linear_snoc (n : nat) : forall (start step : Z),
  np.linear start step (S n)
  = (np.linear start step n ++ [(start + step * Z.of_nat n)%Z])%list.
Proof.
  induction n as [|n IH]; intros start step.
  - simpl. f_equal. lia.
  - change (np.linear start step (S (S n)))
      with (start :: np.linear (start + step) step (S n)).
    rewrite IH. simpl. do 3 f_equal. lia.
Qed.

Lemma zip_with_length {A B C} (f : A -> B -> C) (xs : list A) : forall (ys : list B),
  List.length xs = List.length ys -> List.length (np.zip_with f xs ys) = List.length xs.
Proof.
  induction xs as [|x xs IH]; intros [|y ys] H; simpl in *; try reflexivity; try discriminate.
  f_equal. apply IH. lia.
Qed.

Lemma arange_len_pos_step (start stop step : Z) :
  (0 < step)%Z -> np.arange_len start stop step = Z.max 0 ((stop - start + step - 1) / step).
Proof. intros H. unfold np.arange_len. now rewrite (proj2 (Z.ltb_lt 0 step) H). Qed.

(** *** The length of [np.arange]: rounding of the quotient *)

Local Open Scope Z_scope.

Lemma round_half_even_near (n d : Z) :
  0 < d -> 0 <= n ->
  n / d <= np.round_half_even n d <= n / d + 1
  /\ 2 * Z.abs (np.round_half_even n d * d - n) <= d.
Proof.
  intros Hd Hn. unfold np.round_half_even.
  pose proof (Z.div_mod n d ltac:(lia)) as Hdm.
  pose proof (Z.mod_pos_bound n d Hd) as Hr.
  set (q := n / d) in *. set (r := n mod d) in *.
  destruct (2 * r <? d) eqn:E1; [apply Z.ltb_lt in E1; split; [lia | nia]|].
  apply Z.ltb_ge in E1.
  destruct (d <? 2 * r) eqn:E2; [apply Z.ltb_lt in E2; split; [lia | nia]|].
  apply Z.ltb_ge in E2.
  destruct (Z.even q); split; try lia; nia.
Qed.

Lemma ceil_between (m P c : Z) :
  0 < P -> (c - 1) * P < m <= c * P -> (m + P - 1) / P = c.
Proof.
  intros HP H. symmetry. apply Z.div_unique with (r := m + P - 1 - P * c); lia.
Qed.

Lemma ceil_quotient_spec (a b : Z) :
  0 < b -> let c := (a + b - 1) / b in (c - 1) * b < a <= c * b.
Proof.
  intros Hb c.
  pose proof (Z.div_mod (a + b - 1) b ltac:(lia)) as Hdm.
  pose proof (Z.mod_pos_bound (a + b - 1) b Hb) as Hr.
  fold c in Hdm. nia.
Qed.

(** Below 2^53 the rounding of the quotient does not move its ceiling. *)
Lemma rounded_ceiling_exact (a b k m : Z) :
  0 < b -> 0 < a < 2 ^ 53 -> 0 <= k ->
  2 ^ 52 <= m ->
  2 * Z.abs (m * b - a * 2 ^ k) <= b ->
  (m + 2 ^ k - 1) / 2 ^ k = (a + b - 1) / b.
Proof.
  intros Hb Ha Hk Hm Hnear.
  assert (0 < 2 ^ k) as HP by (apply Z.pow_pos_nonneg; lia).
  set (P := 2 ^ k) in *.
  pose proof (@ceil_quotient_spec a b Hb) as Hc. cbv zeta in Hc.
  set (c := (a + b - 1) / b) in *.
  change (2 ^ 53) with 9007199254740992 in Ha.
  change (2 ^ 52) with 4503599627370496 in Hm.
  apply ceil_between; [exact HP|]. split.
  - (* (c - 1) * P < m *)
    destruct (Z_lt_le_dec ((c - 1) * P) m) as [Hlt|Hge]; [exact Hlt | exfalso].
    assert (P <= a * P - m * b) as H1.
    { assert (m * b <= (c - 1) * P * b) by (apply Z.mul_le_mono_nonneg_r; lia).
      assert (1 * P <= (a - (c - 1) * b) * P) by (apply Z.mul_le_mono_nonneg_r; lia).
      lia. }
    assert (2 * P <= b) as H2 by lia.
    assert (4503599627370496 * (2 * P) <= m * b) as H3.
    { apply Z.mul_le_mono_nonneg; lia. }
    assert (a * P <= 9007199254740991 * P) by (apply Z.mul_le_mono_nonneg_r; lia).
    lia.
  - (* m <= c * P *)
    destruct (Z_le_gt_dec m (c * P)) as [Hle|Hgt]; [exact Hle | exfalso].
    assert (b <= m * b - a * P) as H1.
    { assert ((c * P + 1) * b <= m * b) by (apply Z.mul_le_mono_nonneg_r; lia).
      assert (a * P <= c * b * P) by (apply Z.mul_le_mono_nonneg_r; lia).
      lia. }
    lia.
Qed.

Lemma true_divide_small (a b : Z) :
  0 < b -> 0 < a < 2 ^ 53 ->
  exists k m : Z,
    np.true_divide a b = (m, - k) /\ 0 <= k /\ 2 ^ 52 <= m
    /\ 2 * Z.abs (m * b - a * 2 ^ k) <= b.
Proof.
  intros Hb Ha. unfold np.true_divide.
  pose proof (Z.log2_spec a ltac:(lia)) as Hla.
  pose proof (Z.log2_spec b Hb) as Hlb.
  pose proof (Z.log2_nonneg b) as Hlb0.
  pose proof (Z.log2_nonneg a) as Hla0.
  assert (Z.log2 a < 53) as Hla53 by (apply Z.log2_lt_pow2; lia).
  set (la := Z.log2 a) in *. set (lb := Z.log2 b) in *.
  set (k0 := lb + 53 - la).
  assert (k0 = lb + 53 - la) as Hk0def by reflexivity. clearbody k0.
  assert (1 <= k0) as Hk0 by lia.
  replace (la - lb - 53) with (- k0) by lia.
  assert (Hs0 : np.scale_fraction a b (- k0) = (a * 2 ^ k0, b)).
  { unfold np.scale_fraction. rewrite (proj2 (Z.leb_gt 0 (- k0))) by lia.
    now rewrite Z.opp_involutive. }
  rewrite Hs0.
  (* a * 2^k0 >= 2^52 * 2 * 2^lb > 2^52 * b *)
  assert (Hbig : 2 ^ 52 * b <= a * 2 ^ k0).
  { assert (2 ^ la * 2 ^ k0 = 2 ^ 52 * (2 ^ Z.succ lb)) as Heq.
    { rewrite <- !Z.pow_add_r by lia. f_equal. lia. }
    assert (0 < 2 ^ k0) by (apply Z.pow_pos_nonneg; lia).
    assert (2 ^ la * 2 ^ k0 <= a * 2 ^ k0) by (apply Z.mul_le_mono_nonneg_r; lia).
    assert (2 ^ 52 * b <= 2 ^ 52 * 2 ^ Z.succ lb) by (apply Z.mul_le_mono_nonneg_l; lia).
    lia. }
  destruct (a * 2 ^ k0 / b <? 2 ^ 53) eqn:E.
  - rewrite Hs0. exists k0, (np.round_half_even (a * 2 ^ k0) b).
    assert (0 <= a * 2 ^ k0) by (apply Z.mul_nonneg_nonneg; [lia | apply Z.pow_nonneg; lia]).
    destruct (@round_half_even_near (a * 2 ^ k0) b Hb ltac:(assumption)) as [[Hlo _] Hnear].
    split; [reflexivity|]. split; [lia|]. split; [|exact Hnear].
    apply Z.le_trans with (a * 2 ^ k0 / b); [|exact Hlo].
    apply Z.div_le_lower_bound; lia.
  - apply Z.ltb_ge in E.
    assert (H53 : 2 ^ 53 * b <= a * 2 ^ k0).
    { pose proof (Z.mul_div_le (a * 2 ^ k0) b Hb).
      assert (b * 2 ^ 53 <= b * (a * 2 ^ k0 / b)) by (apply Z.mul_le_mono_nonneg_l; lia).
      lia. }
    assert (Hpow : 2 ^ k0 = 2 * 2 ^ (k0 - 1)).
    { rewrite <- (Z.pow_succ_r 2 (k0 - 1)) by lia. f_equal. lia. }
    assert (Hs1 : exists d, np.scale_fraction a b (- k0 + 1) = (a * 2 ^ (k0 - 1), d) /\ d = b).
    { unfold np.scale_fraction. destruct (0 <=? - k0 + 1) eqn:E0.
      - apply Z.leb_le in E0. assert (k0 = 1) as -> by lia.
        exists (b * 2 ^ (-1 + 1)). split; [f_equal; cbn; lia | cbn; lia].
      - exists b. replace (- (- k0 + 1)) with (k0 - 1) by lia. split; reflexivity. }
    destruct Hs1 as [d [Hs1 ->]]. rewrite Hs1.
    exists (k0 - 1), (np.round_half_even (a * 2 ^ (k0 - 1)) b).
    assert (0 <= a * 2 ^ (k0 - 1))
      by (apply Z.mul_nonneg_nonneg; [lia | apply Z.pow_nonneg; lia]).
    destruct (@round_half_even_near (a * 2 ^ (k0 - 1)) b Hb ltac:(assumption))
      as [[Hlo _] Hnear].
    split; [f_equal; lia|]. split; [lia|]. split; [|exact Hnear].
    apply Z.le_trans with (a * 2 ^ (k0 - 1) / b); [|exact Hlo].
    apply Z.div_le_lower_bound; [lia|].
    change (2 ^ 53) with (2 * 2 ^ 52) in H53. lia.
Qed.

Lemma ceil_double_nonpos_exp (m k : Z) :
  0 <= k -> np.ceil_double m (- k) = (m + 2 ^ k - 1) / 2 ^ k.
Proof.
  intros Hk. unfold np.ceil_double. destruct (0 <=? - k) eqn:E.
  - apply Z.leb_le in E. assert (k = 0) as -> by lia. cbn. rewrite Z.div_1_r. lia.
  - now rewrite Z.opp_involutive.
Qed.

Lemma arange_len_double_exact (start stop step : Z) :
  0 < step -> stop - start < 2 ^ 53 ->
  np.arange_len_double start stop step = Z.max 0 ((stop - start + step - 1) / step).
Proof.
  intros Hs Hd. unfold np.arange_len_double. cbv zeta.
  destruct (Z_lt_le_dec 0 (stop - start)) as [Hpos|Hneg].
  - rewrite (proj2 (Z.ltb_lt 0 (stop - start)) Hpos), (proj2 (Z.ltb_lt 0 step) Hs).
    cbn [andb orb]. rewrite !Z.abs_eq by lia.
    destruct (@true_divide_small (stop - start) step Hs (conj Hpos Hd)) as (k & m & -> & Hk & Hm & Hnear).
    rewrite ceil_double_nonpos_exp by exact Hk.
    rewrite (@rounded_ceiling_exact (stop - start) step k m Hs (conj Hpos Hd) Hk Hm Hnear).
    symmetry. apply Z.max_r. apply Z.div_pos; lia.
  - rewrite (proj2 (Z.ltb_ge 0 (stop - start)) Hneg).
    replace (stop - start <? 0) with (negb (0 <=? stop - start)) by
      (rewrite Z.leb_antisym, negb_involutive; reflexivity).
    rewrite (proj2 (Z.ltb_lt 0 step) Hs).
    replace (step <? 0) with false by (symmetry; apply Z.ltb_ge; lia).
    rewrite andb_false_r. cbn [andb orb].
    symmetry. apply Z.max_l.
    assert ((stop - start + step - 1) / step < 1); [|lia].
    apply Z.div_lt_upper_bound; lia.
Qed.

Lemma scaled_quotient_large (a b e0 : Z) :
  0 < a -> 0 < b -> e0 = Z.log2 a - Z.log2 b - 53 ->
  let (n0, d0) := np.scale_fraction a b e0 in
  0 < d0 /\ 0 <= n0 /\ 2 ^ 52 * d0 <= n0.
Proof.
  intros Ha Hb He0.
  pose proof (Z.log2_spec a Ha) as Hla.
  pose proof (Z.log2_spec b Hb) as Hlb.
  pose proof (Z.log2_nonneg b) as Hlb0.
  pose proof (Z.log2_nonneg a) as Hla0.
  set (la := Z.log2 a) in *. set (lb := Z.log2 b) in *.
  unfold np.scale_fraction. destruct (0 <=? e0) eqn:E.
  - apply Z.leb_le in E.
    assert (0 < 2 ^ e0) by (apply Z.pow_pos_nonneg; lia).
    assert (2 ^ la = 2 ^ 52 * (2 ^ Z.succ lb * 2 ^ e0)) as Heq.
    { rewrite <- !Z.pow_add_r by lia. f_equal. lia. }
    assert (b * 2 ^ e0 <= 2 ^ Z.succ lb * 2 ^ e0) by (apply Z.mul_le_mono_nonneg_r; lia).
    assert (2 ^ 52 * (b * 2 ^ e0) <= 2 ^ 52 * (2 ^ Z.succ lb * 2 ^ e0))
      by (apply Z.mul_le_mono_nonneg_l; lia).
    split; [apply Z.mul_pos_pos; lia|]. split; lia.
  - apply Z.leb_gt in E.
    assert (0 < 2 ^ (- e0)) by (apply Z.pow_pos_nonneg; lia).
    assert (2 ^ la * 2 ^ (- e0) = 2 ^ 52 * 2 ^ Z.succ lb) as Heq.
    { rewrite <- !Z.pow_add_r by lia. f_equal. lia. }
    assert (2 ^ la * 2 ^ (- e0) <= a * 2 ^ (- e0)) by (apply Z.mul_le_mono_nonneg_r; lia).
    assert (2 ^ 52 * b <= 2 ^ 52 * 2 ^ Z.succ lb) by (apply Z.mul_le_mono_nonneg_l; lia).
    split; [lia|]. split; [apply Z.mul_nonneg_nonneg; lia | lia].
Qed.

Lemma scale_fraction_succ (a b e0 : Z) :
  0 < a -> 0 < b ->
  let (n0, d0) := np.scale_fraction a b e0 in
  let (n, d) := np.scale_fraction a b (e0 + 1) in
  0 < d /\ 0 <= n /\ n0 * d = 2 * (n * d0).
Proof.
  intros Ha Hb. unfold np.scale_fraction.
  destruct (0 <=? e0) eqn:E0; destruct (0 <=? e0 + 1) eqn:E1.
  - apply Z.leb_le in E0.
    assert (0 < 2 ^ e0) by (apply Z.pow_pos_nonneg; lia).
    rewrite Z.pow_add_r by lia. change (2 ^ 1) with 2.
    split; [apply Z.mul_pos_pos; lia|]. split; [lia | ring].
  - apply Z.leb_le in E0. apply Z.leb_gt in E1. lia.
  - apply Z.leb_gt in E0. apply Z.leb_le in E1. assert (e0 = -1) as -> by lia.
    change (2 ^ (-1 + 1)) with 1. change (2 ^ (- -1)) with 2.
    split; [lia|]. split; lia.
  - apply Z.leb_gt in E0. apply Z.leb_gt in E1.
    assert (0 < 2 ^ (- (e0 + 1))) by (apply Z.pow_pos_nonneg; lia).
    replace (- e0) with (Z.succ (- (e0 + 1))) by lia.
    rewrite Z.pow_succ_r by lia.
    split; [lia|]. split; [apply Z.mul_nonneg_nonneg; lia | ring].
Qed.

(** The mantissa of a quotient of positive integers has 53 bits. *)
Lemma true_divide_mantissa (a b : Z) :
  0 < a -> 0 < b -> 2 ^ 52 <= fst (np.true_divide a b).
Proof.
  intros Ha Hb. unfold np.true_divide.
  set (e0 := Z.log2 a - Z.log2 b - 53).
  pose proof (@scaled_quotient_large a b e0 Ha Hb eq_refl) as H0.
  pose proof (@scale_fraction_succ a b e0 Ha Hb) as H1.
  destruct (np.scale_fraction a b e0) as [n0 d0] eqn:Es0.
  destruct H0 as (Hd0 & Hn0 & Hbig). cbv zeta.
  destruct (n0 / d0 <? 2 ^ 53) eqn:E.
  - rewrite Es0. cbn [fst].
    destruct (@round_half_even_near n0 d0 Hd0 Hn0) as [[Hlo _] _].
    apply Z.le_trans with (n0 / d0); [|exact Hlo].
    apply Z.div_le_lower_bound; lia.
  - apply Z.ltb_ge in E.
    destruct (np.scale_fraction a b (e0 + 1)) as [n d].
    destruct H1 as (Hd & Hn & Heq). cbn [fst].
    destruct (@round_half_even_near n d Hd Hn) as [[Hlo _] _].
    apply Z.le_trans with (n / d); [|exact Hlo].
    apply Z.div_le_lower_bound; [lia|].
    assert (2 ^ 53 * d0 <= n0) as H53.
    { pose proof (Z.mul_div_le n0 d0 Hd0).
      assert (d0 * 2 ^ 53 <= d0 * (n0 / d0)) by (apply Z.mul_le_mono_nonneg_l; lia).
      lia. }
    change (2 ^ 53) with (2 * 4503599627370496) in H53.
    change (2 ^ 52) with 4503599627370496.
    assert (2 * 4503599627370496 * d0 * d <= n0 * d) by (apply Z.mul_le_mono_nonneg_r; lia).
    apply Z.mul_le_mono_pos_l with (p := d0); [exact Hd0|].
    lia.
Qed.

Lemma ceil_double_pos (m e : Z) : 1 <= m -> 1 <= np.ceil_double m e.
Proof.
  intros Hm. unfold np.ceil_double. destruct (0 <=? e) eqn:E.
  - apply Z.leb_le in E. assert (0 < 2 ^ e) by (apply Z.pow_pos_nonneg; lia). nia.
  - apply Z.leb_gt in E. assert (0 < 2 ^ (- e)) by (apply Z.pow_pos_nonneg; lia).
    apply Z.div_le_lower_bound; lia.
Qed.

(** A positive quotient gives at least one element. *)
Lemma arange_len_double_pos (start stop step : Z) :
  0 < step -> start < stop -> 1 <= np.arange_len_double start stop step.
Proof.
  intros Hs Hd. unfold np.arange_len_double. cbv zeta.
  rewrite (proj2 (Z.ltb_lt 0 (stop - start))) by lia.
  rewrite (proj2 (Z.ltb_lt 0 step) Hs). cbn [andb orb].
  rewrite !Z.abs_eq by lia.
  pose proof (@true_divide_mantissa (stop - start) step ltac:(lia) Hs) as Hm.
  destruct (np.true_divide (stop - start) step) as [m e]. cbn [fst] in Hm.
  apply ceil_double_pos. change (2 ^ 52) with 4503599627370496 in Hm. lia.
Qed.

Lemma arange_len_double_none (start stop step : Z) :
  (0 < step /\ stop <= start) \/ (step < 0 /\ start <= stop) ->
  np.arange_len_double start stop step = 0.
Proof.
  intros H. unfold np.arange_len_double. cbv zeta.
  replace ((0 <? stop - start) && (0 <? step) || (stop - start <? 0) && (step <? 0))%bool
    with false; [reflexivity|].
  symmetry. apply orb_false_iff. split; apply andb_false_iff.
  - destruct H as [[H1 H2]|[H1 H2]]; [left | right]; apply Z.ltb_ge; lia.
  - destruct H as [[H1 H2]|[H1 H2]]; [right | left]; apply Z.ltb_ge; lia.
Qed.

(** With step 1 and fewer than 2^53 elements the rounded length is the exact one. *)
Lemma arange_len_double_unit (start stop : Z) :
  stop - start < 2 ^ 53 ->
  np.arange_len_double start stop 1 = np.arange_len start stop 1.
Proof.
  intros H. rewrite arange_len_double_exact by lia. reflexivity.
Qed.

(** The number of log steps: the integer quotient of [epochs] by
    [log_interval], as long as the quotient is exact in binary64. *)
Lemma arange_len_log_steps (epochs log_interval : Z) :
  0 <= epochs < 2 ^ 53 -> 1 <= log_interval ->
  np.arange_len_double log_interval (epochs + 1) log_interval = epochs / log_interval.
Proof.
  intros He Hl. rewrite arange_len_double_exact by lia.
  replace (epochs + 1 - log_interval + log_interval - 1) with epochs by lia.
  apply Z.max_r. apply Z.div_pos; lia.
Qed.

Lemma in_int64_intro (z : Z) :
  -9223372036854775808 <= z <= 9223372036854775807 -> np.in_int64 z = true.
Proof.
  intros H. unfold np.in_int64, np.int64_min, np.int64_max.
  apply andb_true_iff. split; apply Z.leb_le; lia.
Qed.

Lemma in_int64_bounds (z : Z) :
  np.in_int64 z = true -> -9223372036854775808 <= z <= 9223372036854775807.
Proof.
  unfold np.in_int64, np.int64_min, np.int64_max. intros H.
  apply andb_true_iff in H. destruct H as [H1 H2].
  apply Z.leb_le in H1. apply Z.leb_le in H2. lia.
Qed.

Local Close Scope Z_scope.

(** Integer side conditions with the bounds 2^53 and int64 written out. *)
Ltac int_bounds :=
  unfold np.int64_min, np.int64_max in *;
  repeat match goal with
         | H : np.in_int64 _ = true |- _ => apply in_int64_bounds in H
         end;
  try change (2 ^ 53)%Z with 9007199254740992%Z in *;
  first [ lia | apply in_int64_intro; lia ].

Lemma arange_len_unit (start stop : Z) :
  (start <= stop)%Z -> np.arange_len start stop 1 = (stop - start)%Z.
Proof.
  intros H. rewrite arange_len_pos_step by lia.
  replace (stop - start + 1 - 1)%Z with (stop - start)%Z by lia.
  rewrite Z.div_1_r. lia.
Qed.

Lemma random_normal_ok (loc scale : R) (size : Z) (rs : RandomState) :
  (0 <= size)%Z -> (0 <= scale)%R ->
  np.random_normal loc scale size rs
  = Ok (map (fun z => (loc + scale * z)%R) (take_stream (gauss rs) (Z.to_nat size)),
        skip_gauss (Z.to_nat size) rs).
Proof.
  intros Hs Hsc. unfold np.random_normal.
  rewrite (proj2 (Z.ltb_ge size 0) Hs).
  destruct (Rlt_dec scale 0) as [Hlt|_]; [lra|reflexivity].
Qed.

Lemma random_rand_ok (size : Z) (rs : RandomState) :
  (0 <= size)%Z ->
  np.random_rand size rs
  = Ok (take_stream (uniform rs) (Z.to_nat size), skip_uniform (Z.to_nat size) rs).
Proof.
  intros Hs. unfold np.random_rand. now rewrite (proj2 (Z.ltb_ge size 0) Hs).
Qed.

Lemma clip_length (lo hi : Z) (s : list cell) : List.length (pd.clip lo hi s) = List.length s.
Proof. unfold pd.clip. apply length_map. Qed.

Lemma of_dict_ok (name : string) (c : list cell) (rest : list (string * list cell)) :
  Forall (fun kc => List.length (snd kc) = List.length c) rest ->
  pd.of_dict ((name, c) :: rest)
  = Ok {| pd.nrows := List.length c; pd.columns := (name, c) :: rest |}.
Proof.
  intros H. unfold pd.of_dict.
  replace (forallb _ rest) with true; [reflexivity|].
  symmetry. apply forallb_forall. intros kc Hin.
  apply Nat.eqb_eq. revert kc Hin. now apply Forall_forall.
Qed.

Lemma ints_length (a : list Z) : List.length (ints a) = List.length a.
Proof. apply length_map. Qed.

Lemma floats_length (a : list R) : List.length (floats a) = List.length a.
Proof. apply length_map. Qed.

Lemma add_length (xs ys : list R) :
  List.length xs = List.length ys -> List.length (np.add xs ys) = List.length xs.
Proof. apply zip_with_length. Qed.

Lemma normal_draw_length (loc scale : R) (s : nat -> R) (n : nat) :
  List.length (map (fun z => (loc + scale * z)%R) (take_stream s n)) = n.
Proof. now rewrite length_map, take_stream_length. Qed.

Create Rewrite HintDb frame_len.
#[local] Hint Rewrite ints_length floats_length length_map linear_length take_stream_length
  repeat_length clip_length : frame_len.

Lemma normal_draw_len (loc scale : R) (n : nat) (rs : RandomState) :
  List.length (normal_draw loc scale n rs) = n.
Proof. apply normal_draw_length. Qed.

#[local] Hint Rewrite normal_draw_len : frame_len.

Ltac frame_lengths :=
  repeat constructor; cbn [snd];
  autorewrite with frame_len;
  repeat (rewrite add_length; autorewrite with frame_len); reflexivity.

(** What [generate_dummy_maml_trajectory] returns, column by column. *)
Lemma generate_dummy_maml_trajectory_eq (epochs log_interval : Z) (rs : RandomState) :
  log_interval <> 0%Z ->
  np.in_int64 log_interval = true -> np.in_int64 (epochs + 1) = true ->
  let steps := log_steps epochs log_interval in
  let k := List.length steps in
  generate_dummy_maml_trajectory epochs log_interval rs
  = Ok ({| pd.nrows := k;
           pd.columns :=
             [ ("log_step", ints steps);
               ("val_loss", floats (np.add
                  (map (fun s => 0.7 - 0.3 * (1 - exp (- IZR s / (IZR epochs * 0.3))))%R steps)
                  (normal_draw 0 0.02 k rs)));
               ("val_accuracy", pd.clip 0 1 (floats (np.add
                  (map (fun s => 0.5 + 0.4 * (1 - exp (- IZR s / (IZR epochs * 0.4))))%R steps)
                  (normal_draw 0 0.02 k (skip_gauss k rs)))));
               ("grad_alignment", floats (np.add
                  (map (fun s => 0.1 + 0.6 * (1 - exp (- IZR s / (IZR epochs * 0.5))))%R steps)
                  (normal_draw 0 0.05 k (skip_gauss k (skip_gauss k rs))))) ] |},
        skip_gauss k (skip_gauss k (skip_gauss k rs))).
Proof.
  intros Hli Hin Hstop steps k.
  unfold generate_dummy_maml_trajectory, gbind, glift, gret, np.arange3,
    np.arange_dtype, np.discover.
  rewrite (proj2 (Z.eqb_neq log_interval 0) Hli), Hin, Hstop.
  cbn [np.promote np.exp_operand].
  fold (log_steps epochs log_interval). fold steps. fold k.
  rewrite !random_normal_ok by (try lia; lra).
  rewrite !Nat2Z.id. fold (normal_draw 0 0.02 k rs).
  fold (normal_draw 0 0.02 k (skip_gauss k rs)).
  fold (normal_draw 0 0.05 k (skip_gauss k (skip_gauss k rs))).
  rewrite of_dict_ok.
  2:{ subst k. frame_lengths. }
  unfold pd.getitem, pd.setitem. cbn [pd.columns pd.nrows].
  autorewrite with frame_len. reflexivity.
Qed.

Lemma arange_eq (n : Z) : (0 <= n)%Z -> np.arange n = np.linear 0 1 (Z.to_nat n).
Proof.
  intros H. unfold np.arange, np.arange2. rewrite arange_len_unit by lia.
  now rewrite Z.sub_0_r.
Qed.

(** What [generate_dummy_sgd_trajectory] returns, column by column. *)
Lemma generate_dummy_sgd_trajectory_eq (num_tasks : Z) (rs : RandomState) :
  (0 <= num_tasks)%Z ->
  let n := Z.to_nat num_tasks in
  let tasks := np.linear 0 1 n in
  generate_dummy_sgd_trajectory num_tasks rs
  = Ok ({| pd.nrows := n;
           pd.columns :=
             [ ("task_idx", ints tasks);
               ("query_loss", floats (np.add
                  (map (fun t => 0.6 - 0.2 * (1 - exp (- IZR t / (IZR num_tasks * 0.5))))%R tasks)
                  (normal_draw 0 0.03 n rs)));
               ("query_accuracy", pd.clip 0 1 (floats (np.add
                  (map (fun t => 0.55 + 0.3 * (1 - exp (- IZR t / (IZR num_tasks * 0.6))))%R tasks)
                  (normal_draw 0 0.03 n (skip_gauss n rs)))));
               ("final_support_loss",
                  floats (map (fun x => x * 0.1)%R
                            (take_stream (uniform (skip_gauss n (skip_gauss n rs))) n)));
               ("num_sgd_steps", ints (repeat 100%Z n));
               ("lr", floats (repeat 0.001%R n)) ] |},
        skip_uniform n (skip_gauss n (skip_gauss n rs))).
Proof.
  intros Hn n tasks.
  unfold generate_dummy_sgd_trajectory, gbind, glift, gret.
  rewrite arange_eq by assumption. fold n. fold tasks.
  rewrite !random_normal_ok by (try lia; lra).
  rewrite random_rand_ok by lia. fold n.
  fold (normal_draw 0 0.03 n rs). fold (normal_draw 0 0.03 n (skip_gauss n rs)).
  rewrite of_dict_ok.
  2:{ subst tasks. frame_lengths. }
  unfold pd.getitem, pd.setitem. cbn [pd.columns pd.nrows].
  subst tasks. autorewrite with frame_len. reflexivity.
Qed.

Lemma drift_epochs_last (num_points : Z) :
  (1 <= num_points)%Z -> np.last_item (drift_epochs num_points) = Ok (num_points * 100)%Z.
Proof.
  intros H. unfold np.last_item, drift_epochs.
  destruct (Z.to_nat num_points) as [|k] eqn:Hk; [lia|].
  rewrite linear_snoc, map_app, rev_app_distr. cbn [map rev app]. f_equal. lia.
Qed.

(** What [generate_dummy_drift_data] returns for [type='maml']. *)
Lemma generate_dummy_drift_data_maml_eq (num_points : Z) (mean std : R) (rs : RandomState) :
  (1 <= num_points)%Z ->
  let n := Z.to_nat num_points in
  let epochs := drift_epochs num_points in
  let last := (num_points * 100)%Z in
  generate_dummy_drift_data num_points "maml" mean std rs
  = Ok ({| pd.nrows := n;
           pd.columns :=
             [ ("epoch", ints epochs);
               ("l2_drift_from_init", floats (np.add
                  (map (fun e => mean * (1 - exp (- IZR e / (IZR (num_points * 100) * 0.4))))%R
                       epochs)
                  (normal_draw 0 0.1 n rs)));
               ("l2_drift_from_previous", floats (np.abs
                  (np.zip_with
                     (fun z e => z * (mean / IZR last) * (IZR last - IZR e / 2) / (IZR last / 2))%R
                     (normal_draw 0.1 0.05 n (skip_gauss n rs)) epochs))) ] |},
        skip_gauss n (skip_gauss n rs)).
Proof.
  intros Hn n epochs last.
  unfold generate_dummy_drift_data. cbn [String.eqb Ascii.eqb Bool.eqb].
  unfold gbind, glift, gret, np.arange2.
  rewrite arange_len_unit by lia.
  replace (num_points + 1 - 1)%Z with num_points by lia.
  fold (drift_epochs num_points). fold epochs. fold n.
  rewrite !random_normal_ok by (try lia; lra). fold n.
  fold (normal_draw 0 0.1 n rs). fold (normal_draw 0.1 0.05 n (skip_gauss n rs)).
  subst epochs. rewrite drift_epochs_last by assumption. fold last.
  rewrite of_dict_ok; [unfold drift_epochs; autorewrite with frame_len; reflexivity|].
  unfold drift_epochs, np.abs. repeat constructor; cbn [snd]; autorewrite with frame_len.
  - rewrite add_length; autorewrite with frame_len; reflexivity.
  - rewrite zip_with_length; autorewrite with frame_len; reflexivity.
Qed.

(** What [generate_dummy_drift_data] returns for [type='sgd']. *)
Lemma generate_dummy_drift_data_sgd_eq (num_points : Z) (mean std : R) (rs : RandomState) :
  (0 <= num_points)%Z -> (0 <= std)%R ->
  let n := Z.to_nat num_points in
  generate_dummy_drift_data num_points "sgd" mean std rs
  = Ok ({| pd.nrows := n;
           pd.columns :=
             [ ("final_l2_drift_from_init",
                floats (np.abs (normal_draw (mean * 0.8) std n rs))) ] |},
        skip_gauss n rs).
Proof.
  intros Hn Hs n.
  unfold generate_dummy_drift_data. cbn [String.eqb Ascii.eqb Bool.eqb].
  unfold gbind, glift, gret.
  rewrite random_normal_ok by assumption. fold n. fold (normal_draw (mean * 0.8) std n rs).
  rewrite of_dict_ok by constructor.
  unfold np.abs. autorewrite with frame_len. reflexivity.
Qed.

(** *** Calls that raise *)

Lemma random_normal_negative_size (loc scale : R) (size : Z) (rs : RandomState) :
  (size < 0)%Z -> np.random_normal loc scale size rs = Raise ValueError.
Proof.
  intros H. unfold np.random_normal. now rewrite (proj2 (Z.ltb_lt size 0) H).
Qed.

Lemma maml_trajectory_zero_interval (epochs : Z) (rs : RandomState) :
  generate_dummy_maml_trajectory epochs 0 rs = Raise ZeroDivisionError.
Proof. reflexivity. Qed.

(** Beyond int64 the call does not return. *)
Lemma maml_trajectory_outside (epochs log_interval : Z) (rs : RandomState) :
  (np.in_int64 log_interval && np.in_int64 (epochs + 1))%bool = false ->
  exists e : exn, generate_dummy_maml_trajectory epochs log_interval rs = Raise e.
Proof.
  intros H. unfold generate_dummy_maml_trajectory, gbind, glift, np.arange3,
    np.arange_dtype, np.discover.
  destruct (log_interval =? 0)%Z; [eexists; reflexivity|].
  destruct (np.in_int64 log_interval), (np.in_int64 (epochs + 1));
    cbn [andb] in H; try discriminate;
    repeat match goal with
           | |- context [if ?b then _ else _] => destruct b
           end;
    cbn [np.promote np.exp_operand];
    repeat match goal with
           | |- context [if ?b then _ else _] => destruct b
           | |- context [np.linear _ _ ?n] => destruct n; cbn [np.linear np.exp_operand]
           end;
    eexists; reflexivity.
Qed.

Lemma sgd_trajectory_negative_count (num_tasks : Z) (rs : RandomState) :
  (num_tasks < 0)%Z -> generate_dummy_sgd_trajectory num_tasks rs = Raise ValueError.
Proof.
  intros H. unfold generate_dummy_sgd_trajectory, gbind.
  now rewrite random_normal_negative_size.
Qed.

Lemma drift_data_maml_no_points (mean std : R) (rs : RandomState) :
  generate_dummy_drift_data 0 "maml" mean std rs = Raise IndexError.
Proof.
  unfold generate_dummy_drift_data. cbn [String.eqb Ascii.eqb Bool.eqb].
  unfold gbind. rewrite !random_normal_ok by (try lia; lra). reflexivity.
Qed.

Lemma drift_data_maml_negative_count (num_points : Z) (mean std : R) (rs : RandomState) :
  (num_points < 0)%Z ->
  generate_dummy_drift_data num_points "maml" mean std rs = Raise ValueError.
Proof.
  intros H. unfold generate_dummy_drift_data. cbn [String.eqb Ascii.eqb Bool.eqb].
  unfold gbind. now rewrite random_normal_negative_size.
Qed.

(** A call of [generate_dummy_maml_trajectory] that returns has a step other
    than 0 and arguments in int64. *)
Lemma maml_trajectory_returns
    (epochs log_interval : Z) (rs rs' : RandomState) (df : pd.DataFrame) :
  generate_dummy_maml_trajectory epochs log_interval rs = Ok (df, rs') ->
  log_interval <> 0%Z
  /\ np.in_int64 log_interval = true /\ np.in_int64 (epochs + 1) = true.
Proof.
  destruct (Z.eq_dec log_interval 0) as [->|Hli]; [discriminate|].
  destruct (np.in_int64 log_interval) eqn:Hin;
    [destruct (np.in_int64 (epochs + 1)) eqn:Hstop|].
  - intros _. repeat split. exact Hli.
  - destruct (@maml_trajectory_outside epochs log_interval rs) as [e ->];
      [now rewrite Hin, Hstop | discriminate].
  - destruct (@maml_trajectory_outside epochs log_interval rs) as [e ->];
      [now rewrite Hin | discriminate].
Qed.

(** *** Generated tables are tables the renderers can draw *)

Lemma generated_trajectory_plottable
    (epochs log_interval : Z) (rs rs' : RandomState) (df : pd.DataFrame) :
  generate_dummy_maml_trajectory epochs log_interval rs = Ok (df, rs') ->
  maml_curves_plottable df = true /\ pd.has_column "grad_alignment" df = true.
Proof.
  intros H. destruct (maml_trajectory_returns _ _ _ H) as (Hli & Hin & Hstop).
  rewrite generate_dummy_maml_trajectory_eq in H by assumption.
  injection H as <- _. split; reflexivity.
Qed.

Lemma generated_drift_plottable
    (num_points : Z) (mean std : R) (rs rs' : RandomState) (df : pd.DataFrame) :
  generate_dummy_drift_data num_points "maml" mean std rs = Ok (df, rs') ->
  maml_drift_plottable df = true.
Proof.
  destruct (Z.lt_trichotomy num_points 0) as [Hneg|[->|Hpos]].
  - now rewrite drift_data_maml_negative_count.
  - now rewrite drift_data_maml_no_points.
  - rewrite generate_dummy_drift_data_maml_eq by lia.
    intros H. injection H as <- _. unfold maml_drift_plottable.
    apply orb_true_iff. right. reflexivity.
Qed.

Lemma linear_iota (n : nat) : forall (start : nat),
  np.linear (Z.of_nat start) 1 n = map Z.of_nat (seq start n).
Proof.
  induction n as [|n IH]; intros start; [reflexivity|].
  cbn [np.linear seq map]. f_equal.
  replace (Z.of_nat start + 1)%Z with (Z.of_nat (S start)) by lia. apply IH.
Qed.

Lemma NoDup_map_of_nat (l : list nat) : NoDup l -> NoDup (map Z.of_nat l).
Proof.
  induction 1 as [|x l Hx _ IH]; cbn [map]; constructor; [|exact IH].
  intros Hin. apply in_map_iff in Hin. destruct Hin as [y [Hy Hin]].
  apply Nat2Z.inj in Hy. now subst y.
Qed.

(* ------------------------------------------------------------------ *)
(** ** The SGD trajectory table *)

(** C1. For every [num_tasks = N >= 1] and every realization,
    [generate_dummy_sgd_trajectory] returns a table whose columns are exactly
    task_idx, query_loss, query_accuracy, final_support_loss, num_sgd_steps
    and lr, with [N] rows (every column has [N] entries), task_idx the
    duplicate-free sequence 0, 1, ..., N-1, num_sgd_steps 100 in every row and
    lr 0.001 in every row. *)
Theorem sgd_trajectory_table (N : Z) (rs : RandomState) :
  (1 <= N)%Z ->
  exists (df : pd.DataFrame) (rs' : RandomState),
    generate_dummy_sgd_trajectory N rs = Ok (df, rs')
    /\ pd.column_names df
       = ["task_idx"; "query_loss"; "query_accuracy"; "final_support_loss";
          "num_sgd_steps"; "lr"]
    /\ pd.nrows df = Z.to_nat N
    /\ well_shaped df
    /\ column "task_idx" df = Some (ints (map Z.of_nat (seq 0 (Z.to_nat N))))
    /\ NoDup (map Z.of_nat (seq 0 (Z.to_nat N)))
    /\ column "num_sgd_steps" df = Some (repeat (Int 100) (Z.to_nat N))
    /\ column "lr" df = Some (repeat (Float 0.001) (Z.to_nat N)).
Proof.
  intros HN.
  eexists. eexists. split.
  { apply generate_dummy_sgd_trajectory_eq. lia. }
  split; [reflexivity|]. split; [reflexivity|]. split.
  { unfold well_shaped. cbn [pd.columns pd.nrows]. frame_lengths. }
  split.
  { unfold column. cbn. now rewrite (linear_iota _ 0). }
  split.
  { apply NoDup_map_of_nat, seq_NoDup. }
  split.
  { unfold column, ints. cbn. now rewrite map_repeat. }
  unfold column, floats. cbn. now rewrite map_repeat.
Qed.

(** C1 at [num_tasks = 50]: 50 rows, task_idx 0..49. *)
Lemma sgd_trajectory_table_50 :
  exists (df : pd.DataFrame) (rs' : RandomState),
    generate_dummy_sgd_trajectory 50 (constant_outcomes 0 0) = Ok (df, rs')
    /\ pd.column_names df
       = ["task_idx"; "query_loss"; "query_accuracy"; "final_support_loss";
          "num_sgd_steps"; "lr"]
    /\ pd.nrows df = 50%nat
    /\ well_shaped df
    /\ column "task_idx" df = Some (ints (map Z.of_nat (seq 0 50)))
    /\ NoDup (map Z.of_nat (seq 0 50))
    /\ column "num_sgd_steps" df = Some (repeat (Int 100) 50)
    /\ column "lr" df = Some (repeat (Float 0.001) 50).
Proof.
  apply (sgd_trajectory_table (N := 50) (constant_outcomes 0 0)). lia.
Defined.

(* ------------------------------------------------------------------ *)
(** ** Step sequences and row counts *)

Lemma arithmetic_increasing (first step : Z) (l : list Z) :
  (0 < step)%Z -> arithmetic first step l -> strictly_increasing l.
Proof.
  intros Hs Ha i Hi. rewrite (Ha i), (Ha (S i)) by lia. lia.
Qed.

Lemma arithmetic_constant_step (first step : Z) (l : list Z) :
  arithmetic first step l -> constant_step step l.
Proof.
  intros Ha i Hi. rewrite (Ha i), (Ha (S i)) by lia. lia.
Qed.

Lemma linear_arithmetic (start step : Z) (n : nat) :
  arithmetic start step (np.linear start step n).
Proof.
  intros i Hi. rewrite linear_length in Hi. now apply linear_nth.
Qed.

Lemma log_steps_length (epochs log_interval : Z) :
  (0 <= epochs < 2 ^ 53)%Z -> (1 <= log_interval)%Z ->
  List.length (log_steps epochs log_interval) = Z.to_nat (epochs / log_interval).
Proof.
  intros He Hl. unfold log_steps. now rewrite linear_length, arange_len_log_steps.
Qed.

Lemma log_steps_cons (epochs log_interval : Z) :
  (1 <= log_interval <= epochs)%Z ->
  exists k : nat,
    log_steps epochs log_interval
    = log_interval :: np.linear (log_interval + log_interval) log_interval k.
Proof.
  intros H. unfold log_steps.
  pose proof (@arange_len_double_pos log_interval (epochs + 1) log_interval
                ltac:(lia) ltac:(lia)) as Hpos.
  destruct (Z.to_nat (np.arange_len_double log_interval (epochs + 1) log_interval))
    as [|k] eqn:Hk; [lia|].
  exists k. reflexivity.
Qed.

Lemma drift_epochs_length (num_points : Z) :
  List.length (drift_epochs num_points) = Z.to_nat num_points.
Proof. unfold drift_epochs. now rewrite length_map, linear_length. Qed.

Lemma drift_epochs_arithmetic (num_points : Z) :
  arithmetic 100 100 (drift_epochs num_points).
Proof.
  intros i Hi. rewrite drift_epochs_length in Hi. unfold drift_epochs.
  change 0%Z with ((fun e => e * 100)%Z 0%Z) at 1.
  rewrite map_nth, linear_nth by assumption. lia.
Qed.

(** C4 as stated fails beyond int64: with [epochs = 2^64] and
    [log_interval = 2^63] the log steps are an array of Python objects,
    [np.exp] raises [TypeError] and there is no log_step column. *)
Lemma log_step_column_beyond_int64 :
  (1 <= 18446744073709551616)%Z /\ (1 <= 9223372036854775808)%Z
  /\ forall rs : RandomState,
       generate_dummy_maml_trajectory 18446744073709551616 9223372036854775808 rs
       = Raise TypeError.
Proof.
  split; [lia|]. split; [lia|]. intros rs.
  unfold generate_dummy_maml_trajectory, gbind, glift.
  assert (np.arange3 9223372036854775808 (18446744073709551616 + 1) 9223372036854775808
          = Ok (np.object, [9223372036854775808%Z])) as -> by (vm_compute; reflexivity).
  unfold np.exp_operand.
  assert ((Z.abs 18446744073709551616 <? 2 ^ 1023)%Z = true) as ->
    by (vm_compute; reflexivity).
  reflexivity.
Qed.

(** C4, amended.  For [epochs >= 1] and [log_interval >= 1] in int64, the
    call returns and the log_step column is [log_interval * (i + 1)] at index
    [i]: it has constant step [log_interval] and is strictly increasing, and
    it starts at [log_interval] when [log_interval <= epochs].  For
    [num_points >= 1] the epoch column of the MAML drift series is
    [100 * (i + 1)] at index [i], with constant step 100, strictly
    increasing. *)
Theorem log_step_and_epoch_sequences
    (epochs log_interval num_points : Z) (mean std : R) (rs : RandomState) :
  (1 <= epochs < np.int64_max)%Z -> (1 <= log_interval <= np.int64_max)%Z ->
  (1 <= num_points)%Z ->
  (exists (df : pd.DataFrame) (rs' : RandomState) (steps : list Z),
      generate_dummy_maml_trajectory epochs log_interval rs = Ok (df, rs')
      /\ column "log_step" df = Some (ints steps)
      /\ arithmetic log_interval log_interval steps
      /\ constant_step log_interval steps
      /\ strictly_increasing steps
      /\ ((log_interval <= epochs)%Z -> nth_error steps 0 = Some log_interval))
  /\
  (exists (df : pd.DataFrame) (rs' : RandomState) (eps : list Z),
      generate_dummy_drift_data num_points "maml" mean std rs = Ok (df, rs')
      /\ column "epoch" df = Some (ints eps)
      /\ List.length eps = Z.to_nat num_points
      /\ (forall i : nat, (i < List.length eps)%nat ->
            nth i eps 0%Z = (100 * (Z.of_nat i + 1))%Z)
      /\ constant_step 100 eps
      /\ strictly_increasing eps).
Proof.
  intros He Hl Hn. split.
  - eexists. eexists. exists (log_steps epochs log_interval). split.
    { apply generate_dummy_maml_trajectory_eq; int_bounds. }
    split; [reflexivity|].
    assert (Ha : arithmetic log_interval log_interval (log_steps epochs log_interval))
      by apply linear_arithmetic.
    split; [exact Ha|]. split; [|split].
    + now apply arithmetic_constant_step with (first := log_interval).
    + apply arithmetic_increasing with (first := log_interval) (step := log_interval);
        [lia | exact Ha].
    + intros Hle. destruct (@log_steps_cons epochs log_interval ltac:(lia)) as [k ->].
      reflexivity.
  - eexists. eexists. exists (drift_epochs num_points). split.
    { apply generate_dummy_drift_data_maml_eq. exact Hn. }
    split; [reflexivity|]. split; [apply drift_epochs_length|].
    pose proof (drift_epochs_arithmetic num_points) as Ha.
    split; [intros i Hi; rewrite (Ha i Hi); lia|]. split.
    + now apply arithmetic_constant_step with (first := 100%Z).
    + apply arithmetic_increasing with (first := 100%Z) (step := 100%Z); [lia | exact Ha].
Qed.

(** C4, amended, at the defaults [epochs=100], [log_interval=10] and at ten
    drift points. *)
Lemma log_step_and_epoch_sequences_default :
  (exists (df : pd.DataFrame) (rs' : RandomState) (steps : list Z),
      generate_dummy_maml_trajectory 100 10 (constant_outcomes 0 0) = Ok (df, rs')
      /\ column "log_step" df = Some (ints steps)
      /\ arithmetic 10 10 steps
      /\ constant_step 10 steps
      /\ strictly_increasing steps
      /\ ((10 <= 100)%Z -> nth_error steps 0 = Some 10%Z))
  /\
  (exists (df : pd.DataFrame) (rs' : RandomState) (eps : list Z),
      generate_dummy_drift_data 10 "maml" 5 1 (constant_outcomes 0 0) = Ok (df, rs')
      /\ column "epoch" df = Some (ints eps)
      /\ List.length eps = Z.to_nat 10
      /\ (forall i : nat, (i < List.length eps)%nat ->
            nth i eps 0%Z = (100 * (Z.of_nat i + 1))%Z)
      /\ constant_step 100 eps
      /\ strictly_increasing eps).
Proof.
  apply (@log_step_and_epoch_sequences 100 10 10 5 1 (constant_outcomes 0 0));
    int_bounds.
Defined.




(** C10. For a [type] other than maml and sgd, and any [num_points],
    [generate_dummy_drift_data] does not raise: it returns the empty table,
    zero rows and zero columns, and draws nothing. *)
Theorem drift_data_other_type
    (num_points : Z) (type : string) (mean std : R) (rs : RandomState) :
  type <> "maml" -> type <> "sgd" ->
  generate_dummy_drift_data num_points type mean std rs = Ok (pd.empty_frame, rs)
  /\ pd.nrows pd.empty_frame = 0%nat
  /\ pd.columns pd.empty_frame = []
  /\ pd.empty pd.empty_frame = true.
Proof.
  intros Hm Hs. unfold generate_dummy_drift_data.
  rewrite (proj2 (String.eqb_neq type "maml") Hm).
  rewrite (proj2 (String.eqb_neq type "sgd") Hs).
  repeat split.
Qed.

(** C10 at [type='other'] with a negative count. *)
Lemma drift_data_other_type_example :
  generate_dummy_drift_data (-3) "other" 5 1 (constant_outcomes 0 0)
  = Ok (pd.empty_frame, constant_outcomes 0 0)
  /\ pd.nrows pd.empty_frame = 0%nat
  /\ pd.columns pd.empty_frame = []
  /\ pd.empty pd.empty_frame = true.
Proof.
  apply (@drift_data_other_type (-3) "other" 5 1 (constant_outcomes 0 0)); discriminate.
Defined.

(* ------------------------------------------------------------------ *)
(** ** Clipping of the accuracy columns *)

Lemma clip_cell_unit (c : cell) :
  (0 <= cell_value (pd.clip_cell 0 1 c) <= 1)%R.
Proof.
  destruct c as [z|r]; cbn [pd.clip_cell cell_value].
  - split; apply IZR_le; lia.
  - split.
    + apply Rmin_glb; [apply Rmax_r | lra].
    + apply Rmin_r.
Qed.

Lemma clip_unit (s : list cell) :
  Forall (fun c => (0 <= cell_value c <= 1)%R) (pd.clip 0 1 s).
Proof.
  unfold pd.clip. apply Forall_forall. intros c Hin.
  apply in_map_iff in Hin. destruct Hin as [c0 [<- _]]. apply clip_cell_unit.
Qed.





(* ------------------------------------------------------------------ *)
(** ** Non-negative drift columns *)

Lemma abs_nonneg (xs : list R) :
  Forall (fun c => (0 <= cell_value c)%R) (floats (np.abs xs)).
Proof.
  unfold floats, np.abs. apply Forall_forall. intros c Hin.
  apply in_map_iff in Hin. destruct Hin as [r [<- Hin]].
  apply in_map_iff in Hin. destruct Hin as [x [<- _]].
  cbn [cell_value]. apply Rabs_pos.
Qed.

(** C3. Every value of l2_drift_from_previous (type maml) and of
    final_l2_drift_from_init (type sgd) is non-negative, for every
    realization; the call [num_points=10, type='sgd', final_drift_mean=8,
    final_drift_std=2.0] returns a table with the single column
    final_l2_drift_from_init and 10 non-negative rows; l2_drift_from_init of
    the maml table is negative under some realization. *)
Theorem drift_columns_nonnegative
    (num_points : Z) (mean std : R) (rs : RandomState) :
  (1 <= num_points)%Z -> (0 <= std)%R ->
  (exists (df : pd.DataFrame) (rs' : RandomState) (col : list cell),
      generate_dummy_drift_data num_points "maml" mean std rs = Ok (df, rs')
      /\ column "l2_drift_from_previous" df = Some col
      /\ List.length col = Z.to_nat num_points
      /\ Forall (fun c => (0 <= cell_value c)%R) col)
  /\
  (exists (df : pd.DataFrame) (rs' : RandomState) (col : list cell),
      generate_dummy_drift_data num_points "sgd" mean std rs = Ok (df, rs')
      /\ column "final_l2_drift_from_init" df = Some col
      /\ List.length col = Z.to_nat num_points
      /\ Forall (fun c => (0 <= cell_value c)%R) col)
  /\
  (exists (df : pd.DataFrame) (rs' : RandomState) (col : list cell),
      generate_dummy_drift_data 10 "sgd" 8 2.0 rs = Ok (df, rs')
      /\ pd.columns df = [("final_l2_drift_from_init", col)]
      /\ pd.nrows df = 10%nat
      /\ List.length col = 10%nat
      /\ Forall (fun c => (0 <= cell_value c)%R) col)
  /\
  (exists (rs1 : RandomState) (df : pd.DataFrame) (rs' : RandomState) (col : list cell),
      generate_dummy_drift_data num_points "maml" mean std rs1 = Ok (df, rs')
      /\ column "l2_drift_from_init" df = Some col
      /\ Exists (fun c => (cell_value c < 0)%R) col).
Proof.
  intros Hn Hstd. split; [|split; [|split]].
  - eexists. eexists. eexists. split.
    { apply generate_dummy_drift_data_maml_eq. exact Hn. }
    split; [reflexivity|]. split; [|apply abs_nonneg].
    unfold np.abs. autorewrite with frame_len.
    rewrite zip_with_length; autorewrite with frame_len;
      [reflexivity | now rewrite drift_epochs_length].
  - eexists. eexists. eexists. split.
    { apply generate_dummy_drift_data_sgd_eq; [lia | exact Hstd]. }
    split; [reflexivity|]. split; [|apply abs_nonneg].
    unfold np.abs. now autorewrite with frame_len.
  - eexists. eexists. eexists. split.
    { apply generate_dummy_drift_data_sgd_eq; [lia | lra]. }
    split; [reflexivity|]. split; [reflexivity|]. split; [|apply abs_nonneg].
    unfold np.abs. now autorewrite with frame_len.
  - set (f := (fun e : Z =>
                 mean * (1 - exp (- IZR e / (IZR (num_points * 100) * 0.4))))%R).
    exists (constant_outcomes ((-1 - f 100%Z) * 10) 0).
    eexists. eexists. eexists. split.
    { apply generate_dummy_drift_data_maml_eq. exact Hn. }
    split; [reflexivity|].
    unfold drift_epochs.
    destruct (Z.to_nat num_points) as [|k] eqn:Hk; [lia|].
    cbn [np.linear map]. apply Exists_cons_hd.
    cbn [cell_value gauss constant_outcomes]. subst f. cbn beta.
    replace (1 * 100)%Z with 100%Z by lia. lra.
Qed.

(** C3 at [num_points=10], [final_drift_mean=8], [final_drift_std=2.0]. *)
Lemma drift_columns_nonnegative_example :
  (exists (df : pd.DataFrame) (rs' : RandomState) (col : list cell),
      generate_dummy_drift_data 10 "maml" 8 2.0 (constant_outcomes 0 0) = Ok (df, rs')
      /\ column "l2_drift_from_previous" df = Some col
      /\ List.length col = Z.to_nat 10
      /\ Forall (fun c => (0 <= cell_value c)%R) col)
  /\
  (exists (df : pd.DataFrame) (rs' : RandomState) (col : list cell),
      generate_dummy_drift_data 10 "sgd" 8 2.0 (constant_outcomes 0 0) = Ok (df, rs')
      /\ column "final_l2_drift_from_init" df = Some col
      /\ List.length col = Z.to_nat 10
      /\ Forall (fun c => (0 <= cell_value c)%R) col)
  /\
  (exists (df : pd.DataFrame) (rs' : RandomState) (col : list cell),
      generate_dummy_drift_data 10 "sgd" 8 2.0 (constant_outcomes 0 0) = Ok (df, rs')
      /\ pd.columns df = [("final_l2_drift_from_init", col)]
      /\ pd.nrows df = 10%nat
      /\ List.length col = 10%nat
      /\ Forall (fun c => (0 <= cell_value c)%R) col)
  /\
  (exists (rs1 : RandomState) (df : pd.DataFrame) (rs' : RandomState) (col : list cell),
      generate_dummy_drift_data 10 "maml" 8 2.0 rs1 = Ok (df, rs')
      /\ column "l2_drift_from_init" df = Some col
      /\ Exists (fun c => (cell_value c < 0)%R) col).
Proof.
  apply (@drift_columns_nonnegative 10 8 2.0 (constant_outcomes 0 0)); [lia | lra].
Defined.

(* ------------------------------------------------------------------ *)
(** ** Trend and noise of the trajectory columns *)

Ltac lookup_column :=
  unfold column; cbn [pd.lookup pd.columns String.eqb Ascii.eqb Bool.eqb andb].

(** C9 as stated fails: final_support_loss of the SGD trajectory is not a
    trend plus Gaussian noise.  With one task and all standard-normal outcomes
    0, the uniform outcome 0 gives the value 0 and the uniform outcome 1/2
    gives 0.05. *)
Lemma final_support_loss_not_noisy_trend :
  ~ noisy_trend_column (np.arange 1) 1
      (generated_column (generate_dummy_sgd_trajectory 1) "final_support_loss").
Proof.
  intros (target & start & decay & mu & sigma & skip & H).
  pose proof (H (constant_outcomes 0 0)) as H0.
  pose proof (H (constant_outcomes 0 (1 / 2))) as H1.
  unfold generated_column in H0, H1.
  rewrite generate_dummy_sgd_trajectory_eq in H0, H1 by lia.
  change (np.arange 1) with [0%Z] in H0, H1.
  change (Z.to_nat 1) with 1%nat in H0, H1.
  injection H0 as H0. injection H1 as H1.
  cbn [gauss uniform constant_outcomes skip_gauss drop_stream] in H0, H1.
  lra.
Qed.

(** The clipped accuracy is not the trend plus the noise either: one log
    step, standard-normal outcome 100, and val_accuracy is exactly 1. *)
Lemma val_accuracy_saturates :
  generated_column (generate_dummy_maml_trajectory 1 1) "val_accuracy"
    (constant_outcomes 100 0)
  = Some [Float 1].
Proof.
  unfold generated_column.
  rewrite generate_dummy_maml_trajectory_eq by first [lia | reflexivity].
  change (log_steps 1 1) with [1%Z].
  lookup_column.
  cbn [List.length normal_draw take_stream seq map np.add np.zip_with floats pd.clip
       pd.clip_cell gauss constant_outcomes skip_gauss drop_stream].
  do 3 f_equal.
  set (x := (- (1) / (1 * 0.4))%R).
  assert (x < 0)%R as Hx by (subst x; lra).
  pose proof (exp_pos x) as He.
  pose proof (exp_increasing x 0 Hx) as Hlt. rewrite exp_0 in Hlt.
  rewrite Rmax_left by lra. apply Rmin_right. lra.
Qed.

Lemma map_trend (f : Z -> R) (target start decay x_max : R) (xs : list Z) :
  (forall x : Z, f x = trend target start decay x_max (IZR x)) ->
  map f xs = map (fun x => trend target start decay x_max (IZR x)) xs.
Proof. intros H. apply map_ext. exact H. Qed.

(** C9, amended.  For positive int64 arguments, val_loss, grad_alignment and
    query_loss are a saturating-exponential trend plus Gaussian noise
    (standard deviations 0.02, 0.05, 0.03), each column on its own outcomes;
    val_accuracy and query_accuracy are such a sum clipped into [0, 1];
    final_support_loss is 0.1 times a uniform outcome, without trend.  The
    abscissae of the MAML columns are the log steps
    [log_interval, 2 * log_interval, ...] that [np.arange] returns. *)
Theorem trajectory_columns_trend_and_noise
    (epochs log_interval N : Z) (rs : RandomState) :
  (1 <= epochs < np.int64_max)%Z -> (1 <= log_interval <= np.int64_max)%Z -> (1 <= N)%Z ->
  (exists (df : pd.DataFrame) (rs' : RandomState),
      generate_dummy_maml_trajectory epochs log_interval rs = Ok (df, rs')
      /\ let steps := log_steps epochs log_interval in
         let k := List.length steps in
         column "val_loss" df
         = Some (floats (np.add
             (map (fun s => trend 0.4 0.7 0.3 (IZR epochs) (IZR s)) steps)
             (normal_draw 0 0.02 k rs)))
         /\ column "val_accuracy" df
            = Some (pd.clip 0 1 (floats (np.add
                (map (fun s => trend 0.9 0.5 0.4 (IZR epochs) (IZR s)) steps)
                (normal_draw 0 0.02 k (skip_gauss k rs)))))
         /\ column "grad_alignment" df
            = Some (floats (np.add
                (map (fun s => trend 0.7 0.1 0.5 (IZR epochs) (IZR s)) steps)
                (normal_draw 0 0.05 k (skip_gauss (k + k) rs)))))
  /\
  (exists (df : pd.DataFrame) (rs' : RandomState),
      generate_dummy_sgd_trajectory N rs = Ok (df, rs')
      /\ let n := Z.to_nat N in
         let tasks := map Z.of_nat (seq 0 n) in
         column "query_loss" df
         = Some (floats (np.add
             (map (fun t => trend 0.4 0.6 0.5 (IZR N) (IZR t)) tasks)
             (normal_draw 0 0.03 n rs)))
         /\ column "query_accuracy" df
            = Some (pd.clip 0 1 (floats (np.add
                (map (fun t => trend 0.85 0.55 0.6 (IZR N) (IZR t)) tasks)
                (normal_draw 0 0.03 n (skip_gauss n rs)))))
         /\ column "final_support_loss" df
            = Some (floats (map (fun u => (u * 0.1)%R) (take_stream (uniform rs) n)))).
Proof.
  intros He Hl HN. split.
  - eexists. eexists. split.
    { apply generate_dummy_maml_trajectory_eq; int_bounds. }
    cbv zeta. split; [|split]; lookup_column.
    + do 3 f_equal. apply map_trend. intros x. unfold trend. lra.
    + do 4 f_equal. apply map_trend. intros x. unfold trend. lra.
    + do 3 f_equal; [apply map_trend; intros x; unfold trend; lra|].
      unfold normal_draw, take_stream. cbn [gauss skip_gauss]. unfold drop_stream.
      f_equal. apply map_ext. intros i. f_equal. lia.
  - eexists. eexists. split.
    { apply generate_dummy_sgd_trajectory_eq. lia. }
    cbv zeta. rewrite <- (linear_iota _ 0). change (Z.of_nat 0) with 0%Z.
    split; [|split]; lookup_column.
    + do 3 f_equal. apply map_trend. intros x. unfold trend. lra.
    + do 4 f_equal. apply map_trend. intros x. unfold trend. lra.
    + reflexivity.
Qed.

(** C9, amended, at the defaults. *)
Lemma trajectory_columns_trend_and_noise_default :
  (exists (df : pd.DataFrame) (rs' : RandomState),
      generate_dummy_maml_trajectory 100 10 (constant_outcomes 0 0) = Ok (df, rs')
      /\ let steps := log_steps 100 10 in
         let k := List.length steps in
         column "val_loss" df
         = Some (floats (np.add
             (map (fun s => trend 0.4 0.7 0.3 (IZR 100) (IZR s)) steps)
             (normal_draw 0 0.02 k (constant_outcomes 0 0))))
         /\ column "val_accuracy" df
            = Some (pd.clip 0 1 (floats (np.add
                (map (fun s => trend 0.9 0.5 0.4 (IZR 100) (IZR s)) steps)
                (normal_draw 0 0.02 k (skip_gauss k (constant_outcomes 0 0))))))
         /\ column "grad_alignment" df
            = Some (floats (np.add
                (map (fun s => trend 0.7 0.1 0.5 (IZR 100) (IZR s)) steps)
                (normal_draw 0 0.05 k (skip_gauss (k + k) (constant_outcomes 0 0))))))
  /\
  (exists (df : pd.DataFrame) (rs' : RandomState),
      generate_dummy_sgd_trajectory 200 (constant_outcomes 0 0) = Ok (df, rs')
      /\ let n := Z.to_nat 200 in
         let tasks := map Z.of_nat (seq 0 n) in
         column "query_loss" df
         = Some (floats (np.add
             (map (fun t => trend 0.4 0.6 0.5 (IZR 200) (IZR t)) tasks)
             (normal_draw 0 0.03 n (constant_outcomes 0 0))))
         /\ column "query_accuracy" df
            = Some (pd.clip 0 1 (floats (np.add
                (map (fun t => trend 0.85 0.55 0.6 (IZR 200) (IZR t)) tasks)
                (normal_draw 0 0.03 n (skip_gauss n (constant_outcomes 0 0))))))
         /\ column "final_support_loss" df
            = Some (floats (map (fun u => (u * 0.1)%R)
                              (take_stream (uniform (constant_outcomes 0 0)) n)))).
Proof.
  apply (@trajectory_columns_trend_and_noise 100 10 200 (constant_outcomes 0 0));
    int_bounds.
Defined.

(* ------------------------------------------------------------------ *)
(** ** Renderers *)

(** *** Texts in math mode *)

Lemma count_char_app_plain (a s : string) :
  plain a = true -> plt.count_char "$" (a ++ s) = plt.count_char "$" s.
Proof.
  induction a as [|c a IH]; intros H; [reflexivity|].
  cbn [plain] in H. apply andb_true_iff in H. destruct H as [H Ha].
  apply andb_true_iff in H. destruct H as [Hd _].
  cbn [append plt.count_char]. rewrite (IH Ha).
  now destruct (Ascii.eqb c "$").
Qed.

Lemma count_escaped_app_plain (a s : string) :
  plain a = true -> plt.count_escaped_dollar (a ++ s) = plt.count_escaped_dollar s.
Proof.
  induction a as [|c a IH]; intros H; [reflexivity|].
  cbn [plain] in H. apply andb_true_iff in H. destruct H as [H Ha].
  apply andb_true_iff in H. destruct H as [_ Hb].
  cbn [append plt.count_escaped_dollar]. rewrite (IH Ha).
  now destruct (Ascii.eqb c plt.backslash).
Qed.

(** A prefix without dollar sign and backslash does not change the mode. *)
Lemma is_math_text_app (a s : string) :
  plain a = true -> plt.is_math_text (a ++ s) = plt.is_math_text s.
Proof.
  intros H. unfold plt.is_math_text.
  now rewrite count_char_app_plain, count_escaped_app_plain.
Qed.

Lemma plain_digits (fuel : nat) : forall (n : nat) (acc : string),
  plain acc = true -> plain (digits fuel n acc) = true.
Proof.
  induction fuel as [|fuel IH]; intros n acc Hacc; [exact Hacc|].
  cbn [digits].
  assert (Hd : plain (String (ascii_of_nat (48 + n mod 10)) acc) = true).
  { pose proof (Nat.mod_upper_bound n 10 ltac:(lia)) as Hm.
    set (m := (n mod 10)%nat) in *. clearbody m.
    cbn [plain]. rewrite Hacc.
    do 10 (destruct m as [|m]; [reflexivity|]). lia. }
  destruct (Nat.eqb (n / 10) 0); [exact Hd | now apply IH].
Qed.

Lemma plain_str_of_nat (n : nat) : plain (str_of_nat n) = true.
Proof. unfold str_of_nat. now apply plain_digits. Qed.

Lemma head_is_str_replace (s : string) :
  plt.head_is "$" (str_replace " " "_" s) = plt.head_is "$" s.
Proof.
  destruct s as [|c s]; [reflexivity|]. cbn [str_replace plt.head_is].
  destruct (Ascii.eqb c " ") eqn:E; [|reflexivity].
  apply Ascii.eqb_eq in E. now subst c.
Qed.

(** Turning spaces into underscores does not change the mode. *)
Lemma is_math_text_str_replace (s : string) :
  plt.is_math_text (str_replace " " "_" s) = plt.is_math_text s.
Proof.
  unfold plt.is_math_text.
  assert (H1 : plt.count_char "$" (str_replace " " "_" s) = plt.count_char "$" s).
  { induction s as [|c s IH]; [reflexivity|].
    cbn [str_replace plt.count_char]. rewrite IH.
    destruct (Ascii.eqb c " ") eqn:E; [|reflexivity].
    apply Ascii.eqb_eq in E. now subst c. }
  assert (H2 : plt.count_escaped_dollar (str_replace " " "_" s)
               = plt.count_escaped_dollar s).
  { clear H1. induction s as [|c s IH]; [reflexivity|].
    cbn [str_replace plt.count_escaped_dollar]. rewrite IH, head_is_str_replace.
    destruct (Ascii.eqb c " ") eqn:E; [|reflexivity].
    apply Ascii.eqb_eq in E. now subst c. }
  now rewrite H1, H2.
Qed.

Lemma text_ok_nomath (parses : string -> bool) (s : string) :
  plt.is_math_text s = false -> plt.text_ok parses s = true.
Proof. intros H. unfold plt.text_ok. now rewrite H. Qed.

(** A text that is not in math mode: a literal, or literals before a title
    suffix that is not in math mode. *)
Ltac nomath :=
  repeat (rewrite is_math_text_app by first [reflexivity | apply plain_str_of_nat]);
  first [ assumption
        | reflexivity
        | rewrite is_math_text_str_replace; assumption ].

(** The texts of a figure whose title suffix is not in math mode pass. *)
Ltac texts_pass :=
  repeat match goal with
         | |- context [plt.axes_texts_ok ?a ?f] =>
             let v := eval cbv -[plt.text_ok append str_of_nat pd.nrows str_replace]
                      in (plt.axes_texts_ok a f) in
             change (plt.axes_texts_ok a f) with v
         | |- context [plt.figure_texts_ok ?a ?f] =>
             let v := eval cbv -[plt.text_ok append str_of_nat pd.nrows str_replace]
                      in (plt.figure_texts_ok a f) in
             change (plt.figure_texts_ok a f) with v
         end;
  repeat match goal with
         | |- context [plt.text_ok ?a ?s] => rewrite (@text_ok_nomath a s) by nomath
         end.

Ltac plot_steps :=
  cbv beta iota zeta delta
    [pbind pret plift print os.makedirs plt.savefig plt.tight_layout plt.close
     plt.subplots sns.lineplot sns.histplot
     os_allows mathtext_parses files dirs console open_figures].

Ltac use_fact :=
  match goal with
  | H : pd.has_column _ _ = _ |- _ => rewrite H
  | H : pd.empty _ = _ |- _ => rewrite H
  | H : _ (MakeDirs _) = _ |- _ => rewrite H
  | H : _ (WriteFile _) = _ |- _ => rewrite H
  end.

Ltac plot_run :=
  plot_steps; cbn [andb negb orb];
  repeat (first [use_fact | progress texts_pass]; plot_steps; cbn [andb negb orb]).


Lemma has_column_drawn (dm : pd.DataFrame) :
  maml_drift_plottable dm = true ->
  pd.empty dm = false -> pd.has_column "l2_drift_from_init" dm = true ->
  pd.has_column "epoch" dm = true.
Proof.
  unfold maml_drift_plottable. intros H He Hc. rewrite He, Hc in H. exact H.
Qed.





(* ------------------------------------------------------------------ *)
(** ** File names *)

Section FileEffects.

Context {A B : Type}.

Lemma keeps_bind (m : Plot A) (k : A -> Plot B) :
  keeps_files m -> (forall a, keeps_files (k a)) -> keeps_files (pbind m k).
Proof.
  intros Hm Hk w. unfold pbind. specialize (Hm w).
  destruct (m w) as [[a|e] w1]; cbn [snd] in *; [|exact Hm].
  now rewrite (Hk a w1).
Qed.

Lemma saves_bind_l (path : string) (m : Plot A) (k : A -> Plot B) :
  keeps_files m -> (forall a, saves_only path (k a)) -> saves_only path (pbind m k).
Proof.
  intros Hm Hk w. unfold pbind. specialize (Hm w).
  destruct (m w) as [[a|e] w1]; cbn [snd] in *; [|now left].
  rewrite <- Hm. apply Hk.
Qed.

Lemma saves_bind_r (path : string) (m : Plot A) (k : A -> Plot B) :
  saves_only path m -> (forall a, keeps_files (k a)) -> saves_only path (pbind m k).
Proof.
  intros Hm Hk w. unfold pbind. specialize (Hm w).
  destruct (m w) as [[a|e] w1]; cbn [snd] in *; [|exact Hm].
  now rewrite (Hk a w1).
Qed.

Lemma keeps_saves (path : string) (m : Plot A) : keeps_files m -> saves_only path m.
Proof. intros H w. left. apply H. Qed.

Lemma keeps_pret (a : A) : keeps_files (pret a).
Proof. intros w. reflexivity. Qed.

Lemma keeps_plift (r : result A) : keeps_files (plift r).
Proof. intros w. reflexivity. Qed.

End FileEffects.

Lemma keeps_print (s : string) : keeps_files (print s).
Proof. intros w. reflexivity. Qed.

Lemma keeps_makedirs (d : string) : keeps_files (os.makedirs d).
Proof. intros w. unfold os.makedirs. now destruct (os_allows w (MakeDirs d)). Qed.

Lemma keeps_close (fig : Figure) : keeps_files (plt.close fig).
Proof. intros w. reflexivity. Qed.

Lemma keeps_subplots (r c : nat) (size : Z * Z) (share : bool) :
  keeps_files (plt.subplots r c size share).
Proof. intros w. reflexivity. Qed.

Lemma keeps_lineplot (i : nat) (x y : string) (data : pd.DataFrame)
    (label color : string) (dashed : bool) (fig : Figure) :
  keeps_files (sns.lineplot i x y data label color dashed fig).
Proof. apply keeps_plift. Qed.

Lemma keeps_histplot (i : nat) (data : pd.DataFrame) (x : string) (kde : bool)
    (color : string) (bins : option Z) (fig : Figure) :
  keeps_files (sns.histplot i data x kde color bins fig).
Proof. apply keeps_plift. Qed.

Lemma keeps_tight_layout (fig : Figure) : keeps_files (plt.tight_layout fig).
Proof.
  intros w. unfold plt.tight_layout.
  now destruct (plt.axes_texts_ok (mathtext_parses w) fig).
Qed.

Lemma saves_savefig (path : string) (fig : Figure) : saves_only path (plt.savefig path fig).
Proof.
  intros w. unfold plt.savefig.
  destruct (plt.figure_texts_ok (mathtext_parses w) fig); [|now left].
  destruct (os_allows w (WriteFile path)); cbn [snd files]; [right; now exists fig | now left].
Qed.

Create HintDb files_db.
#[local] Hint Resolve keeps_pret keeps_plift keeps_print keeps_makedirs keeps_close
  keeps_subplots keeps_lineplot keeps_histplot keeps_tight_layout : files_db.

(** Steps that save nothing, composed. *)
Ltac keeps :=
  repeat first
    [ solve [auto with files_db]
    | apply keeps_bind; [|intros ?]
    | match goal with |- keeps_files (if ?b then _ else _) => destruct b end
    | progress cbv zeta ].

(** The head of a renderer up to its [plt.savefig]. *)
Ltac saves :=
  cbv zeta;
  repeat first
    [ apply saves_bind_r; [apply saves_savefig | intros ?; keeps]
    | apply saves_bind_l; [solve [keeps] | intros ?; cbv zeta] ].

Lemma str_replace_no_space (s : string) :
  contains " " (str_replace " " "_" s) = false.
Proof.
  induction s as [|c s IH]; [reflexivity|].
  cbn [str_replace contains String.prefix].
  destruct (Ascii.eqb c " ") eqn:E.
  - cbn. exact IH.
  - destruct (ascii_dec " " c) as [<-|Hne]; [now rewrite Ascii.eqb_refl in E|].
    exact IH.
Qed.

Lemma path_join_under (output_dir name : string) :
  os.starts_with_sep name = false ->
  os.path_join output_dir name = output_dir ++ name
  \/ os.path_join output_dir name = output_dir ++ "/" ++ name.
Proof.
  intros H. unfold os.path_join. rewrite H.
  destruct (String.eqb output_dir "" || os.ends_with_sep output_dir)%bool; [now left | now right].
Qed.

(** C7. Whatever a renderer is called with, it saves no file or exactly one,
    and the one file is at [os.path.join] of the output directory and the
    renderer's base name followed by the title suffix with every space turned
    into an underscore and by .png; that path is the output directory, a
    separator if it lacks one, and the file name.  The suffix
    " (Concept: Simple)" gives maml_learning_curves_(Concept:_Simple).png,
    saved for a one-row table. *)
Theorem image_file_names
    (df dm ds : pd.DataFrame) (title_suffix output_dir : string) :
  saves_only (os.path_join output_dir
                ("maml_learning_curves" ++ str_replace " " "_" title_suffix ++ ".png"))
             (plot_maml_learning_curves df title_suffix output_dir)
  /\ saves_only (os.path_join output_dir
                   ("sgd_performance_distribution" ++ str_replace " " "_" title_suffix
                    ++ ".png"))
                (plot_sgd_performance_distribution df title_suffix output_dir)
  /\ saves_only (os.path_join output_dir
                   ("maml_gradient_alignment" ++ str_replace " " "_" title_suffix ++ ".png"))
                (plot_gradient_alignment_maml df title_suffix output_dir)
  /\ saves_only (os.path_join output_dir
                   ("weight_drift_comparison" ++ str_replace " " "_" title_suffix ++ ".png"))
                (plot_weight_drift_comparison dm ds title_suffix output_dir)
  /\ contains " " (str_replace " " "_" title_suffix) = false
  /\ Forall (fun base : string =>
                let name := base ++ str_replace " " "_" title_suffix ++ ".png" in
                os.path_join output_dir name = output_dir ++ name
                \/ os.path_join output_dir name = output_dir ++ "/" ++ name)
             ["maml_learning_curves"; "sgd_performance_distribution";
              "maml_gradient_alignment"; "weight_drift_comparison"]
  /\ "maml_learning_curves" ++ str_replace " " "_" " (Concept: Simple)" ++ ".png"
     = "maml_learning_curves_(Concept:_Simple).png"
  /\ (exists fig : Figure,
        files (snd (plot_maml_learning_curves one_row_trajectory " (Concept: Simple)"
                      "figures" fresh_world))
        = [("figures/maml_learning_curves_(Concept:_Simple).png", fig)]).
Proof.
  split; [|split; [|split; [|split; [|split; [|split; [|split]]]]]].
  - unfold plot_maml_learning_curves.
    destruct (pd.empty df); [apply keeps_saves, keeps_print|]. saves.
  - unfold plot_sgd_performance_distribution.
    destruct (pd.empty df); [apply keeps_saves, keeps_print|]. saves.
  - unfold plot_gradient_alignment_maml.
    destruct (pd.empty df || negb (pd.has_column "grad_alignment" df))%bool;
      [apply keeps_saves, keeps_print|]. saves.
  - unfold plot_weight_drift_comparison. saves.
  - apply str_replace_no_space.
  - repeat (apply Forall_cons; [apply path_join_under; reflexivity|]). apply Forall_nil.
  - reflexivity.
  - eexists. reflexivity.
Qed.

(* ------------------------------------------------------------------ *)
(** ** Optional columns *)





(* ------------------------------------------------------------------ *)
(** ** When the generators raise *)

Lemma random_normal_negative_scale (loc scale : R) (size : Z) (rs : RandomState) :
  (scale < 0)%R -> np.random_normal loc scale size rs = Raise ValueError.
Proof.
  intros H. unfold np.random_normal.
  destruct (size <? 0)%Z; [reflexivity|].
  destruct (Rlt_dec scale 0) as [_|Hn]; [reflexivity | contradiction].
Qed.

(** With arguments in int64, [generate_dummy_maml_trajectory] raises
    exactly on a zero log interval ([ZeroDivisionError] of [np.arange]);
    [generate_dummy_sgd_trajectory] raises exactly on a negative task count
    ([ValueError] of [np.random.normal]); every other call returns. *)
Theorem trajectory_generators_raise_exactly
    (epochs log_interval num_tasks : Z) (rs : RandomState) :
  np.in_int64 log_interval = true -> np.in_int64 (epochs + 1) = true ->
  match generate_dummy_maml_trajectory epochs log_interval rs with
  | Ok _ => log_interval <> 0%Z
  | Raise e => log_interval = 0%Z /\ e = ZeroDivisionError
  end
  /\
  match generate_dummy_sgd_trajectory num_tasks rs with
  | Ok _ => (0 <= num_tasks)%Z
  | Raise e => (num_tasks < 0)%Z /\ e = ValueError
  end.
Proof.
  intros Hin Hstop. split.
  - destruct (Z.eq_dec log_interval 0) as [->|Hli].
    + rewrite maml_trajectory_zero_interval. now split.
    + now rewrite generate_dummy_maml_trajectory_eq.
  - destruct (Z_lt_le_dec num_tasks 0) as [Hneg|Hpos].
    + rewrite sgd_trajectory_negative_count by exact Hneg. now split.
    + now rewrite generate_dummy_sgd_trajectory_eq.
Qed.

(** At a zero log interval and a negative task count: both calls raise. *)
Lemma trajectory_generators_raise_exactly_example :
  match generate_dummy_maml_trajectory 100 0 (constant_outcomes 0 0) with
  | Ok _ => 0%Z <> 0%Z
  | Raise e => 0%Z = 0%Z /\ e = ZeroDivisionError
  end
  /\
  match generate_dummy_sgd_trajectory (-1) (constant_outcomes 0 0) with
  | Ok _ => (0 <= -1)%Z
  | Raise e => (-1 < 0)%Z /\ e = ValueError
  end.
Proof.
  apply (@trajectory_generators_raise_exactly 100 0 (-1) (constant_outcomes 0 0));
    reflexivity.
Defined.

(** [generate_dummy_drift_data] with type maml returns exactly for
    [num_points >= 1]: zero points is an [IndexError] (the last epoch of an
    empty array) and a negative count a [ValueError]; with type sgd it returns
    exactly for [num_points >= 0] and [final_drift_std >= 0], and raises
    [ValueError] otherwise. *)
Theorem drift_generator_raises_exactly
    (num_points : Z) (mean std : R) (rs : RandomState) :
  match generate_dummy_drift_data num_points "maml" mean std rs with
  | Ok _ => (1 <= num_points)%Z
  | Raise e => (num_points = 0%Z /\ e = IndexError)
               \/ ((num_points < 0)%Z /\ e = ValueError)
  end
  /\
  match generate_dummy_drift_data num_points "sgd" mean std rs with
  | Ok _ => (0 <= num_points)%Z /\ (0 <= std)%R
  | Raise e => ((num_points < 0)%Z \/ (std < 0)%R) /\ e = ValueError
  end.
Proof.
  split.
  - destruct (Z.lt_trichotomy num_points 0) as [Hneg|[->|Hpos]].
    + rewrite drift_data_maml_negative_count by exact Hneg. now right.
    + rewrite drift_data_maml_no_points. now left.
    + rewrite generate_dummy_drift_data_maml_eq by lia. lia.
  - destruct (Z_lt_le_dec num_points 0) as [Hneg|Hpos].
    + unfold generate_dummy_drift_data. cbn [String.eqb Ascii.eqb Bool.eqb].
      unfold gbind. rewrite random_normal_negative_size by exact Hneg. now split; [left|].
    + destruct (Rlt_le_dec std 0) as [Hs|Hs].
      * unfold generate_dummy_drift_data. cbn [String.eqb Ascii.eqb Bool.eqb].
        unfold gbind. rewrite random_normal_negative_scale by exact Hs. now split; [right|].
      * rewrite generate_dummy_drift_data_sgd_eq by assumption. now split.
Qed.

(* ------------------------------------------------------------------ *)
(** ** Outcomes consumed *)

(** A MAML trajectory of [k] rows consumes [3 * k] standard-normal outcomes
    and no uniform outcome; an SGD trajectory of [n] tasks consumes [2 * n]
    standard-normal and [n] uniform outcomes: a later call sees fresh ones. *)
Theorem generators_consume_outcomes
    (epochs log_interval num_tasks : Z) (rs : RandomState) :
  log_interval <> 0%Z ->
  np.in_int64 log_interval = true -> np.in_int64 (epochs + 1) = true ->
  (0 <= num_tasks)%Z ->
  (exists (df : pd.DataFrame) (rs' : RandomState),
      generate_dummy_maml_trajectory epochs log_interval rs = Ok (df, rs')
      /\ (forall i : nat, gauss rs' i = gauss rs (3 * pd.nrows df + i)%nat)
      /\ (forall i : nat, uniform rs' i = uniform rs i))
  /\
  (exists (df : pd.DataFrame) (rs' : RandomState),
      generate_dummy_sgd_trajectory num_tasks rs = Ok (df, rs')
      /\ (forall i : nat, gauss rs' i = gauss rs (2 * pd.nrows df + i)%nat)
      /\ (forall i : nat, uniform rs' i = uniform rs (pd.nrows df + i)%nat)).
Proof.
  intros Hli Hin Hstop HN. split.
  - eexists. eexists. split.
    { apply generate_dummy_maml_trajectory_eq; assumption. }
    cbn [pd.nrows gauss uniform skip_gauss]. unfold drop_stream.
    split; [|reflexivity]. intros i. f_equal. lia.
  - eexists. eexists. split.
    { apply generate_dummy_sgd_trajectory_eq. exact HN. }
    cbn [pd.nrows gauss uniform skip_gauss skip_uniform]. unfold drop_stream.
    split; [|reflexivity]. intros i. f_equal. lia.
Qed.

Lemma generators_consume_outcomes_default :
  (exists (df : pd.DataFrame) (rs' : RandomState),
      generate_dummy_maml_trajectory 100 10 (constant_outcomes 0 0) = Ok (df, rs')
      /\ (forall i : nat,
            gauss rs' i = gauss (constant_outcomes 0 0) (3 * pd.nrows df + i)%nat)
      /\ (forall i : nat, uniform rs' i = uniform (constant_outcomes 0 0) i))
  /\
  (exists (df : pd.DataFrame) (rs' : RandomState),
      generate_dummy_sgd_trajectory 200 (constant_outcomes 0 0) = Ok (df, rs')
      /\ (forall i : nat,
            gauss rs' i = gauss (constant_outcomes 0 0) (2 * pd.nrows df + i)%nat)
      /\ (forall i : nat,
            uniform rs' i = uniform (constant_outcomes 0 0) (pd.nrows df + i)%nat)).
Proof.
  apply (@generators_consume_outcomes 100 10 200 (constant_outcomes 0 0));
    first [lia | reflexivity].
Defined.

(* ------------------------------------------------------------------ *)
(** ** Tables without rows *)

Lemma plot_maml_learning_curves_skip
    (df : pd.DataFrame) (title_suffix output_dir : string) (w : World) :
  pd.empty df = true ->
  plot_maml_learning_curves df title_suffix output_dir w
  = (Ok tt, after_print w ("MAML dataframe is empty for " ++ title_suffix
                           ++ ". Skipping plot.")).
Proof. intros H. unfold plot_maml_learning_curves. now rewrite H. Qed.

Lemma plot_sgd_performance_distribution_skip
    (df : pd.DataFrame) (title_suffix output_dir : string) (w : World) :
  pd.empty df = true ->
  plot_sgd_performance_distribution df title_suffix output_dir w
  = (Ok tt, after_print w ("SGD dataframe is empty for " ++ title_suffix
                           ++ ". Skipping plot.")).
Proof. intros H. unfold plot_sgd_performance_distribution. now rewrite H. Qed.

Lemma plot_gradient_alignment_maml_skip
    (df : pd.DataFrame) (title_suffix output_dir : string) (w : World) :
  (pd.empty df || negb (pd.has_column "grad_alignment" df))%bool = true ->
  plot_gradient_alignment_maml df title_suffix output_dir w
  = (Ok tt, after_print w ("MAML dataframe for grad alignment is empty or missing column for "
                           ++ title_suffix ++ ". Skipping plot.")).
Proof. intros H. unfold plot_gradient_alignment_maml. now rewrite H. Qed.

Lemma log_steps_none (epochs log_interval : Z) :
  (0 <= epochs)%Z -> log_interval <> 0%Z ->
  List.length (log_steps epochs log_interval) = 0%nat
  <-> (log_interval < 0 \/ epochs < log_interval)%Z.
Proof.
  intros He Hli. unfold log_steps. rewrite linear_length.
  destruct (Z_lt_le_dec log_interval 0) as [Hneg|Hpos].
  - split; [intros _; now left | intros _].
    rewrite arange_len_double_none by (right; lia). reflexivity.
  - destruct (Z_lt_le_dec epochs log_interval) as [Hlt|Hge].
    + split; [intros _; now right | intros _].
      rewrite arange_len_double_none by (left; lia). reflexivity.
    + pose proof (@arange_len_double_pos log_interval (epochs + 1) log_interval
                    ltac:(lia) ltac:(lia)) as Hlen.
      split; [intros H; lia | intros [H|H]; lia].
Qed.

(** With [epochs >= 0] and arguments in int64, the MAML trajectory has no
    row exactly when the log interval is negative or exceeds [epochs];
    [num_tasks = 0] gives an SGD trajectory without rows.  Such a table still
    has all its columns, it is [empty], and the renderers skip it: one line,
    no file, no figure. *)
Theorem trajectories_without_rows
    (epochs log_interval : Z) (rs : RandomState)
    (title_suffix output_dir : string) (w : World) :
  (0 <= epochs < np.int64_max)%Z -> log_interval <> 0%Z ->
  np.in_int64 log_interval = true ->
  (exists (df : pd.DataFrame) (rs' : RandomState),
      generate_dummy_maml_trajectory epochs log_interval rs = Ok (df, rs')
      /\ pd.column_names df = ["log_step"; "val_loss"; "val_accuracy"; "grad_alignment"]
      /\ (pd.nrows df = 0%nat <-> (log_interval < 0 \/ epochs < log_interval)%Z)
      /\ (pd.empty df = true <-> (log_interval < 0 \/ epochs < log_interval)%Z)
      /\ ((log_interval < 0 \/ epochs < log_interval)%Z ->
          plot_maml_learning_curves df title_suffix output_dir w
          = (Ok tt, after_print w ("MAML dataframe is empty for " ++ title_suffix
                                   ++ ". Skipping plot."))
          /\ plot_gradient_alignment_maml df title_suffix output_dir w
             = (Ok tt, after_print w
                  ("MAML dataframe for grad alignment is empty or missing column for "
                   ++ title_suffix ++ ". Skipping plot."))))
  /\
  (exists (df : pd.DataFrame) (rs' : RandomState),
      generate_dummy_sgd_trajectory 0 rs = Ok (df, rs')
      /\ pd.column_names df
         = ["task_idx"; "query_loss"; "query_accuracy"; "final_support_loss";
            "num_sgd_steps"; "lr"]
      /\ pd.nrows df = 0%nat
      /\ plot_sgd_performance_distribution df title_suffix output_dir w
         = (Ok tt, after_print w ("SGD dataframe is empty for " ++ title_suffix
                                  ++ ". Skipping plot."))).
Proof.
  intros He Hli Hin. split.
  - eexists. eexists. split.
    { apply generate_dummy_maml_trajectory_eq;
        [exact Hli | exact Hin | apply in_int64_intro; int_bounds]. }
    pose proof (@log_steps_none epochs log_interval ltac:(lia) Hli) as Hnone.
    split; [reflexivity|]. split; [exact Hnone|].
    match goal with
    | |- (pd.empty ?d = true <-> _) /\ _ =>
        assert (Hempty : pd.empty d = true
                         <-> (log_interval < 0 \/ epochs < log_interval)%Z)
    end.
    { unfold pd.empty. cbn [pd.columns pd.nrows]. rewrite Nat.eqb_eq. exact Hnone. }
    split; [exact Hempty|].
    intros Hcase. apply Hempty in Hcase. split.
    + apply plot_maml_learning_curves_skip. exact Hcase.
    + apply plot_gradient_alignment_maml_skip. apply orb_true_iff. left. exact Hcase.
  - eexists. eexists. split.
    { apply generate_dummy_sgd_trajectory_eq. lia. }
    split; [reflexivity|]. split; [reflexivity|].
    apply plot_sgd_performance_distribution_skip. reflexivity.
Qed.

Lemma trajectories_without_rows_example :
  (exists (df : pd.DataFrame) (rs' : RandomState),
      generate_dummy_maml_trajectory 5 10 (constant_outcomes 0 0) = Ok (df, rs')
      /\ pd.column_names df = ["log_step"; "val_loss"; "val_accuracy"; "grad_alignment"]
      /\ pd.nrows df = 0%nat
      /\ pd.empty df = true
      /\ plot_maml_learning_curves df " x" "figures" fresh_world
         = (Ok tt, after_print fresh_world ("MAML dataframe is empty for " ++ " x"
                                            ++ ". Skipping plot."))
      /\ plot_gradient_alignment_maml df " x" "figures" fresh_world
         = (Ok tt, after_print fresh_world
              ("MAML dataframe for grad alignment is empty or missing column for "
               ++ " x" ++ ". Skipping plot.")))
  /\
  (exists (df : pd.DataFrame) (rs' : RandomState),
      generate_dummy_sgd_trajectory 0 (constant_outcomes 0 0) = Ok (df, rs')
      /\ pd.column_names df
         = ["task_idx"; "query_loss"; "query_accuracy"; "final_support_loss";
            "num_sgd_steps"; "lr"]
      /\ pd.nrows df = 0%nat
      /\ plot_sgd_performance_distribution df " x" "figures" fresh_world
         = (Ok tt, after_print fresh_world ("SGD dataframe is empty for " ++ " x"
                                            ++ ". Skipping plot."))).
Proof.
  destruct (@trajectories_without_rows 5 10 (constant_outcomes 0 0) " x" "figures"
              fresh_world ltac:(int_bounds) ltac:(lia) eq_refl) as (Hm & Hs).
  split; [|exact Hs].
  destruct Hm as (df & rs' & Hrun & Hcols & Hrows & Hempty & Hskip).
  exists df, rs'. split; [exact Hrun|]. split; [exact Hcols|].
  split; [apply Hrows; lia|]. split; [apply Hempty; lia|].
  apply Hskip. lia.
Defined.

(* ------------------------------------------------------------------ *)
(** ** Ranges of the trajectory values *)

Lemma exp_nonpos_unit (x : R) : (x <= 0)%R -> (0 < exp x <= 1)%R.
Proof.
  intros H. split; [apply exp_pos|].
  destruct H as [Hlt | ->]; [|rewrite exp_0; lra].
  pose proof (exp_increasing x 0 Hlt) as Hi. rewrite exp_0 in Hi. lra.
Qed.

Lemma neg_ratio_nonpos (x d : Z) (k : R) :
  (0 <= x)%Z -> (1 <= d)%Z -> (0 < k)%R -> (- IZR x / (IZR d * k) <= 0)%R.
Proof.
  intros Hx Hd Hk.
  apply IZR_le in Hx. apply IZR_le in Hd.
  assert (0 < IZR d * k)%R as Hpos by nra.
  apply Rinv_0_lt_compat in Hpos. unfold Rdiv. nra.
Qed.

Lemma linear_lower (n : nat) : forall (start step lo : Z),
  (0 <= step)%Z -> (lo <= start)%Z -> Forall (fun s => (lo <= s)%Z) (np.linear start step n).
Proof.
  induction n as [|n IH]; intros start step lo Hs Hl; cbn [np.linear]; constructor.
  - exact Hl.
  - apply IH; lia.
Qed.

Lemma zip_with_Forall {A B C} (P : A -> Prop) (Q : B -> Prop) (T : C -> Prop)
    (f : A -> B -> C) (xs : list A) :
  (forall x y, P x -> Q y -> T (f x y)) ->
  forall ys : list B, Forall P xs -> Forall Q ys -> Forall T (np.zip_with f xs ys).
Proof.
  intros Hf. induction xs as [|x xs IH]; intros [|y ys] Hx Hy; cbn [np.zip_with];
    try constructor.
  - apply Hf; [now inversion Hx | now inversion Hy].
  - apply IH; [now inversion Hx | now inversion Hy].
Qed.

Lemma clip_inactive (xs : list R) :
  Forall (fun r => (0 <= r <= 1)%R) xs -> pd.clip 0 1 (floats xs) = floats xs.
Proof.
  induction 1 as [|x xs Hx _ IH]; [reflexivity|].
  unfold pd.clip, floats in *. cbn [map pd.clip_cell]. rewrite IH. do 2 f_equal.
  rewrite Rmax_left by lra. apply Rmin_left. lra.
Qed.

Lemma normal_draw_Forall (P : R -> Prop) (Q : R -> Prop) (loc scale : R) (n : nat)
    (rs : RandomState) :
  (forall i : nat, P (gauss rs i)) -> (forall z, P z -> Q (loc + scale * z)%R) ->
  Forall Q (normal_draw loc scale n rs).
Proof.
  intros Hp Hq. unfold normal_draw, take_stream. apply Forall_forall. intros v Hin.
  apply in_map_iff in Hin. destruct Hin as [z [<- Hin]].
  apply in_map_iff in Hin. destruct Hin as [i [<- _]]. apply Hq, Hp.
Qed.

Lemma within_five_sigma_skip (n : nat) (rs : RandomState) :
  within_five_sigma rs -> within_five_sigma (skip_gauss n rs).
Proof. intros H i. apply H. Qed.

(** With positive counts in int64, the accuracy trend lies in [0.5, 0.9]
    (MAML) and [0.55, 0.85] (SGD); so when every standard-normal outcome is
    within five standard deviations the clipping changes nothing:
    val_accuracy and query_accuracy are exactly trend plus noise. *)
Theorem accuracy_unclipped_within_five_sigma
    (epochs log_interval N : Z) (rs : RandomState) :
  (1 <= epochs < np.int64_max)%Z -> (1 <= log_interval <= np.int64_max)%Z ->
  (1 <= N)%Z -> within_five_sigma rs ->
  (exists (df : pd.DataFrame) (rs' : RandomState),
      generate_dummy_maml_trajectory epochs log_interval rs = Ok (df, rs')
      /\ let steps := log_steps epochs log_interval in
         let k := List.length steps in
         column "val_accuracy" df
         = Some (floats (np.add
             (map (fun s => 0.5 + 0.4 * (1 - exp (- IZR s / (IZR epochs * 0.4))))%R steps)
             (normal_draw 0 0.02 k (skip_gauss k rs)))))
  /\
  (exists (df : pd.DataFrame) (rs' : RandomState),
      generate_dummy_sgd_trajectory N rs = Ok (df, rs')
      /\ let n := Z.to_nat N in
         let tasks := np.linear 0 1 n in
         column "query_accuracy" df
         = Some (floats (np.add
             (map (fun t => 0.55 + 0.3 * (1 - exp (- IZR t / (IZR N * 0.6))))%R tasks)
             (normal_draw 0 0.03 n (skip_gauss n rs))))).
Proof.
  intros He Hl HN Hrs. split.
  - eexists. eexists. split.
    { apply generate_dummy_maml_trajectory_eq; int_bounds. }
    cbv zeta. lookup_column. f_equal. apply clip_inactive.
    unfold np.add.
    apply zip_with_Forall
      with (P := fun t => (0.5 <= t <= 0.9)%R) (Q := fun v => (-0.1 <= v <= 0.1)%R).
    + intros x y Hx Hy. lra.
    + apply Forall_forall. intros t Hin. apply in_map_iff in Hin.
      destruct Hin as [s [<- Hin]].
      assert (1 <= s)%Z as Hs.
      { revert s Hin. apply Forall_forall. unfold log_steps. apply linear_lower; lia. }
      pose proof (@neg_ratio_nonpos s epochs 0.4 ltac:(lia) ltac:(lia) ltac:(lra)) as Hr.
      apply exp_nonpos_unit in Hr. lra.
    + apply normal_draw_Forall with (P := fun z => (-5 <= z <= 5)%R).
      * apply within_five_sigma_skip, Hrs.
      * intros z Hz. lra.
  - eexists. eexists. split.
    { apply generate_dummy_sgd_trajectory_eq. lia. }
    cbv zeta. lookup_column. f_equal. apply clip_inactive.
    unfold np.add.
    apply zip_with_Forall
      with (P := fun t => (0.55 <= t <= 0.85)%R) (Q := fun v => (-0.15 <= v <= 0.15)%R).
    + intros x y Hx Hy. lra.
    + apply Forall_forall. intros t Hin. apply in_map_iff in Hin.
      destruct Hin as [s [<- Hin]].
      assert (0 <= s)%Z as Hs.
      { revert s Hin. apply Forall_forall. apply linear_lower; lia. }
      pose proof (@neg_ratio_nonpos s N 0.6 Hs HN ltac:(lra)) as Hr.
      apply exp_nonpos_unit in Hr. lra.
    + apply normal_draw_Forall with (P := fun z => (-5 <= z <= 5)%R).
      * apply within_five_sigma_skip, Hrs.
      * intros z Hz. lra.
Qed.

Lemma accuracy_unclipped_within_five_sigma_default :
  (exists (df : pd.DataFrame) (rs' : RandomState),
      generate_dummy_maml_trajectory 100 10 (constant_outcomes 1 0) = Ok (df, rs')
      /\ let steps := log_steps 100 10 in
         let k := List.length steps in
         column "val_accuracy" df
         = Some (floats (np.add
             (map (fun s => 0.5 + 0.4 * (1 - exp (- IZR s / (IZR 100 * 0.4))))%R steps)
             (normal_draw 0 0.02 k (skip_gauss k (constant_outcomes 1 0))))))
  /\
  (exists (df : pd.DataFrame) (rs' : RandomState),
      generate_dummy_sgd_trajectory 200 (constant_outcomes 1 0) = Ok (df, rs')
      /\ let n := Z.to_nat 200 in
         let tasks := np.linear 0 1 n in
         column "query_accuracy" df
         = Some (floats (np.add
             (map (fun t => 0.55 + 0.3 * (1 - exp (- IZR t / (IZR 200 * 0.6))))%R tasks)
             (normal_draw 0 0.03 n (skip_gauss n (constant_outcomes 1 0)))))).
Proof.
  apply (@accuracy_unclipped_within_five_sigma 100 10 200 (constant_outcomes 1 0));
    try int_bounds.
  intros i. cbn [gauss constant_outcomes]. lra.
Defined.

(** For uniform outcomes in [0, 1), as [np.random.rand] gives them, every
    final_support_loss of the SGD trajectory lies in [0, 0.1). *)
Theorem final_support_loss_range (N : Z) (rs : RandomState) :
  (0 <= N)%Z -> uniform_ok rs ->
  exists (df : pd.DataFrame) (rs' : RandomState) (col : list cell),
    generate_dummy_sgd_trajectory N rs = Ok (df, rs')
    /\ column "final_support_loss" df = Some col
    /\ List.length col = Z.to_nat N
    /\ Forall (fun c => (0 <= cell_value c < 0.1)%R) col.
Proof.
  intros HN Hu. eexists. eexists. eexists. split.
  { apply generate_dummy_sgd_trajectory_eq. exact HN. }
  split; [reflexivity|]. split; [now autorewrite with frame_len|].
  unfold floats, take_stream. apply Forall_forall. intros c Hin.
  apply in_map_iff in Hin. destruct Hin as [v [<- Hin]].
  apply in_map_iff in Hin. destruct Hin as [u [<- Hin]].
  apply in_map_iff in Hin. destruct Hin as [i [<- _]].
  cbn [cell_value uniform skip_gauss]. specialize (Hu i). lra.
Qed.

Lemma final_support_loss_range_example :
  exists (df : pd.DataFrame) (rs' : RandomState) (col : list cell),
    generate_dummy_sgd_trajectory 200 (constant_outcomes 0 (1 / 2)) = Ok (df, rs')
    /\ column "final_support_loss" df = Some col
    /\ List.length col = Z.to_nat 200
    /\ Forall (fun c => (0 <= cell_value c < 0.1)%R) col.
Proof.
  apply (@final_support_loss_range 200 (constant_outcomes 0 (1 / 2))); [lia|].
  intros i. cbn [uniform constant_outcomes]. lra.
Defined.

(* ------------------------------------------------------------------ *)
(** ** The drift from the previous checkpoint *)

Lemma map_nth_lt {A B} (f : A -> B) (l : list A) (i : nat) (da : A) (db : B) :
  (i < List.length l)%nat -> nth i (map f l) db = f (nth i l da).
Proof.
  revert i. induction l as [|x l IH]; intros i Hi; cbn [List.length] in Hi; [lia|].
  destruct i as [|i]; [reflexivity|]. cbn [map nth]. apply IH. lia.
Qed.

Lemma zip_with_nth {A B C} (f : A -> B -> C) (xs : list A) :
  forall (ys : list B) (i : nat) (da : A) (db : B) (dc : C),
    (i < List.length xs)%nat -> (i < List.length ys)%nat ->
    nth i (np.zip_with f xs ys) dc = f (nth i xs da) (nth i ys db).
Proof.
  induction xs as [|x xs IH]; intros [|y ys] i da db dc Hx Hy;
    cbn [List.length] in *; try lia.
  destruct i as [|i]; [reflexivity|]. cbn [np.zip_with nth]. apply IH; lia.
Qed.

Lemma normal_draw_nth (loc scale : R) (n : nat) (rs : RandomState) (i : nat) (d : R) :
  (i < n)%nat -> nth i (normal_draw loc scale n rs) d = (loc + scale * gauss rs i)%R.
Proof.
  intros Hi. unfold normal_draw, take_stream.
  rewrite (map_nth_lt _ _ 0%R) by now rewrite length_map, length_seq.
  rewrite (map_nth_lt _ _ 0%nat) by now rewrite length_seq.
  now rewrite seq_nth.
Qed.

(** For [num_points = N >= 1], row [i] of l2_drift_from_previous is the
    absolute value of (draw times [final_drift_mean]), over [100 * N], times a
    weight [2 - (i+1)/N]; the weight falls along the rows from below 2 to 1.
    The draw is the [np.random.normal(0.1, 0.05)] sample of that row. *)
Theorem drift_from_previous_rows
    (N : Z) (mean std : R) (rs : RandomState) (i : nat) :
  (1 <= N)%Z -> (i < Z.to_nat N)%nat ->
  exists (df : pd.DataFrame) (rs' : RandomState) (col : list cell),
    generate_dummy_drift_data N "maml" mean std rs = Ok (df, rs')
    /\ column "l2_drift_from_previous" df = Some col
    /\ let draw := (0.1 + 0.05 * gauss rs (Z.to_nat N + i)%nat)%R in
       let weight := (2 - (IZR (Z.of_nat i) + 1) / IZR N)%R in
       cell_value (nth i col (Float 0))
       = (Rabs (draw * mean) * weight / (100 * IZR N))%R
       /\ (1 <= weight < 2)%R.
Proof.
  intros HN Hi. eexists. eexists. eexists. split.
  { apply generate_dummy_drift_data_maml_eq. exact HN. }
  split; [reflexivity|]. cbv zeta.
  assert (1 <= IZR N)%R as Hn by (apply IZR_le in HN; exact HN).
  assert (0 <= IZR (Z.of_nat i) <= IZR N - 1)%R as Hj.
  { split; [apply IZR_le; lia|]. rewrite <- minus_IZR. apply IZR_le. lia. }
  assert (1 <= 2 - (IZR (Z.of_nat i) + 1) / IZR N < 2)%R as Hw.
  { assert (0 < / IZR N)%R as Hinv by (apply Rinv_0_lt_compat; lra).
    assert (IZR N * / IZR N = 1)%R as Hone by (apply Rinv_r; lra).
    unfold Rdiv. nra. }
  split; [|exact Hw].
  unfold floats, np.abs.
  match goal with
  | |- context [np.zip_with ?g ?ds ?es] =>
      assert (Hzip : List.length (np.zip_with g ds es) = Z.to_nat N)
        by (rewrite zip_with_length; rewrite normal_draw_len;
            [reflexivity | now rewrite drift_epochs_length])
  end.
  rewrite (map_nth_lt _ _ 0%R) by (rewrite length_map, Hzip; exact Hi).
  rewrite (map_nth_lt _ _ 0%R) by (rewrite Hzip; exact Hi).
  rewrite (zip_with_nth _ _ _ 0%R 0%Z)
    by (rewrite ?normal_draw_len, ?drift_epochs_length; exact Hi).
  rewrite normal_draw_nth by exact Hi.
  pose proof (drift_epochs_arithmetic N) as Harith.
  rewrite (Harith i) by now rewrite drift_epochs_length.
  cbn [cell_value gauss skip_gauss]. unfold drop_stream.
  rewrite plus_IZR, !mult_IZR.
  set (d := (0.1 + 0.05 * gauss rs (Z.to_nat N + i)%nat)%R).
  set (j := IZR (Z.of_nat i)) in *. set (n := IZR N) in *.
  replace (d * (mean / (n * 100)) * (n * 100 - (100 + 100 * j) / 2) / (n * 100 / 2))%R
    with ((d * mean) * ((2 - (j + 1) / n) / (100 * n)))%R by (field; lra).
  rewrite Rabs_mult.
  rewrite (Rabs_right ((2 - (j + 1) / n) / (100 * n))).
  - field. lra.
  - apply Rle_ge. unfold Rdiv. apply Rmult_le_pos; [lra|].
    apply Rlt_le, Rinv_0_lt_compat. lra.
Qed.

Lemma drift_from_previous_rows_example :
  exists (df : pd.DataFrame) (rs' : RandomState) (col : list cell),
    generate_dummy_drift_data 100 "maml" 10 1 (constant_outcomes 0 0) = Ok (df, rs')
    /\ column "l2_drift_from_previous" df = Some col
    /\ let draw := (0.1 + 0.05 * gauss (constant_outcomes 0 0) (Z.to_nat 100 + 99)%nat)%R in
       let weight := (2 - (IZR (Z.of_nat 99) + 1) / IZR 100)%R in
       cell_value (nth 99 col (Float 0))
       = (Rabs (draw * 10) * weight / (100 * IZR 100))%R
       /\ (1 <= weight < 2)%R.
Proof.
  apply (@drift_from_previous_rows 100 10 1 (constant_outcomes 0 0) 99); lia.
Defined.

(* ------------------------------------------------------------------ *)
(** ** The curves without noise *)

Lemma noisy_column_nth (f : Z -> R) (xs : list Z) (loc scale : R) (rs : RandomState)
    (i : nat) :
  (i < List.length xs)%nat ->
  cell_value (nth i (floats (np.add (map f xs)
                                    (normal_draw loc scale (List.length xs) rs)))
                  (Float 0))
  = (f (nth i xs 0%Z) + (loc + scale * gauss rs i))%R.
Proof.
  intros Hi. unfold floats, np.add.
  rewrite (map_nth_lt _ _ 0%R)
    by (rewrite zip_with_length; rewrite length_map; [exact Hi | now rewrite normal_draw_len]).
  rewrite (zip_with_nth _ _ _ 0%R 0%R)
    by (rewrite ?length_map, ?normal_draw_len; exact Hi).
  rewrite (map_nth_lt _ _ 0%Z) by exact Hi.
  rewrite normal_draw_nth by exact Hi. reflexivity.
Qed.

Lemma noisy_column_length (f : Z -> R) (xs : list Z) (loc scale : R) (rs : RandomState) :
  List.length (floats (np.add (map f xs) (normal_draw loc scale (List.length xs) rs)))
  = List.length xs.
Proof.
  unfold floats. rewrite length_map, add_length; rewrite length_map;
    [reflexivity | now rewrite normal_draw_len].
Qed.

Lemma exp_ratio_falls (x y : Z) (d : R) :
  (x < y)%Z -> (0 < d)%R -> (exp (- IZR y / d) < exp (- IZR x / d))%R.
Proof.
  intros Hxy Hd. apply exp_increasing. apply IZR_lt in Hxy.
  apply Rinv_0_lt_compat in Hd. unfold Rdiv. nra.
Qed.

Lemma noise_free_skip (n : nat) (rs : RandomState) :
  noise_free rs -> noise_free (skip_gauss n rs).
Proof. intros H i. apply H. Qed.

(** A noisy column over [np.linear start step], without noise, is monotone
    when its trend is. *)
Lemma noise_free_column_monotone (f : Z -> R) (start step : Z) (n : nat)
    (scale : R) (rs : RandomState) (lt : R -> R -> Prop) :
  noise_free rs -> (0 < step)%Z ->
  (forall x y : Z, (start <= x < y)%Z -> lt (f x + (0 + scale * 0))%R (f y + (0 + scale * 0))%R) ->
  forall i : nat, (S i < n)%nat ->
    let col := floats (np.add (map f (np.linear start step n))
                              (normal_draw 0 scale
                                 (List.length (np.linear start step n)) rs)) in
    lt (cell_value (nth i col (Float 0))) (cell_value (nth (S i) col (Float 0))).
Proof.
  intros Hrs Hstep Hf i Hi. cbv zeta.
  rewrite !noisy_column_nth by (rewrite linear_length; lia).
  rewrite !Hrs, !linear_nth by lia.
  apply Hf. nia.
Qed.

(** Without noise and with positive counts in int64, val_loss falls strictly
    from row to row within (0.4, 0.7), grad_alignment rises strictly within
    (0.1, 0.7), and query_loss falls strictly. *)
Theorem curves_without_noise
    (epochs log_interval N : Z) (rs : RandomState) :
  (1 <= epochs < np.int64_max)%Z -> (1 <= log_interval <= np.int64_max)%Z ->
  (1 <= N)%Z -> noise_free rs ->
  (exists (df : pd.DataFrame) (rs' : RandomState) (loss align : list cell),
      generate_dummy_maml_trajectory epochs log_interval rs = Ok (df, rs')
      /\ column "val_loss" df = Some loss
      /\ column "grad_alignment" df = Some align
      /\ falling loss /\ rising align
      /\ Forall (fun c => (0.4 < cell_value c < 0.7)%R) loss
      /\ Forall (fun c => (0.1 < cell_value c < 0.7)%R) align)
  /\
  (exists (df : pd.DataFrame) (rs' : RandomState) (loss : list cell),
      generate_dummy_sgd_trajectory N rs = Ok (df, rs')
      /\ column "query_loss" df = Some loss
      /\ falling loss
      /\ Forall (fun c => (0.4 < cell_value c <= 0.6)%R) loss).
Proof.
  intros He Hl HN Hrs.
  assert (0 < IZR epochs)%R as Hepos by (apply IZR_lt; lia).
  assert (0 < IZR N)%R as HNpos by (apply IZR_lt; lia).
  split.
  - eexists. eexists. eexists. eexists. split.
    { apply generate_dummy_maml_trajectory_eq; int_bounds. }
    split; [reflexivity|]. split; [reflexivity|].
    unfold log_steps.
    set (k := Z.to_nat (np.arange_len_double log_interval (epochs + 1) log_interval)).
    split; [|split; [|split]].
    + intros i Hi. rewrite noisy_column_length, linear_length in Hi.
      apply (@noise_free_column_monotone
               (fun s => 0.7 - 0.3 * (1 - exp (- IZR s / (IZR epochs * 0.3))))%R
               log_interval log_interval k 0.02 rs (fun a b => (b < a)%R) Hrs);
        [lia | | exact Hi].
      intros x y Hxy.
      pose proof (@exp_ratio_falls x y (IZR epochs * 0.3) ltac:(lia) ltac:(nra)). lra.
    + intros i Hi. rewrite noisy_column_length, linear_length in Hi.
      apply (@noise_free_column_monotone
               (fun s => 0.1 + 0.6 * (1 - exp (- IZR s / (IZR epochs * 0.5))))%R
               log_interval log_interval k 0.05 _ (fun a b => (a < b)%R)
               (noise_free_skip _ (noise_free_skip _ Hrs))); [lia | | exact Hi].
      intros x y Hxy.
      pose proof (@exp_ratio_falls x y (IZR epochs * 0.5) ltac:(lia) ltac:(nra)). lra.
    + unfold floats, np.add. apply Forall_forall. intros c Hin.
      apply in_map_iff in Hin. destruct Hin as [v [<- Hin]]. revert v Hin.
      apply Forall_forall.
      apply zip_with_Forall
        with (P := fun t => (0.4 < t < 0.7)%R) (Q := fun v => v = 0%R).
      * intros x y Hx ->. cbn [cell_value]. lra.
      * apply Forall_forall. intros t Hin. apply in_map_iff in Hin.
        destruct Hin as [s [<- Hin]].
        assert (1 <= s)%Z as Hs.
        { revert s Hin. apply Forall_forall. apply linear_lower; lia. }
        pose proof (@exp_ratio_falls 0 s (IZR epochs * 0.3) ltac:(lia) ltac:(nra)) as Hx.
        replace (- 0 / (IZR epochs * 0.3))%R with 0%R in Hx by (unfold Rdiv; lra).
        rewrite exp_0 in Hx.
        pose proof (exp_pos (- IZR s / (IZR epochs * 0.3))). lra.
      * apply normal_draw_Forall with (P := fun z => z = 0%R); [exact Hrs|].
        intros z ->. lra.
    + unfold floats, np.add. apply Forall_forall. intros c Hin.
      apply in_map_iff in Hin. destruct Hin as [v [<- Hin]]. revert v Hin.
      apply Forall_forall.
      apply zip_with_Forall
        with (P := fun t => (0.1 < t < 0.7)%R) (Q := fun v => v = 0%R).
      * intros x y Hx ->. cbn [cell_value]. lra.
      * apply Forall_forall. intros t Hin. apply in_map_iff in Hin.
        destruct Hin as [s [<- Hin]].
        assert (1 <= s)%Z as Hs.
        { revert s Hin. apply Forall_forall. apply linear_lower; lia. }
        pose proof (@exp_ratio_falls 0 s (IZR epochs * 0.5) ltac:(lia) ltac:(nra)) as Hx.
        replace (- 0 / (IZR epochs * 0.5))%R with 0%R in Hx by (unfold Rdiv; lra).
        rewrite exp_0 in Hx.
        pose proof (exp_pos (- IZR s / (IZR epochs * 0.5))). lra.
      * apply normal_draw_Forall with (P := fun z => z = 0%R);
          [exact (noise_free_skip _ (noise_free_skip _ Hrs))|].
        intros z ->. lra.
  - eexists. eexists. eexists. split.
    { apply generate_dummy_sgd_trajectory_eq. lia. }
    split; [reflexivity|]. split.
    + intros i Hi.
      rewrite <- (linear_length 0 1 (Z.to_nat N)) in Hi at 2.
      rewrite noisy_column_length, linear_length in Hi.
      rewrite <- (linear_length 0 1 (Z.to_nat N)) at 2 4.
      apply (@noise_free_column_monotone
               (fun t => 0.6 - 0.2 * (1 - exp (- IZR t / (IZR N * 0.5))))%R
               0 1 (Z.to_nat N) 0.03 rs (fun a b => (b < a)%R) Hrs); [lia | | exact Hi].
      intros x y Hxy.
      pose proof (@exp_ratio_falls x y (IZR N * 0.5) ltac:(lia) ltac:(nra)). lra.
    + unfold floats, np.add. apply Forall_forall. intros c Hin.
      apply in_map_iff in Hin. destruct Hin as [v [<- Hin]]. revert v Hin.
      apply Forall_forall.
      apply zip_with_Forall
        with (P := fun t => (0.4 < t <= 0.6)%R) (Q := fun v => v = 0%R).
      * intros x y Hx ->. cbn [cell_value]. lra.
      * apply Forall_forall. intros t Hin. apply in_map_iff in Hin.
        destruct Hin as [s [<- Hin]].
        assert (0 <= s)%Z as Hs.
        { revert s Hin. apply Forall_forall. apply linear_lower; lia. }
        pose proof (@neg_ratio_nonpos s N 0.5 Hs HN ltac:(lra)) as Hr.
        apply exp_nonpos_unit in Hr. lra.
      * apply normal_draw_Forall with (P := fun z => z = 0%R); [exact Hrs|].
        intros z ->. lra.
Qed.

Lemma curves_without_noise_default :
  (exists (df : pd.DataFrame) (rs' : RandomState) (loss align : list cell),
      generate_dummy_maml_trajectory 100 10 (constant_outcomes 0 0) = Ok (df, rs')
      /\ column "val_loss" df = Some loss
      /\ column "grad_alignment" df = Some align
      /\ falling loss /\ rising align
      /\ Forall (fun c => (0.4 < cell_value c < 0.7)%R) loss
      /\ Forall (fun c => (0.1 < cell_value c < 0.7)%R) align)
  /\
  (exists (df : pd.DataFrame) (rs' : RandomState) (loss : list cell),
      generate_dummy_sgd_trajectory 200 (constant_outcomes 0 0) = Ok (df, rs')
      /\ column "query_loss" df = Some loss
      /\ falling loss
      /\ Forall (fun c => (0.4 < cell_value c <= 0.6)%R) loss).
Proof.
  apply (@curves_without_noise 100 10 200 (constant_outcomes 0 0)); try int_bounds.
  intros i. reflexivity.
Defined.

(* ------------------------------------------------------------------ *)
(** ** Runs of the renderers, world by world *)

Ltac world_fields :=
  cbn [os_allows mathtext_parses files dirs console open_figures] in *.

(** The figure a renderer saves depends on its tables and title suffix only;
    the world it runs in decides whether the figure is saved. *)
Lemma plot_maml_learning_curves_saved
    (df : pd.DataFrame) (title_suffix output_dir : string) :
  pd.empty df = false ->
  maml_curves_plottable df = true ->
  plt.is_math_text title_suffix = false ->
  exists fig : Figure, forall w : World,
    os_allows w (MakeDirs output_dir) = true ->
    os_allows w (WriteFile (image_path output_dir "maml_learning_curves" title_suffix))
    = true ->
    plot_maml_learning_curves df title_suffix output_dir w
    = (Ok tt, after_save w output_dir
                (image_path output_dir "maml_learning_curves" title_suffix) fig
                ("Saved MAML learning curves plot to " ++ output_dir ++ "/")).
Proof.
  intros Hne Hcols Hplain. unfold maml_curves_plottable in Hcols.
  apply andb_true_iff in Hcols. destruct Hcols as [Hcols Hacc].
  apply andb_true_iff in Hcols. destruct Hcols as [Hstep Hloss].
  destruct (pd.has_column "grad_alignment" df) eqn:Cgrad;
    eexists; intros [allows parses saved made lines opened] Hmk Hwr;
    world_fields; unfold image_path in *;
    unfold plot_maml_learning_curves, after_save, add_dir;
    plot_run; reflexivity.
Qed.

Lemma plot_sgd_performance_distribution_saved
    (df : pd.DataFrame) (title_suffix output_dir : string) :
  pd.empty df = false ->
  sgd_plottable df = true ->
  plt.is_math_text title_suffix = false ->
  exists fig : Figure,
    suptitle fig
    = Some ("SGD Baseline Performance Over " ++ str_of_nat (pd.nrows df)
            ++ " Tasks " ++ title_suffix)
    /\ forall w : World,
      os_allows w (MakeDirs output_dir) = true ->
      os_allows w (WriteFile (image_path output_dir "sgd_performance_distribution"
                                title_suffix)) = true ->
      plot_sgd_performance_distribution df title_suffix output_dir w
      = (Ok tt, after_save w output_dir
                  (image_path output_dir "sgd_performance_distribution" title_suffix) fig
                  ("Saved SGD performance distribution plot to " ++ output_dir ++ "/")).
Proof.
  intros Hne Hcols Hplain. unfold sgd_plottable in Hcols.
  apply andb_true_iff in Hcols. destruct Hcols as [Hacc Hloss].
  eexists. split; [|intros [allows parses saved made lines opened] Hmk Hwr;
    world_fields; unfold image_path in *;
    unfold plot_sgd_performance_distribution, after_save, add_dir;
    plot_run; reflexivity].
  reflexivity.
Qed.

Lemma plot_gradient_alignment_maml_saved
    (df : pd.DataFrame) (title_suffix output_dir : string) :
  pd.empty df = false ->
  pd.has_column "grad_alignment" df = true ->
  pd.has_column "log_step" df = true ->
  plt.is_math_text title_suffix = false ->
  exists fig : Figure, forall w : World,
    os_allows w (MakeDirs output_dir) = true ->
    os_allows w (WriteFile (image_path output_dir "maml_gradient_alignment" title_suffix))
    = true ->
    plot_gradient_alignment_maml df title_suffix output_dir w
    = (Ok tt, after_save w output_dir
                (image_path output_dir "maml_gradient_alignment" title_suffix) fig
                ("Saved MAML gradient alignment plot to " ++ output_dir ++ "/")).
Proof.
  intros Hne Hgrad Hstep Hplain.
  eexists. intros [allows parses saved made lines opened] Hmk Hwr.
  world_fields. unfold image_path in *.
  unfold plot_gradient_alignment_maml, after_save, add_dir.
  plot_run. reflexivity.
Qed.

Lemma plot_weight_drift_comparison_saved
    (dm ds : pd.DataFrame) (title_suffix output_dir : string) :
  maml_drift_plottable dm = true ->
  plt.is_math_text title_suffix = false ->
  exists fig : Figure, forall w : World,
    os_allows w (MakeDirs output_dir) = true ->
    os_allows w (WriteFile (image_path output_dir "weight_drift_comparison" title_suffix))
    = true ->
    plot_weight_drift_comparison dm ds title_suffix output_dir w
    = (Ok tt, after_save w output_dir
                (image_path output_dir "weight_drift_comparison" title_suffix) fig
                ("Saved weight drift comparison plot to " ++ output_dir ++ "/")).
Proof.
  intros Hdm Hplain.
  destruct (pd.empty dm) eqn:Edm; destruct (pd.empty ds) eqn:Eds;
    destruct (pd.has_column "l2_drift_from_init" dm) eqn:Cinit;
    try pose proof (has_column_drawn dm Hdm Edm Cinit) as Cep;
    destruct (pd.has_column "l2_drift_from_previous" dm) eqn:Cprev;
    destruct (pd.has_column "final_l2_drift_from_init" ds) eqn:Cfin;
    eexists; intros [allows parses saved made lines opened] Hmk Hwr;
    world_fields; unfold image_path in *;
    unfold plot_weight_drift_comparison, after_save, add_dir;
    plot_run; reflexivity.
Qed.

(* ------------------------------------------------------------------ *)
(** ** Every way a renderer ends *)

Ltac split_case :=
  match goal with
  | |- context [pd.empty ?d] => destruct (pd.empty d) eqn:?
  | |- context [pd.has_column ?c ?d] => destruct (pd.has_column c d) eqn:?
  | |- context [plt.axes_texts_ok ?a ?f] => destruct (plt.axes_texts_ok a f) eqn:?
  | |- context [plt.figure_texts_ok ?a ?f] => destruct (plt.figure_texts_ok a f) eqn:?
  | |- context [?a (MakeDirs ?d)] => destruct (a (MakeDirs d)) eqn:?
  | |- context [?a (WriteFile ?p)] => destruct (a (WriteFile p)) eqn:?
  end.

Ltac outcome_done :=
  cbn [fst snd os_allows mathtext_parses files dirs console open_figures];
  split; [reflexivity|];
  first [ split; [reflexivity | eexists; reflexivity]
        | split; [first [left; reflexivity | right; reflexivity]
                 | split; [reflexivity | split; reflexivity]] ].

Ltac all_cases :=
  plot_steps; cbn [andb negb orb];
  repeat (split_case; plot_steps; cbn [andb negb orb]);
  outcome_done.

Lemma plot_maml_learning_curves_outcome
    (df : pd.DataFrame) (title_suffix output_dir : string) (w : World) :
  renderer_outcome w (plot_maml_learning_curves df title_suffix output_dir w).
Proof.
  destruct w as [allows parses saved made lines opened].
  unfold renderer_outcome, plot_maml_learning_curves. all_cases.
Qed.

Lemma plot_sgd_performance_distribution_outcome
    (df : pd.DataFrame) (title_suffix output_dir : string) (w : World) :
  renderer_outcome w (plot_sgd_performance_distribution df title_suffix output_dir w).
Proof.
  destruct w as [allows parses saved made lines opened].
  unfold renderer_outcome, plot_sgd_performance_distribution. all_cases.
Qed.

Lemma plot_gradient_alignment_maml_outcome
    (df : pd.DataFrame) (title_suffix output_dir : string) (w : World) :
  renderer_outcome w (plot_gradient_alignment_maml df title_suffix output_dir w).
Proof.
  destruct w as [allows parses saved made lines opened].
  unfold renderer_outcome, plot_gradient_alignment_maml. all_cases.
Qed.

Lemma plot_weight_drift_comparison_outcome
    (dm ds : pd.DataFrame) (title_suffix output_dir : string) (w : World) :
  renderer_outcome w (plot_weight_drift_comparison dm ds title_suffix output_dir w).
Proof.
  destruct w as [allows parses saved made lines opened].
  unfold renderer_outcome, plot_weight_drift_comparison. all_cases.
Qed.

(** A renderer that returns has printed exactly one line and has as many
    figures open as before: it closed the one it made, or skipped. *)
Theorem renderers_return_cleanly
    (df dm ds : pd.DataFrame) (title_suffix output_dir : string) (w : World) :
  let clean := fun w' : World =>
    open_figures w' = open_figures w
    /\ exists line : string, console w' = (console w ++ [line])%list in
  on_return clean (plot_maml_learning_curves df title_suffix output_dir w)
  /\ on_return clean (plot_sgd_performance_distribution df title_suffix output_dir w)
  /\ on_return clean (plot_gradient_alignment_maml df title_suffix output_dir w)
  /\ on_return clean (plot_weight_drift_comparison dm ds title_suffix output_dir w).
Proof.
  cbv zeta. unfold on_return.
  pose proof (plot_maml_learning_curves_outcome df title_suffix output_dir w) as [_ H1].
  pose proof (plot_sgd_performance_distribution_outcome df title_suffix output_dir w)
    as [_ H2].
  pose proof (plot_gradient_alignment_maml_outcome df title_suffix output_dir w) as [_ H3].
  pose proof (plot_weight_drift_comparison_outcome dm ds title_suffix output_dir w)
    as [_ H4].
  repeat split.
  - destruct (fst (plot_maml_learning_curves _ _ _ _)); [exact H1 | exact I].
  - destruct (fst (plot_sgd_performance_distribution _ _ _ _)); [exact H2 | exact I].
  - destruct (fst (plot_gradient_alignment_maml _ _ _ _)); [exact H3 | exact I].
  - destruct (fst (plot_weight_drift_comparison _ _ _ _ _)); [exact H4 | exact I].
Qed.

(** A renderer raises nothing but [ValueError] and [OSError]; when it raises
    it has saved no file and printed no line, and the figure it made stays
    open: there is one more open figure than before. *)
Theorem renderers_raise_leaking
    (df dm ds : pd.DataFrame) (title_suffix output_dir : string) (w : World) :
  let leak := fun (e : exn) (w' : World) =>
    (e = ValueError \/ e = OSError)
    /\ files w' = files w
    /\ console w' = console w
    /\ open_figures w' = S (open_figures w) in
  on_raise leak (plot_maml_learning_curves df title_suffix output_dir w)
  /\ on_raise leak (plot_sgd_performance_distribution df title_suffix output_dir w)
  /\ on_raise leak (plot_gradient_alignment_maml df title_suffix output_dir w)
  /\ on_raise leak (plot_weight_drift_comparison dm ds title_suffix output_dir w).
Proof.
  cbv zeta. unfold on_raise.
  pose proof (plot_maml_learning_curves_outcome df title_suffix output_dir w) as [_ H1].
  pose proof (plot_sgd_performance_distribution_outcome df title_suffix output_dir w)
    as [_ H2].
  pose proof (plot_gradient_alignment_maml_outcome df title_suffix output_dir w) as [_ H3].
  pose proof (plot_weight_drift_comparison_outcome dm ds title_suffix output_dir w)
    as [_ H4].
  repeat split.
  - destruct (fst (plot_maml_learning_curves _ _ _ _)); [exact I | exact H1].
  - destruct (fst (plot_sgd_performance_distribution _ _ _ _)); [exact I | exact H2].
  - destruct (fst (plot_gradient_alignment_maml _ _ _ _)); [exact I | exact H3].
  - destruct (fst (plot_weight_drift_comparison _ _ _ _ _)); [exact I | exact H4].
Qed.

(* ------------------------------------------------------------------ *)
(** ** Required columns *)

Ltac leak_run :=
  intros [allows parses saved made lines opened];
  unfold after_leak; world_fields; plot_run; reflexivity.

(** A table with rows that lacks a column its plot is drawn from makes the
    renderer raise [ValueError] after the figure is made: log_step, val_loss
    or val_accuracy for the learning curves, query_accuracy or query_loss for
    the distribution, log_step for the gradient alignment, epoch for the
    drift lines.  Nothing is saved or printed and no directory is made. *)
Theorem missing_required_column_raises
    (dc dq dg dm ds : pd.DataFrame) (title_suffix output_dir : string) (w : World) :
  pd.empty dc = false -> maml_curves_plottable dc = false ->
  pd.empty dq = false -> sgd_plottable dq = false ->
  pd.empty dg = false -> pd.has_column "grad_alignment" dg = true ->
  pd.has_column "log_step" dg = false ->
  pd.empty dm = false -> pd.has_column "l2_drift_from_init" dm = true ->
  pd.has_column "epoch" dm = false ->
  plot_maml_learning_curves dc title_suffix output_dir w
  = (Raise ValueError, after_leak w (dirs w))
  /\ plot_sgd_performance_distribution dq title_suffix output_dir w
     = (Raise ValueError, after_leak w (dirs w))
  /\ plot_gradient_alignment_maml dg title_suffix output_dir w
     = (Raise ValueError, after_leak w (dirs w))
  /\ plot_weight_drift_comparison dm ds title_suffix output_dir w
     = (Raise ValueError, after_leak w (dirs w)).
Proof.
  intros Ec Pc Eq Pq Eg Gg Sg Em Im Pm.
  split; [|split; [|split]]; revert w.
  - unfold maml_curves_plottable in Pc. unfold plot_maml_learning_curves.
    destruct (pd.has_column "log_step" dc) eqn:C1;
      destruct (pd.has_column "val_loss" dc) eqn:C2;
      destruct (pd.has_column "val_accuracy" dc) eqn:C3;
      try discriminate Pc; leak_run.
  - unfold sgd_plottable in Pq. unfold plot_sgd_performance_distribution.
    destruct (pd.has_column "query_accuracy" dq) eqn:C1;
      destruct (pd.has_column "query_loss" dq) eqn:C2;
      try discriminate Pq; leak_run.
  - unfold plot_gradient_alignment_maml. leak_run.
  - unfold plot_weight_drift_comparison. leak_run.
Qed.

Lemma missing_required_column_raises_example :
  plot_maml_learning_curves (only_column "log_step") " x" "figures" fresh_world
  = (Raise ValueError, after_leak fresh_world (dirs fresh_world))
  /\ plot_sgd_performance_distribution (only_column "query_loss") " x" "figures"
       fresh_world
     = (Raise ValueError, after_leak fresh_world (dirs fresh_world))
  /\ plot_gradient_alignment_maml (only_column "grad_alignment") " x" "figures"
       fresh_world
     = (Raise ValueError, after_leak fresh_world (dirs fresh_world))
  /\ plot_weight_drift_comparison (only_column "l2_drift_from_init") pd.empty_frame
       " x" "figures" fresh_world
     = (Raise ValueError, after_leak fresh_world (dirs fresh_world)).
Proof.
  apply (@missing_required_column_raises
           (only_column "log_step") (only_column "query_loss")
           (only_column "grad_alignment") (only_column "l2_drift_from_init")
           pd.empty_frame " x" "figures" fresh_world); reflexivity.
Defined.

(* ------------------------------------------------------------------ *)
(** ** A refusing operating system *)



(* ------------------------------------------------------------------ *)
(** ** Rendering twice *)

Lemma file_at_last (path : string) (fig : Figure) (fs : list (string * Figure)) :
  file_at path (fs ++ [(path, fig)]) = Some fig.
Proof.
  induction fs as [|[p f] fs IH].
  - cbn [app file_at]. now rewrite String.eqb_refl.
  - cbn [app file_at]. now rewrite IH.
Qed.

Lemma add_dir_In (d : string) (ds : list string) : In d (add_dir d ds).
Proof.
  unfold add_dir. destruct (existsb (String.eqb d) ds) eqn:E.
  - apply existsb_exists in E. destruct E as [x [Hin Hx]].
    apply String.eqb_eq in Hx. now subst x.
  - apply in_or_app. right. now left.
Qed.

Lemma add_dir_idempotent (d : string) (ds : list string) :
  add_dir d (add_dir d ds) = add_dir d ds.
Proof.
  unfold add_dir at 1.
  replace (existsb (String.eqb d) (add_dir d ds)) with true; [reflexivity|].
  symmetry. apply existsb_exists. exists d. split; [apply add_dir_In|].
  apply String.eqb_refl.
Qed.

Lemma add_dir_NoDup (d : string) (ds : list string) : NoDup ds -> NoDup (add_dir d ds).
Proof.
  intros H. unfold add_dir. destruct (existsb (String.eqb d) ds) eqn:E; [exact H|].
  apply NoDup_app; [exact H | constructor; [intros [] | constructor] |].
  intros x Hx [Heq|[]]. subst x.
  assert (existsb (String.eqb d) ds = true) as Ht.
  { apply existsb_exists. exists d. split; [exact Hx | apply String.eqb_refl]. }
  congruence.
Qed.

(** The file system after the same successful save done twice. *)
Lemma after_save_twice (w : World) (output_dir path line : string) (fig : Figure) :
  let w1 := after_save w output_dir path fig line in
  let w2 := after_save w1 output_dir path fig line in
  dirs w2 = dirs w1
  /\ In output_dir (dirs w1)
  /\ (NoDup (dirs w) -> NoDup (dirs w2))
  /\ file_at path (files w1) = Some fig
  /\ file_at path (files w2) = Some fig
  /\ console w2 = (console w ++ [line; line])%list.
Proof.
  cbv zeta. unfold after_save. world_fields.
  split; [apply add_dir_idempotent|]. split; [apply add_dir_In|].
  split; [intros H; rewrite add_dir_idempotent; now apply add_dir_NoDup|].
  split; [apply file_at_last|]. split; [apply file_at_last|].
  now rewrite <- app_assoc.
Qed.

(** With a title suffix that is not in math mode, calling a renderer twice
    with the same arguments succeeds twice when the operating system grants
    the directory and the files: the output directory is there after the
    first call and the second call leaves the directories as they are (no
    duplicate); the file at the image path is overwritten with the same
    figure; one line is printed per call. *)
Theorem rendering_twice
    (df dq dm ds : pd.DataFrame) (title_suffix output_dir : string) (w : World) :
  pd.empty df = false -> maml_curves_plottable df = true ->
  pd.has_column "grad_alignment" df = true ->
  pd.empty dq = false -> sgd_plottable dq = true ->
  maml_drift_plottable dm = true ->
  plt.is_math_text title_suffix = false ->
  os_allows w (MakeDirs output_dir) = true ->
  (forall p : string, os_allows w (WriteFile p) = true) ->
  let twice := fun (plot : Plot unit) (base : string) =>
    exists (w1 w2 : World) (fig : Figure) (line : string),
      plot w = (Ok tt, w1) /\ plot w1 = (Ok tt, w2)
      /\ dirs w2 = dirs w1 /\ In output_dir (dirs w1)
      /\ (NoDup (dirs w) -> NoDup (dirs w2))
      /\ file_at (image_path output_dir base title_suffix) (files w1) = Some fig
      /\ file_at (image_path output_dir base title_suffix) (files w2) = Some fig
      /\ console w2 = (console w ++ [line; line])%list in
  twice (plot_maml_learning_curves df title_suffix output_dir) "maml_learning_curves"
  /\ twice (plot_sgd_performance_distribution dq title_suffix output_dir)
       "sgd_performance_distribution"
  /\ twice (plot_gradient_alignment_maml df title_suffix output_dir)
       "maml_gradient_alignment"
  /\ twice (plot_weight_drift_comparison dm ds title_suffix output_dir)
       "weight_drift_comparison".
Proof.
  intros Ef Pf Gf Eq Pq Pm Hplain Hmk Hwr. cbv zeta.
  assert (Cstep : pd.has_column "log_step" df = true).
  { unfold maml_curves_plottable in Pf. apply andb_true_iff in Pf.
    destruct Pf as [Pf _]. apply andb_true_iff in Pf. now destruct Pf. }
  destruct (plot_maml_learning_curves_saved df title_suffix output_dir Ef Pf Hplain)
    as [fig1 H1].
  destruct (plot_sgd_performance_distribution_saved dq title_suffix output_dir Eq Pq
              Hplain) as [fig2 [_ H2]].
  destruct (plot_gradient_alignment_maml_saved df title_suffix output_dir Ef Gf Cstep
              Hplain) as [fig3 H3].
  destruct (plot_weight_drift_comparison_saved dm ds title_suffix output_dir Pm Hplain)
    as [fig4 H4].
  split; [|split; [|split]].
  - eexists. eexists. exists fig1. eexists.
    split; [apply H1; [exact Hmk | apply Hwr]|].
    split; [apply H1; [exact Hmk | apply Hwr]|]. apply after_save_twice.
  - eexists. eexists. exists fig2. eexists.
    split; [apply H2; [exact Hmk | apply Hwr]|].
    split; [apply H2; [exact Hmk | apply Hwr]|]. apply after_save_twice.
  - eexists. eexists. exists fig3. eexists.
    split; [apply H3; [exact Hmk | apply Hwr]|].
    split; [apply H3; [exact Hmk | apply Hwr]|]. apply after_save_twice.
  - eexists. eexists. exists fig4. eexists.
    split; [apply H4; [exact Hmk | apply Hwr]|].
    split; [apply H4; [exact Hmk | apply Hwr]|]. apply after_save_twice.
Qed.

Lemma rendering_twice_example :
  let twice := fun (plot : Plot unit) (base : string) =>
    exists (w1 w2 : World) (fig : Figure) (line : string),
      plot fresh_world = (Ok tt, w1) /\ plot w1 = (Ok tt, w2)
      /\ dirs w2 = dirs w1 /\ In "figures" (dirs w1)
      /\ (NoDup (dirs fresh_world) -> NoDup (dirs w2))
      /\ file_at (image_path "figures" base " x") (files w1) = Some fig
      /\ file_at (image_path "figures" base " x") (files w2) = Some fig
      /\ console w2 = (console fresh_world ++ [line; line])%list in
  twice (plot_maml_learning_curves one_row_full_trajectory " x" "figures")
    "maml_learning_curves"
  /\ twice (plot_sgd_performance_distribution one_row_sgd " x" "figures")
       "sgd_performance_distribution"
  /\ twice (plot_gradient_alignment_maml one_row_full_trajectory " x" "figures")
       "maml_gradient_alignment"
  /\ twice (plot_weight_drift_comparison pd.empty_frame pd.empty_frame " x" "figures")
       "weight_drift_comparison".
Proof.
  apply (@rendering_twice one_row_full_trajectory one_row_sgd pd.empty_frame
           pd.empty_frame " x" "figures" fresh_world); reflexivity.
Defined.

(* ------------------------------------------------------------------ *)
(** ** The tables of the main section *)

Lemma gbind_ok {A B} (m : Gen A) (k : A -> Gen B) (rs rs' : RandomState) (a : A) :
  m rs = Ok (a, rs') -> gbind m k rs = k a rs'.
Proof. intros H. unfold gbind. now rewrite H. Qed.

Lemma gbind_glift_ok {A B} (r : result A) (k : A -> Gen B) (rs : RandomState) (a : A) :
  r = Ok a -> gbind (glift r) k rs = k a rs.
Proof. intros ->. reflexivity. Qed.

Ltac frame_simpl :=
  cbn [imul isub iclip pd.setitem pd.replace pd.getitem pd.lookup pd.columns pd.nrows
       String.eqb Ascii.eqb Bool.eqb andb].

Ltac gen_step :=
  first
    [ erewrite gbind_ok
        by (apply generate_dummy_maml_trajectory_eq; first [lia | reflexivity])
    | erewrite gbind_ok by (apply generate_dummy_sgd_trajectory_eq; lia)
    | erewrite gbind_ok by (apply generate_dummy_drift_data_maml_eq; lia)
    | erewrite gbind_ok by (apply generate_dummy_drift_data_sgd_eq; [lia | lra])
    | erewrite gbind_glift_ok by (frame_simpl; reflexivity) ];
  cbv beta.

Ltac run_dummy_tables :=
  unfold dummy_tables; do 15 gen_step; unfold gret.

Lemma log_steps_main : List.length (log_steps 10000 100) = 100%nat.
Proof. rewrite log_steps_length by int_bounds. reflexivity. Qed.

(** For every realization the main section gets its eight tables, and every
    renderer can draw the ones it is given. *)
Lemma dummy_tables_ready (rs : RandomState) :
  exists (t : Tables) (rs' : RandomState),
    dummy_tables rs = Ok (t, rs') /\ tables_ready t.
Proof.
  eexists. eexists. split; [run_dummy_tables; reflexivity|].
  unfold tables_ready, trajectory_ready, sgd_ready.
  cbn [dummy_maml_df_simple dummy_maml_df_complex dummy_sgd_df_simple
       dummy_sgd_df_complex dummy_maml_drift_simple dummy_maml_drift_complex].
  assert (Hrows : Nat.eqb (List.length (log_steps 10000 100)) 0 = false)
    by now rewrite log_steps_main.
  repeat split; try reflexivity; unfold pd.empty; frame_simpl; exact Hrows.
Qed.

Lemma scaled_clipped_within (k d hi : R) (col : list cell) :
  (0 <= k)%R -> (k - d <= hi)%R -> (0 <= hi <= 1)%R ->
  Forall (fun c => (0 <= cell_value c <= 1)%R) col ->
  Forall (fun c => (0 <= cell_value c <= hi)%R)
         (pd.clip 0 1 (map (shift_cell d) (map (scale_cell k) col))).
Proof.
  intros Hk Hd Hhi H. unfold pd.clip. rewrite !map_map. apply Forall_forall.
  intros c Hin. apply in_map_iff in Hin. destruct Hin as [c0 [<- Hin]].
  assert (0 <= cell_value c0 <= 1)%R as Hc.
  { revert c0 Hin. now apply Forall_forall. }
  cbn [shift_cell scale_cell pd.clip_cell cell_value].
  assert (cell_value c0 * k - d <= hi)%R by nra.
  split.
  - apply Rmin_glb; [apply Rmax_r | lra].
  - apply Rle_trans with (Rmax (cell_value c0 * k - d) 0).
    + apply Rmin_l.
    + apply Rmax_lub; lra.
Qed.

(** For every realization the main section builds its tables without
    raising: 100 rows in each MAML trajectory and drift series, 200 in each
    SGD trajectory and drift table.  The accuracies of the simple variants lie
    in [0, 1]; rescaled and clipped again, val_accuracy of the complex MAML
    table lies in [0, 0.85] and query_accuracy of the complex SGD table in
    [0, 0.8]. *)
Theorem main_tables (rs : RandomState) :
  exists (t : Tables) (rs' : RandomState),
    dummy_tables rs = Ok (t, rs')
    /\ map pd.nrows
         [dummy_maml_df_simple t; dummy_maml_df_complex t;
          dummy_sgd_df_simple t; dummy_sgd_df_complex t;
          dummy_maml_drift_simple t; dummy_sgd_final_drifts_simple t;
          dummy_maml_drift_complex t; dummy_sgd_final_drifts_complex t]
       = [100; 100; 200; 200; 100; 200; 100; 200]%nat
    /\ pd.column_names (dummy_maml_df_complex t)
       = ["log_step"; "val_loss"; "val_accuracy"; "grad_alignment"]
    /\ pd.column_names (dummy_sgd_df_complex t)
       = ["task_idx"; "query_loss"; "query_accuracy"; "final_support_loss";
          "num_sgd_steps"; "lr"]
    /\ column_within 0 1 "val_accuracy" (dummy_maml_df_simple t)
    /\ column_within 0 0.85 "val_accuracy" (dummy_maml_df_complex t)
    /\ column_within 0 1 "query_accuracy" (dummy_sgd_df_simple t)
    /\ column_within 0 0.8 "query_accuracy" (dummy_sgd_df_complex t).
Proof.
  eexists. eexists. split; [run_dummy_tables; reflexivity|].
  cbn [dummy_maml_df_simple dummy_maml_df_complex dummy_sgd_df_simple
       dummy_sgd_df_complex dummy_maml_drift_simple dummy_maml_drift_complex
       dummy_sgd_final_drifts_simple dummy_sgd_final_drifts_complex].
  split.
  { cbn [map]. frame_simpl. rewrite log_steps_main. reflexivity. }
  split; [reflexivity|]. split; [reflexivity|].
  unfold column_within.
  split; [|split; [|split]]; eexists; (split; [lookup_column; frame_simpl; reflexivity|]);
    frame_simpl.
  - split; [|apply clip_unit]. now autorewrite with frame_len;
      rewrite add_length; autorewrite with frame_len.
  - split; [|apply scaled_clipped_within; [lra | lra | lra | apply clip_unit]].
    now autorewrite with frame_len; rewrite add_length; autorewrite with frame_len.
  - split; [|apply clip_unit]. now autorewrite with frame_len;
      rewrite add_length; autorewrite with frame_len.
  - split; [|apply scaled_clipped_within; [lra | lra | lra | apply clip_unit]].
    now autorewrite with frame_len; rewrite add_length; autorewrite with frame_len.
Qed.

(* ------------------------------------------------------------------ *)
(** ** The main section *)

Lemma pbind_ok {A B} (m : Plot A) (k : A -> Plot B) (w w' : World) (a : A) :
  m w = (Ok a, w') -> pbind m k w = k a w'.
Proof. intros H. unfold pbind. now rewrite H. Qed.

Lemma pbind_raise {A B} (m : Plot A) (k : A -> Plot B) (w w' : World) (e : exn) :
  m w = (Raise e, w') -> pbind m k w = (Raise e, w').
Proof. intros H. unfold pbind. now rewrite H. Qed.

Lemma make_tables_ok (rs rs' : RandomState) (t : Tables) (w : World) :
  dummy_tables rs = Ok (t, rs') -> make_tables rs w = (Ok t, w).
Proof. intros H. unfold make_tables, plift. now rewrite H. Qed.

Lemma print_ok (s : string) (w : World) : print s w = (Ok tt, after_print w s).
Proof. reflexivity. Qed.

(** The simple SGD table of the main section has 200 rows. *)
Lemma main_rows (rs : RandomState) :
  exists (t : Tables) (rs' : RandomState),
    dummy_tables rs = Ok (t, rs') /\ pd.nrows (dummy_sgd_df_simple t) = 200%nat.
Proof.
  eexists. eexists. split; [run_dummy_tables; reflexivity|]. reflexivity.
Qed.

(** When the operating system grants every request, the main section
    returns for every realization: it saves exactly eight images under
    figures/, four per concept and in the order of the calls, prints ten
    lines, makes the directory once and leaves no figure open. *)
Theorem main_saves_eight_images (rs : RandomState) (w : World) :
  (forall r : request, os_allows w r = true) ->
  exists (w' : World) (f1 f2 f3 f4 f5 f6 f7 f8 : Figure),
    main rs w = (Ok tt, w')
    /\ files w'
       = (files w
          ++ [("figures/maml_learning_curves_(Concept:_Simple).png", f1);
              ("figures/sgd_performance_distribution_(Concept:_Simple).png", f2);
              ("figures/maml_gradient_alignment_(Concept:_Simple).png", f3);
              ("figures/weight_drift_comparison_(Concept:_Simple).png", f4);
              ("figures/maml_learning_curves_(Concept:_Complex).png", f5);
              ("figures/sgd_performance_distribution_(Concept:_Complex).png", f6);
              ("figures/maml_gradient_alignment_(Concept:_Complex).png", f7);
              ("figures/weight_drift_comparison_(Concept:_Complex).png", f8)])%list
    /\ console w'
       = (console w
          ++ ["Generating plots with dummy data...";
              "Saved MAML learning curves plot to figures/";
              "Saved SGD performance distribution plot to figures/";
              "Saved MAML gradient alignment plot to figures/";
              "Saved weight drift comparison plot to figures/";
              "Saved MAML learning curves plot to figures/";
              "Saved SGD performance distribution plot to figures/";
              "Saved MAML gradient alignment plot to figures/";
              "Saved weight drift comparison plot to figures/";
              "Finished generating dummy plots. Check the 'figures' directory."])%list
    /\ dirs w' = add_dir "figures" (dirs w)
    /\ open_figures w' = open_figures w
    /\ suptitle f2 = Some "SGD Baseline Performance Over 200 Tasks  (Concept: Simple)".
Proof.
  intros Hall.
  destruct (dummy_tables_ready rs) as (t & rs' & Htab & Hready).
  destruct Hready as ((E1 & P1 & G1 & S1) & (E2 & P2 & G2 & S2) & (E3 & P3) & (E4 & P4)
                      & D1 & D2).
  destruct (plot_maml_learning_curves_saved (dummy_maml_df_simple t)
              " (Concept: Simple)" "figures" E1 P1 eq_refl) as [f1 H1].
  destruct (plot_sgd_performance_distribution_saved (dummy_sgd_df_simple t)
              " (Concept: Simple)" "figures" E3 P3 eq_refl) as [f2 [T2 H2]].
  destruct (plot_gradient_alignment_maml_saved (dummy_maml_df_simple t)
              " (Concept: Simple)" "figures" E1 G1 S1 eq_refl) as [f3 H3].
  destruct (plot_weight_drift_comparison_saved (dummy_maml_drift_simple t)
              (dummy_sgd_final_drifts_simple t) " (Concept: Simple)" "figures" D1
              eq_refl) as [f4 H4].
  destruct (plot_maml_learning_curves_saved (dummy_maml_df_complex t)
              " (Concept: Complex)" "figures" E2 P2 eq_refl) as [f5 H5].
  destruct (plot_sgd_performance_distribution_saved (dummy_sgd_df_complex t)
              " (Concept: Complex)" "figures" E4 P4 eq_refl) as [f6 [_ H6]].
  destruct (plot_gradient_alignment_maml_saved (dummy_maml_df_complex t)
              " (Concept: Complex)" "figures" E2 G2 S2 eq_refl) as [f7 H7].
  destruct (plot_weight_drift_comparison_saved (dummy_maml_drift_complex t)
              (dummy_sgd_final_drifts_complex t) " (Concept: Complex)" "figures" D2
              eq_refl) as [f8 H8].
  eexists. exists f1, f2, f3, f4, f5, f6, f7, f8. split.
  { unfold main.
    erewrite pbind_ok by apply print_ok.
    erewrite pbind_ok by (eapply make_tables_ok; exact Htab).
    erewrite pbind_ok by (apply H1; cbn [os_allows after_save after_print]; apply Hall).
    erewrite pbind_ok by (apply H2; cbn [os_allows after_save after_print]; apply Hall).
    erewrite pbind_ok by (apply H3; cbn [os_allows after_save after_print]; apply Hall).
    erewrite pbind_ok by (apply H4; cbn [os_allows after_save after_print]; apply Hall).
    erewrite pbind_ok by (apply H5; cbn [os_allows after_save after_print]; apply Hall).
    erewrite pbind_ok by (apply H6; cbn [os_allows after_save after_print]; apply Hall).
    erewrite pbind_ok by (apply H7; cbn [os_allows after_save after_print]; apply Hall).
    erewrite pbind_ok by (apply H8; cbn [os_allows after_save after_print]; apply Hall).
    apply print_ok. }
  cbn [files console dirs open_figures after_save after_print].
  rewrite <- !app_assoc. cbn [app]. rewrite !add_dir_idempotent.
  split; [reflexivity|]. split; [reflexivity|]. split; [reflexivity|].
  split; [reflexivity|].
  rewrite T2.
  assert (Hrows : pd.nrows (dummy_sgd_df_simple t) = 200%nat).
  { destruct (main_rows rs) as (t0 & rs0 & Htab0 & Hr).
    rewrite Htab in Htab0. injection Htab0 as <- _. exact Hr. }
  rewrite Hrows. reflexivity.
Qed.

Lemma main_saves_eight_images_example :
  exists (w' : World) (f1 f2 f3 f4 f5 f6 f7 f8 : Figure),
    main (constant_outcomes 0 0) fresh_world = (Ok tt, w')
    /\ files w'
       = (files fresh_world
          ++ [("figures/maml_learning_curves_(Concept:_Simple).png", f1);
              ("figures/sgd_performance_distribution_(Concept:_Simple).png", f2);
              ("figures/maml_gradient_alignment_(Concept:_Simple).png", f3);
              ("figures/weight_drift_comparison_(Concept:_Simple).png", f4);
              ("figures/maml_learning_curves_(Concept:_Complex).png", f5);
              ("figures/sgd_performance_distribution_(Concept:_Complex).png", f6);
              ("figures/maml_gradient_alignment_(Concept:_Complex).png", f7);
              ("figures/weight_drift_comparison_(Concept:_Complex).png", f8)])%list
    /\ console w'
       = (console fresh_world
          ++ ["Generating plots with dummy data...";
              "Saved MAML learning curves plot to figures/";
              "Saved SGD performance distribution plot to figures/";
              "Saved MAML gradient alignment plot to figures/";
              "Saved weight drift comparison plot to figures/";
              "Saved MAML learning curves plot to figures/";
              "Saved SGD performance distribution plot to figures/";
              "Saved MAML gradient alignment plot to figures/";
              "Saved weight drift comparison plot to figures/";
              "Finished generating dummy plots. Check the 'figures' directory."])%list
    /\ dirs w' = add_dir "figures" (dirs fresh_world)
    /\ open_figures w' = open_figures fresh_world
    /\ suptitle f2 = Some "SGD Baseline Performance Over 200 Tasks  (Concept: Simple)".
Proof.
  apply (@main_saves_eight_images (constant_outcomes 0 0) fresh_world). reflexivity.
Defined.

Lemma plot_sgd_performance_distribution_write_refused
    (df : pd.DataFrame) (title_suffix output_dir : string) (w : World) :
  pd.empty df = false ->
  sgd_plottable df = true ->
  plt.is_math_text title_suffix = false ->
  os_allows w (MakeDirs output_dir) = true ->
  os_allows w (WriteFile (image_path output_dir "sgd_performance_distribution"
                            title_suffix)) = false ->
  plot_sgd_performance_distribution df title_suffix output_dir w
  = (Raise OSError, after_leak w (add_dir output_dir (dirs w))).
Proof.
  intros Hne Hcols Hplain Hmk Hwr. destruct w as [allows parses saved made lines opened].
  world_fields. unfold image_path in *. unfold sgd_plottable in Hcols.
  apply andb_true_iff in Hcols. destruct Hcols as [Hacc Hloss].
  unfold plot_sgd_performance_distribution, after_leak, add_dir. world_fields.
  plot_run. reflexivity.
Qed.

(** A failure is fatal to the whole run, and what was done stays done: when
    the operating system refuses the second image the main section raises
    [OSError]; the first image is saved and reported, the six plots after the
    failing one are never attempted, the final line is not printed and the
    failing plot's figure stays open. *)
Theorem main_stops_at_first_failure (rs : RandomState) (w : World) :
  os_allows w (MakeDirs "figures") = true ->
  os_allows w (WriteFile "figures/maml_learning_curves_(Concept:_Simple).png") = true ->
  os_allows w (WriteFile "figures/sgd_performance_distribution_(Concept:_Simple).png")
  = false ->
  exists (w' : World) (f1 : Figure),
    main rs w = (Raise OSError, w')
    /\ files w'
       = (files w ++ [("figures/maml_learning_curves_(Concept:_Simple).png", f1)])%list
    /\ console w'
       = (console w
          ++ ["Generating plots with dummy data...";
              "Saved MAML learning curves plot to figures/"])%list
    /\ open_figures w' = S (open_figures w).
Proof.
  intros Hmk Hw1 Hw2.
  destruct (dummy_tables_ready rs) as (t & rs' & Htab & Hready).
  destruct Hready as ((E1 & P1 & G1 & S1) & _ & (E3 & P3) & _).
  destruct (plot_maml_learning_curves_saved (dummy_maml_df_simple t)
              " (Concept: Simple)" "figures" E1 P1 eq_refl) as [f1 H1].
  eexists. exists f1. split.
  { unfold main.
    erewrite pbind_ok by apply print_ok.
    erewrite pbind_ok by (eapply make_tables_ok; exact Htab).
    erewrite pbind_ok
      by (apply H1; cbn [os_allows after_save after_print]; assumption).
    apply pbind_raise.
    apply plot_sgd_performance_distribution_write_refused;
      [exact E3 | exact P3 | reflexivity | |];
      cbn [os_allows after_save after_print]; assumption. }
  cbn [files console dirs open_figures after_save after_print after_leak].
  rewrite <- !app_assoc. repeat split; reflexivity.
Qed.

Lemma main_stops_at_first_failure_example :
  exists (w' : World) (f1 : Figure),
    main (constant_outcomes 0 0)
      (world_refusing "figures/sgd_performance_distribution_(Concept:_Simple).png")
    = (Raise OSError, w')
    /\ files w'
       = (files (world_refusing
                   "figures/sgd_performance_distribution_(Concept:_Simple).png")
          ++ [("figures/maml_learning_curves_(Concept:_Simple).png", f1)])%list
    /\ console w'
       = (console (world_refusing
                     "figures/sgd_performance_distribution_(Concept:_Simple).png")
          ++ ["Generating plots with dummy data...";
              "Saved MAML learning curves plot to figures/"])%list
    /\ open_figures w'
       = S (open_figures (world_refusing
                            "figures/sgd_performance_distribution_(Concept:_Simple).png")).
Proof.
  apply (@main_stops_at_first_failure (constant_outcomes 0 0)
           (world_refusing "figures/sgd_performance_distribution_(Concept:_Simple).png"));
    reflexivity.
Defined.

(* ------------------------------------------------------------------ *)
(** ** Suffixes that name the same file *)

Lemma str_replace_idempotent (s : string) :
  str_replace " " "_" (str_replace " " "_" s) = str_replace " " "_" s.
Proof.
  induction s as [|c s IH]; [reflexivity|].
  cbn [str_replace]. rewrite IH. f_equal.
  destruct (Ascii.eqb c " ") eqn:E; [reflexivity|]. now rewrite E.
Qed.

Lemma str_replace_length (s : string) :
  String.length (str_replace " " "_" s) = String.length s.
Proof. induction s as [|c s IH]; [reflexivity|]. cbn [str_replace String.length]. now rewrite IH. Qed.

(** A title suffix and the same suffix with its spaces already turned into
    underscores name the same image: when the suffix is not in math mode,
    plotting with the one and then with the other saves twice at one path,
    and the file holds the second figure.  The replacement keeps the length
    of the suffix. *)
Theorem underscored_suffix_overwrites
    (dm ds : pd.DataFrame) (title_suffix output_dir : string) (w : World) :
  maml_drift_plottable dm = true ->
  plt.is_math_text title_suffix = false ->
  os_allows w (MakeDirs output_dir) = true ->
  (forall p : string, os_allows w (WriteFile p) = true) ->
  let path := image_path output_dir "weight_drift_comparison" title_suffix in
  String.length (str_replace " " "_" title_suffix) = String.length title_suffix
  /\ image_path output_dir "weight_drift_comparison" (str_replace " " "_" title_suffix)
     = path
  /\ exists (w1 w2 : World) (fig1 fig2 : Figure),
       plot_weight_drift_comparison dm ds title_suffix output_dir w = (Ok tt, w1)
       /\ plot_weight_drift_comparison dm ds (str_replace " " "_" title_suffix)
            output_dir w1 = (Ok tt, w2)
       /\ files w2 = (files w ++ [(path, fig1); (path, fig2)])%list
       /\ file_at path (files w2) = Some fig2.
Proof.
  intros Hdm Hplain Hmk Hwr. cbv zeta.
  assert (Hpath : image_path output_dir "weight_drift_comparison"
                    (str_replace " " "_" title_suffix)
                  = image_path output_dir "weight_drift_comparison" title_suffix).
  { unfold image_path. now rewrite str_replace_idempotent. }
  split; [apply str_replace_length|]. split; [exact Hpath|].
  destruct (plot_weight_drift_comparison_saved dm ds title_suffix output_dir Hdm Hplain)
    as [fig1 H1].
  assert (Hplain2 : plt.is_math_text (str_replace " " "_" title_suffix) = false)
    by now rewrite is_math_text_str_replace.
  destruct (plot_weight_drift_comparison_saved dm ds (str_replace " " "_" title_suffix)
              output_dir Hdm Hplain2) as [fig2 H2].
  eexists. eexists. exists fig1, fig2.
  split; [apply H1; [exact Hmk | apply Hwr]|].
  split; [apply H2; cbn [os_allows after_save]; [exact Hmk | apply Hwr]|].
  rewrite Hpath. cbn [files after_save]. rewrite <- app_assoc. cbn [app].
  split; [reflexivity|].
  change (files w ++ [(image_path output_dir "weight_drift_comparison" title_suffix, fig1);
                      (image_path output_dir "weight_drift_comparison" title_suffix, fig2)])%list
    with (files w ++ ([(image_path output_dir "weight_drift_comparison" title_suffix, fig1)]
                      ++ [(image_path output_dir "weight_drift_comparison" title_suffix,
                           fig2)]))%list.
  rewrite app_assoc. apply file_at_last.
Qed.

Lemma underscored_suffix_overwrites_example :
  let path := image_path "figures" "weight_drift_comparison" " (Concept: Simple)" in
  String.length (str_replace " " "_" " (Concept: Simple)")
  = String.length " (Concept: Simple)"
  /\ image_path "figures" "weight_drift_comparison"
       (str_replace " " "_" " (Concept: Simple)")
     = path
  /\ exists (w1 w2 : World) (fig1 fig2 : Figure),
       plot_weight_drift_comparison pd.empty_frame pd.empty_frame " (Concept: Simple)"
         "figures" fresh_world = (Ok tt, w1)
       /\ plot_weight_drift_comparison pd.empty_frame pd.empty_frame
            (str_replace " " "_" " (Concept: Simple)") "figures" w1 = (Ok tt, w2)
       /\ files w2 = (files fresh_world ++ [(path, fig1); (path, fig2)])%list
       /\ file_at path (files w2) = Some fig2.
Proof.
  apply (@underscored_suffix_overwrites pd.empty_frame pd.empty_frame
           " (Concept: Simple)" "figures" fresh_world); reflexivity.
Defined.
